(** * Aura / Crawler_Extractor: the paper lifecycle and its batch runners

    A shallow embedding of

      - [src/common/dtos.py], [src/common/errors.py], [src/common/repository.py]
      - [src/pipelines/attempts.py], [src/pipelines/processing_steps.py]
      - [src/pipelines/paper_processor.py], [src/pipelines/harness.py]
      - [src/pipelines/text_stage.py], [src/pipelines/scoring_stage.py]
      - [src/pipelines/pdf_acquisition_stage.py], [src/pipelines/citation_stage.py]
      - [src/pipelines/pgx_extraction_stage.py], [src/pipelines/seed.py]
      - [src/ingest/storage_gateway.py] (storage URIs) and
        [src/parsers/pgx_extractor.py] (actionability)

    Python objects that the code mutates through the Supabase client (the
    [papers] table) are an explicit store threaded through a state and
    exception monad; the collaborators (fetcher, storage, scorer, extractors)
    are records of fallible functions, and every call that the properties
    count is written to a call journal kept next to the store. *)

From Stdlib Require Import String Ascii List ZArith Bool Lia Floats Permutation.
Import ListNotations.
Local Open Scope string_scope.
Local Open Scope list_scope.

(* ------------------------------------------------------------------ *)
(** ** Python builtins used by the code *)

Module Py.

(** Text is a sequence of code points below 256, one character each; the
    case and whitespace operations below are those of [str] on such text. *)

(** [c.isspace()], the characters that [strip] removes: U+0009 to U+000D,
    U+001C to U+0020, U+0085 (next line) and U+00A0 (no-break space). *)
Definition is_space (c : ascii) : bool :=
  let n := nat_of_ascii c in
  ((9 <=? n)%nat && (n <=? 13)%nat) || ((28 <=? n)%nat && (n <=? 32)%nat)
  || (n =? 133)%nat || (n =? 160)%nat.

Fixpoint lstrip (s : string) : string :=
  match s with
  | String c r => if is_space c then lstrip r else s
  | EmptyString => EmptyString
  end.

Fixpoint rstrip (s : string) : string :=
  match s with
  | EmptyString => EmptyString
  | String c r =>
      match rstrip r with
      | EmptyString => if is_space c then EmptyString else String c EmptyString
      | r' => String c r'
      end
  end.

(** [s.strip()] *)
Definition strip (s : string) : string := lstrip (rstrip s).

(** [c.lower()]: A to Z, and U+00C0 to U+00DE without the multiplication
    sign U+00D7, move up by 32. *)
Definition lower_char (c : ascii) : ascii :=
  let n := nat_of_ascii c in
  if ((65 <=? n)%nat && (n <=? 90)%nat)
     || ((192 <=? n)%nat && (n <=? 222)%nat && negb (n =? 215)%nat)
  then ascii_of_nat (n + 32) else c.

(** [s.lower()] *)
Fixpoint lower (s : string) : string :=
  match s with
  | EmptyString => EmptyString
  | String c r => String (lower_char c) (lower r)
  end.

(** [c.casefold()], as code points: the fold of the sharp s U+00DF is [ss]
    and the fold of the micro sign U+00B5 is the Greek mu U+03BC, which is
    not a character of the text above; every other character folds to its
    lower case. *)
Definition casefold_char (c : ascii) : list N :=
  let n := N_of_ascii c in
  if (n =? 223)%N then [115%N; 115%N]
  else if (n =? 181)%N then [956%N]
  else [N_of_ascii (lower_char c)].

(** [s.casefold()], as the list of its code points. *)
Fixpoint casefold (s : string) : list N :=
  match s with
  | EmptyString => []
  | String c r => casefold_char c ++ casefold r
  end.

(** [a == b] on folded text. *)
Fixpoint points_eqb (a b : list N) : bool :=
  match a, b with
  | [], [] => true
  | x :: a', y :: b' => (x =? y)%N && points_eqb a' b'
  | _, _ => false
  end.

(** [s[:n]] *)
Fixpoint take (n : nat) (s : string) : string :=
  match n, s with
  | S k, String c r => String c (take k r)
  | _, _ => EmptyString
  end.

(** [s[n:]] *)
Fixpoint drop (n : nat) (s : string) : string :=
  match n, s with
  | S k, String _ r => drop k r
  | _, _ => s
  end.

(** [s.startswith(p)] *)
Definition startswith (p s : string) : bool := String.prefix p s.

(** [sub in s] *)
Fixpoint contains (sub s : string) : bool :=
  String.prefix sub s
  || match s with
     | String _ r => contains sub r
     | EmptyString => false
     end.

(** [c in s] for one character. *)
Fixpoint has_char (c : ascii) (s : string) : bool :=
  match s with
  | EmptyString => false
  | String d r => Ascii.eqb c d || has_char c r
  end.

(** JSON-like values: what a row of the table, an [updates] dict and a
    [metadata] dict hold. *)
Inductive value : Type :=
| VNone
| VBool (b : bool)
| VInt (z : Z)
| VFloat (f : float)
| VStr (s : string)
| VDict (d : list (string * value)).

(** A [dict] with string keys, in insertion order. *)
Definition dict : Type := list (string * value).

(** Truth value of an object ([bool(v)], [v or d], [if v]). *)
Definition truthy (v : value) : bool :=
  match v with
  | VNone => false
  | VBool b => b
  | VInt z => negb (z =? 0)%Z
  | VFloat f => negb (PrimFloat.eqb f 0%float)
  | VStr s => negb (String.eqb s "")
  | VDict d => match d with [] => false | _ :: _ => true end
  end.

Section Dict.
Context {A : Type}.

(** [d.get(k)] as an option: [None] when the key is absent. *)
Fixpoint get (k : string) (d : list (string * A)) : option A :=
  match d with
  | [] => None
  | (k', v) :: r => if String.eqb k k' then Some v else get k r
  end.

(** [d[k] = v] *)
Fixpoint set (k : string) (v : A) (d : list (string * A)) : list (string * A) :=
  match d with
  | [] => [(k, v)]
  | (k', v') :: r => if String.eqb k k' then (k, v) :: r else (k', v') :: set k v r
  end.

(** [d.update(u)] *)
Definition update (d u : list (string * A)) : list (string * A) :=
  fold_left (fun acc kv => set (fst kv) (snd kv) acc) u d.

(** [k in d] *)
Definition mem (k : string) (d : list (string * A)) : bool :=
  match get k d with Some _ => true | None => false end.
End Dict.

(** [d.get(k)] as Python sees it: an absent key reads as [None]. *)
Definition get_or_none (k : string) (d : dict) : value :=
  match get k d with Some v => v | None => VNone end.

End Py.

Import Py.

(* ------------------------------------------------------------------ *)
(** ** common/errors.py and the exception monad *)

(** The exception classes the code raises or catches.  [RuntimeError] stands
    for any other [Exception] a collaborator raises; [SchemaError] marks a
    column value outside its column type, which the table's schema rules
    out. *)
Inductive exn_class : Type :=
| RepositoryError
| DuplicateTopicError
| DuplicateTitleError
| StorageError
| ExtractionError
| KeyError
| ValueError
| AttributeError
| RuntimeError
| SchemaError.

(** An exception object: its class and [str(exc)]. *)
Record exn : Type := mk_exn { exn_cls : exn_class; exn_str : string }.

(** [isinstance(exc, RepositoryError)]: the two duplicate errors are
    subclasses. *)
Definition is_RepositoryError (e : exn) : bool :=
  match exn_cls e with
  | RepositoryError | DuplicateTopicError | DuplicateTitleError => true
  | _ => false
  end.

Definition is_duplicate_error (e : exn) : bool :=
  match exn_cls e with
  | DuplicateTopicError | DuplicateTitleError => true
  | _ => false
  end.

Inductive result (A : Type) : Type :=
| Ok (a : A)
| Raise (e : exn).
Arguments Ok {A} a.
Arguments Raise {A} e.

Definition rbind {A B} (r : result A) (k : A -> result B) : result B :=
  match r with
  | Ok a => k a
  | Raise e => Raise e
  end.

(* ------------------------------------------------------------------ *)
(** ** common/dtos.py *)

Definition MAX_PROCESSING_ATTEMPTS : Z := 2.

Inductive PaperState : Type :=
| PDF_AVAILABLE
| TEXT_AVAILABLE
| SCORED
| PROCESSED
| PROCESSED_LOW_SCORE
| PDF_NOT_AVAILABLE
| FAILED
| P1
| P1_WIP
| P1_SUCCESS
| P1_FAILURE.

(** [state.value] *)
Definition state_value (s : PaperState) : string :=
  match s with
  | PDF_AVAILABLE => "PDF Available"
  | TEXT_AVAILABLE => "Text Available"
  | SCORED => "Scored"
  | PROCESSED => "Processed"
  | PROCESSED_LOW_SCORE => "Processed (Low Score)"
  | PDF_NOT_AVAILABLE => "PDF Not Available"
  | FAILED => "Failed"
  | P1 => "P1"
  | P1_WIP => "P1WIP"
  | P1_SUCCESS => "P1Success"
  | P1_FAILURE => "P1Failure"
  end.

Definition all_states : list PaperState :=
  [PDF_AVAILABLE; TEXT_AVAILABLE; SCORED; PROCESSED; PROCESSED_LOW_SCORE;
   PDF_NOT_AVAILABLE; FAILED; P1; P1_WIP; P1_SUCCESS; P1_FAILURE].

Definition PaperState_eqb (a b : PaperState) : bool :=
  String.eqb (state_value a) (state_value b).

(** [PaperState(value)]: the member with that value, [ValueError] otherwise. *)
Definition PaperState_of (v : value) : result PaperState :=
  match v with
  | VStr s =>
      match find (fun st => String.eqb (state_value st) s) all_states with
      | Some st => Ok st
      | None => Raise (mk_exn ValueError (s ++ " is not a valid PaperState"))
      end
  | _ => Raise (mk_exn ValueError "not a valid PaperState")
  end.

Record StorageRef : Type := mk_ref { uri : string }.

Record PaperRecord : Type := mk_paper {
  id : string;
  title : string;
  state : PaperState;
  level : Z;
  attempts : Z;
  pdf_ref : option StorageRef;
  text_ref : option StorageRef;
  score : option float;
  reason : option string;
  pdf_md5 : option string;
  parent_id : option string;
  seed_number : option Z;
  metadata : dict;
  created_at : option string;
  updated_at : option string
}.

Record CitationRecord : Type := mk_citation { raw_text : string }.

Record ScoreResult : Type := mk_score {
  sr_score : float;
  sr_reason : string;
  sr_model_name : string;
  sr_duration_ms : Z
}.

Record StageOutcome : Type := mk_outcome {
  paper_id : string;
  stage : string;
  success : bool;
  message : string;
  out_metadata : dict
}.

(** [dataclasses.replace(paper, metadata=m)] *)
Definition replace_metadata (p : PaperRecord) (m : dict) : PaperRecord :=
  {| id := id p; title := title p; state := state p; level := level p;
     attempts := attempts p; pdf_ref := pdf_ref p; text_ref := text_ref p;
     score := score p; reason := reason p; pdf_md5 := pdf_md5 p;
     parent_id := parent_id p; seed_number := seed_number p; metadata := m;
     created_at := created_at p; updated_at := updated_at p |}.

(* ------------------------------------------------------------------ *)
(** ** The store behind the Supabase client *)

(** Calls that the properties count, in the order they happen. *)
Inductive call : Type :=
| CallFetchByState (st : PaperState) (limit : Z)
| CallFetchByStateAtLevel (st : PaperState) (lvl limit : Z)
| CallUpdateState (paper_id : string) (st : PaperState)
| CallIncrementAttempts (paper_id : string) (next : Z)
| CallCreatePlaceholder (title : string)
| CallFetcher (paper_id : string)
| CallStage (stage : string) (paper : PaperRecord)
| CallCompletion (stage : string) (paper_id : string).

(** The rows of the [papers] table, the rows written to extraction tables
    (with the table name), the number of [uuid4()] values, wall-clock
    readings, timer readings and [random.choice] draws taken so far, and the
    call journal. *)
Record world : Type := mk_world {
  papers : list dict;
  extraction_rows : list (string * dict);
  uuids : nat;
  clock : nat;
  timers : nat;
  draws : nat;
  journal : list call
}.

Definition with_papers (t : list dict) (w : world) : world :=
  {| papers := t; extraction_rows := extraction_rows w; uuids := uuids w;
     clock := clock w; timers := timers w; draws := draws w;
     journal := journal w |}.

Definition with_extraction_rows (t : list (string * dict)) (w : world) : world :=
  {| papers := papers w; extraction_rows := t; uuids := uuids w;
     clock := clock w; timers := timers w; draws := draws w;
     journal := journal w |}.

Definition with_uuids (n : nat) (w : world) : world :=
  {| papers := papers w; extraction_rows := extraction_rows w; uuids := n;
     clock := clock w; timers := timers w; draws := draws w;
     journal := journal w |}.

Definition with_clock (n : nat) (w : world) : world :=
  {| papers := papers w; extraction_rows := extraction_rows w; uuids := uuids w;
     clock := n; timers := timers w; draws := draws w;
     journal := journal w |}.

Definition with_timers (n : nat) (w : world) : world :=
  {| papers := papers w; extraction_rows := extraction_rows w; uuids := uuids w;
     clock := clock w; timers := n; draws := draws w;
     journal := journal w |}.

Definition with_draws (n : nat) (w : world) : world :=
  {| papers := papers w; extraction_rows := extraction_rows w; uuids := uuids w;
     clock := clock w; timers := timers w; draws := n;
     journal := journal w |}.

Definition with_journal (j : list call) (w : world) : world :=
  {| papers := papers w; extraction_rows := extraction_rows w; uuids := uuids w;
     clock := clock w; timers := timers w; draws := draws w;
     journal := j |}.

(** Computations that read and write the store and may raise.  An exception
    does not roll the store back. *)
Definition M (A : Type) : Type := world -> result A * world.

Definition ret {A} (a : A) : M A := fun w => (Ok a, w).
Definition raise {A} (e : exn) : M A := fun w => (Raise e, w).
Definition lift {A} (r : result A) : M A := fun w => (r, w).

Definition bind {A B} (m : M A) (k : A -> M B) : M B :=
  fun w =>
    match m w with
    | (Ok a, w') => k a w'
    | (Raise e, w') => (Raise e, w')
    end.

(** [try: m except Exception as e: h e] *)
Definition try_except {A} (m : M A) (h : exn -> M A) : M A :=
  fun w =>
    match m w with
    | (Ok a, w') => (Ok a, w')
    | (Raise e, w') => h e w'
    end.

Definition record_call (c : call) : M unit :=
  fun w => (Ok tt, with_journal (journal w ++ [c]) w).

Declare Scope monad_scope.
Delimit Scope monad_scope with monad.
Notation "x <- m ;; k" := (bind m (fun x => k))
  (at level 61, m at next level, right associativity) : monad_scope.
Notation "m ;;; k" := (bind m (fun _ => k))
  (at level 61, right associativity) : monad_scope.
Local Open Scope monad_scope.

(** Every element through [f], stopping at the first exception (a list
    comprehension whose body may raise). *)
Fixpoint map_result {A B} (f : A -> result B) (l : list A) : result (list B) :=
  match l with
  | [] => Ok []
  | a :: r =>
      match f a with
      | Raise e => Raise e
      | Ok b =>
          match map_result f r with
          | Raise e => Raise e
          | Ok bs => Ok (b :: bs)
          end
      end
  end.

(** What [builder.execute()] can answer for an insert: the row is stored, the
    API refuses it ([PostgrestAPIError]), or the transport fails. *)
Record APIError : Type := mk_api_error {
  api_code : option string;
  api_message : option string;
  api_details : option string;
  api_hint : option string;
  api_str : string
}.

(** Any other exception of the client, as [_execute] and
    [_is_transient_transport_error] look at it: whether it is an instance of
    one of [_TRANSIENT_HTTP_ERRORS], and [str(exc)]. *)
Record RaisedError : Type := mk_raised {
  transient_class : bool;
  raised_str : string
}.

(** A failed call raises [exc]; [linked] are the exceptions that follow it
    along [__cause__ or __context__], each object once, up to the end of the
    chain or the first object met again. *)
Inductive verdict : Type :=
| Accepted
| Refused (e : APIError)
| TransportFailed (exc : RaisedError) (linked : list RaisedError).

Inductive reply (A : Type) : Type :=
| Done (data : A)
| ApiFailure (e : APIError)
| TransportFailure (exc : RaisedError) (linked : list RaisedError).
Arguments Done {A} data.
Arguments ApiFailure {A} e.
Arguments TransportFailure {A} exc linked.

(** What the code takes from outside this repository: generated ids, the
    wall clock, the timer, the random draw, the verdict of the database on an
    insert (its constraints are not part of the Python code), and the library
    functions [hashlib.md5(b).hexdigest()], [b.decode("utf-8")],
    [urlparse(url).hostname], [str(v)] of a value that is not text, and the
    page count that [fitz] reports. *)
Record Runtime : Type := mk_runtime {
  uuid4 : nat -> string;
  now_iso : nat -> string;
  elapsed_ms : nat -> Z;
  random_index : nat -> nat;
  insert_verdict : list dict -> dict -> nat -> verdict;
  extraction_insert_verdict : string -> list dict -> nat -> verdict;
  md5_hexdigest : string -> string;
  utf8_decode : string -> result string;
  urlparse_hostname : string -> result (option string);
  str_of_value : value -> string;
  pdf_page_count : string -> option Z
}.

(** [.eq(col, s)] on a text column. *)
Definition col_is_str (col s : string) (row : dict) : bool :=
  match get col row with
  | Some (VStr t) => String.eqb t s
  | _ => false
  end.

(** [.eq(col, z)] on an integer column. *)
Definition col_is_int (col : string) (z : Z) (row : dict) : bool :=
  match get col row with
  | Some (VInt t) => Z.eqb t z
  | _ => false
  end.

(** Ascending order of a column, nulls last. *)
Definition int_key (col : string) (row : dict) : option Z :=
  match get col row with Some (VInt z) => Some z | _ => None end.

Definition str_key (col : string) (row : dict) : option string :=
  match get col row with Some (VStr s) => Some s | _ => None end.

Definition key_cmp {A} (cmp : A -> A -> comparison) (a b : option A) : comparison :=
  match a, b with
  | Some x, Some y => cmp x y
  | Some _, None => Lt
  | None, Some _ => Gt
  | None, None => Eq
  end.

Definition by_level_created (r1 r2 : dict) : bool :=
  match key_cmp Z.compare (int_key "level" r1) (int_key "level" r2) with
  | Lt => true
  | Gt => false
  | Eq =>
      match key_cmp String.compare (str_key "created_at" r1) (str_key "created_at" r2) with
      | Gt => false
      | _ => true
      end
  end.

Definition by_created (r1 r2 : dict) : bool :=
  match key_cmp String.compare (str_key "created_at" r1) (str_key "created_at" r2) with
  | Gt => false
  | _ => true
  end.

Fixpoint insert_sorted (le : dict -> dict -> bool) (r : dict) (l : list dict) : list dict :=
  match l with
  | [] => [r]
  | x :: t => if le r x then r :: l else x :: insert_sorted le r t
  end.

(** [.order(...)]: a stable sort. *)
Definition order_rows (le : dict -> dict -> bool) (l : list dict) : list dict :=
  fold_right (insert_sorted le) [] l.

(** [.limit(n)] *)
Definition limit_rows (n : Z) (l : list dict) : list dict := firstn (Z.to_nat n) l.

(** [select("*")] with filters, an order and a limit. *)
Definition db_select (hit : dict -> bool) (le : dict -> dict -> bool) (n : Z) : M (list dict) :=
  fun w => (Ok (limit_rows n (order_rows le (filter hit (papers w)))), w).

(** [update(values).eq("id", paper_id)]: every row with that id takes the
    values; the answer is the rows as updated. *)
Definition db_update_by_id (values : dict) (pid : string) : M (list dict) :=
  fun w =>
    let hit := col_is_str "id" pid in
    (Ok (map (fun row => update row values) (filter hit (papers w))),
     with_papers (map (fun row => if hit row then update row values else row) (papers w)) w).

(* ------------------------------------------------------------------ *)
(** ** common/repository.py *)

Definition MAX_TRANSIENT_RETRIES : nat := 3.

(** The repository object: the column that holds the state. *)
Record PaperRepository : Type := mk_repository { _state_column : string }.

Definition default_repository : PaperRepository := mk_repository "status".

Definition opt_text (o : option string) : string :=
  match o with Some s => s | None => "" end.

(** [" ".join(str(getattr(error, attr, "") or "").lower() for attr in ...)] *)
Definition error_text (e : APIError) : string :=
  lower (opt_text (api_message e)) ++ " " ++ lower (opt_text (api_details e))
  ++ " " ++ lower (opt_text (api_hint e)).

Definition code_allows_unique (e : APIError) : bool :=
  match api_code e with
  | Some c => String.eqb c "23505"
  | None => true
  end.

Definition _is_topic_unique_error (e : APIError) : bool :=
  if negb (code_allows_unique e) then false
  else
    let text := error_text e in
    contains "topic" text && (contains "duplicate" text || contains "already exists" text).

Definition _is_title_unique_error (e : APIError) : bool :=
  if negb (code_allows_unique e) then false
  else
    let text := error_text e in
    contains "papers_title_unique" text
    || (contains "title" text && contains "duplicate" text).

Definition nonempty (o : option string) : option string :=
  match o with
  | Some s => if String.eqb s "" then None else Some s
  | None => None
  end.

Definition _map_postgrest_error (e : APIError) : exn :=
  if _is_topic_unique_error e then
    mk_exn DuplicateTopicError "A paper already exists for this topic."
  else if _is_title_unique_error e then
    mk_exn DuplicateTitleError "A paper already exists with this title."
  else
    match nonempty (api_message e) with
    | Some m => mk_exn RepositoryError m
    | None =>
        match nonempty (api_details e) with
        | Some d => mk_exn RepositoryError d
        | None => mk_exn RepositoryError (api_str e)
        end
    end.

(** [_exception_chain]: the exception and what follows it, six objects at
    most. *)
Definition _exception_chain (exc : RaisedError) (linked : list RaisedError)
  : list RaisedError :=
  firstn 6 (exc :: linked).

(** The body of the loop of [_is_transient_transport_error]. *)
Definition transient_link (current : RaisedError) : bool :=
  transient_class current
  || (let message := lower (raised_str current) in
      contains "server disconnected" message
      || contains "connection terminated" message
      || contains "connection reset" message
      || contains "remote protocol error" message
      || contains "goaway" message
      || contains "broken pipe" message).

(** [_is_transient_transport_error] *)
Definition _is_transient_transport_error (exc : RaisedError) (linked : list RaisedError)
  : bool :=
  existsb transient_link (_exception_chain exc linked).

(** [builder.execute()], by the number of the try. *)
Definition builder (A : Type) : Type := nat -> world -> reply A * world.

(** The retry loop of [_execute]: [retries_left] is
    [MAX_TRANSIENT_RETRIES - attempts]. *)
Fixpoint _execute_from {A} (retries_left attempts : nat) (b : builder A) : M A :=
  fun w =>
    match b attempts w with
    | (Done data, w') => (Ok data, w')
    | (ApiFailure e, w') => (Raise (_map_postgrest_error e), w')
    | (TransportFailure exc linked, w') =>
        match retries_left with
        | O => (Raise (mk_exn RepositoryError (raised_str exc)), w')
        | S r =>
            if _is_transient_transport_error exc linked
            then _execute_from r (S attempts) b w'
            else (Raise (mk_exn RepositoryError (raised_str exc)), w')
        end
    end.

Definition _execute {A} (b : builder A) : M A :=
  _execute_from MAX_TRANSIENT_RETRIES 0 b.

(** [PaperRepository._single] *)
Definition _single (rows : list dict) : result dict :=
  match rows with
  | [] => Raise (mk_exn RepositoryError "Supabase returned no rows for mutation")
  | r :: _ => Ok r
  end.

Definition schema_error (col : string) : exn :=
  mk_exn SchemaError ("column outside its type: " ++ col).

(** [PaperRepository._maybe_ref] *)
Definition _maybe_ref (col : string) (v : value) : result (option StorageRef) :=
  match v with
  | VNone => Ok None
  | VStr s => Ok (if String.eqb s "" then None else Some (mk_ref s))
  | _ => Raise (schema_error col)
  end.

Definition opt_str (col : string) (v : value) : result (option string) :=
  match v with
  | VNone => Ok None
  | VStr s => Ok (Some s)
  | _ => Raise (schema_error col)
  end.

Definition opt_int (col : string) (v : value) : result (option Z) :=
  match v with
  | VNone => Ok None
  | VInt z => Ok (Some z)
  | _ => Raise (schema_error col)
  end.

Definition opt_float (col : string) (v : value) : result (option float) :=
  match v with
  | VNone => Ok None
  | VFloat f => Ok (Some f)
  | _ => Raise (schema_error col)
  end.

(** [payload[col]] for a text column, from the cell that [payload] has for
    [col] (if any). *)
Definition required_str (col : string) (cell : option value) : result string :=
  match cell with
  | None => Raise (mk_exn KeyError col)
  | Some (VStr s) => Ok s
  | Some _ => Raise (schema_error col)
  end.

(** [payload.get("level", 1)] *)
Definition level_of (cell : option value) : result Z :=
  match cell with
  | None => Ok 1%Z
  | Some (VInt z) => Ok z
  | Some _ => Raise (schema_error "level")
  end.

(** [payload.get("metadata") or {}] *)
Definition metadata_of (cell : value) : result dict :=
  match cell with
  | VDict d => Ok d
  | v => if truthy v then Raise (schema_error "metadata") else Ok []
  end.

(** [int(payload.get("attempts") or 0)] *)
Definition attempts_of (cell : value) : result Z :=
  match cell with
  | VInt z => Ok z
  | VBool b => Ok (if b then 1%Z else 0%Z)
  | v => if truthy v then Raise (schema_error "attempts") else Ok 0%Z
  end.

(** The state cell that [_to_record] reads. *)
Definition state_cell (repository : PaperRepository) (payload : dict) : value :=
  match get_or_none (_state_column repository) payload with
  | VNone =>
      if negb (String.eqb (_state_column repository) "status")
      then get_or_none "status" payload
      else VNone
  | v => v
  end.

Notation "x <~ r ;; k" := (rbind r (fun x => k))
  (at level 61, r at next level, right associativity) : monad_scope.

(** [PaperRepository._to_record] *)
Definition _to_record (repository : PaperRepository) (payload : dict) : result PaperRecord :=
  id_ <~ required_str "id" (get "id" payload) ;;
  title_ <~ required_str "title" (get "title" payload) ;;
  state_ <~ PaperState_of (state_cell repository payload) ;;
  level_ <~ level_of (get "level" payload) ;;
  pdf_ref_ <~ _maybe_ref "source_uri" (get_or_none "source_uri" payload) ;;
  text_ref_ <~ _maybe_ref "text_uri" (get_or_none "text_uri" payload) ;;
  score_ <~ opt_float "score" (get_or_none "score" payload) ;;
  reason_ <~ opt_str "reason" (get_or_none "reason" payload) ;;
  pdf_md5_ <~ opt_str "pdf_md5" (get_or_none "pdf_md5" payload) ;;
  parent_id_ <~ opt_str "parent_id" (get_or_none "parent_id" payload) ;;
  seed_number_ <~ opt_int "seed_number" (get_or_none "seed_number" payload) ;;
  metadata_ <~ metadata_of (get_or_none "metadata" payload) ;;
  attempts_ <~ attempts_of (get_or_none "attempts" payload) ;;
  created_at_ <~ opt_str "created_at" (get_or_none "created_at" payload) ;;
  updated_at_ <~ opt_str "updated_at" (get_or_none "updated_at" payload) ;;
  Ok {| id := id_; title := title_; state := state_; level := level_;
        attempts := attempts_; pdf_ref := pdf_ref_; text_ref := text_ref_;
        score := score_; reason := reason_; pdf_md5 := pdf_md5_;
        parent_id := parent_id_; seed_number := seed_number_;
        metadata := metadata_; created_at := created_at_;
        updated_at := updated_at_ |}.

Definition opt_int_value (o : option Z) : value :=
  match o with Some z => VInt z | None => VNone end.

Section Repository.
Variable rt : Runtime.

(** [datetime.now(timezone.utc).isoformat()] *)
Definition utc_now : M string :=
  fun w => (Ok (now_iso rt (clock w)), with_clock (S (clock w)) w).

(** [str(uuid4())] *)
Definition new_uuid : M string :=
  fun w => (Ok (uuid4 rt (uuids w)), with_uuids (S (uuids w)) w).

(** [table.insert(payload)]: the database decides; a stored row gets its
    creation time. *)
Definition insert_builder (payload : dict) : builder (list dict) :=
  fun try w =>
    match insert_verdict rt (papers w) payload try with
    | Accepted =>
        let row := set "created_at" (VStr (now_iso rt (clock w))) payload in
        (Done [row], with_clock (S (clock w)) (with_papers (papers w ++ [row]) w))
    | Refused e => (ApiFailure e, w)
    | TransportFailed exc linked => (TransportFailure exc linked, w)
    end.

Definition extraction_insert_builder (table : string) (payload : list dict) : builder unit :=
  fun try w =>
    match extraction_insert_verdict rt table payload try with
    | Accepted =>
        (Done tt,
         with_extraction_rows
           (extraction_rows w ++ map (fun r => (table, r)) payload) w)
    | Refused e => (ApiFailure e, w)
    | TransportFailed exc linked => (TransportFailure exc linked, w)
    end.

(** [PaperRepository.create_pdf_placeholder] *)
Definition create_pdf_placeholder (repository : PaperRepository)
    (title_ : string) (parent_id_ : string) (level_ : Z)
    (seed_number_ : option Z) (metadata_ : option dict) : M PaperRecord :=
  record_call (CallCreatePlaceholder title_) ;;;
  pid <- new_uuid ;;
  let payload :=
    set "metadata" (VDict (match metadata_ with
                           | Some d => d
                           | None => []
                           end))
    (set "seed_number" (opt_int_value seed_number_)
    (set "parent_id" (VStr parent_id_)
    (set "attempts" (VInt 0)
    (set "level" (VInt level_)
    (set (_state_column repository) (VStr (state_value PDF_NOT_AVAILABLE))
    (set "pdf_md5" VNone
    (set "source_uri" (VStr ("pending://" ++ pid))
    (set "title" (VStr title_)
    (set "id" (VStr pid) []))))))))) in
  rows <- _execute (insert_builder payload) ;;
  row <- lift (_single rows) ;;
  lift (_to_record repository row).

(** [PaperRepository.fetch_by_state] *)
Definition fetch_by_state (repository : PaperRepository)
    (st : PaperState) (limit : Z) : M (list PaperRecord) :=
  record_call (CallFetchByState st limit) ;;;
  rows <- db_select (col_is_str (_state_column repository) (state_value st))
                    by_level_created limit ;;
  lift (map_result (_to_record repository) rows).

(** [PaperRepository.fetch_by_state_at_level] *)
Definition fetch_by_state_at_level (repository : PaperRepository)
    (st : PaperState) (level_ limit : Z) (seed_number_ : option Z)
  : M (list PaperRecord) :=
  record_call (CallFetchByStateAtLevel st level_ limit) ;;;
  rows <- db_select
            (fun row =>
               col_is_str (_state_column repository) (state_value st) row
               && col_is_int "level" level_ row
               && match seed_number_ with
                  | Some n => col_is_int "seed_number" n row
                  | None => true
                  end)
            by_created limit ;;
  lift (map_result (_to_record repository) rows).

(** [PaperRepository.insert_pgx_extractions] *)
Definition insert_pgx_extractions (pid : string) (rows : list dict)
    (table : string) : M Z :=
  match rows with
  | [] => ret 0%Z
  | _ =>
      let payload := map (fun row => update [("paper_id", VStr pid)] row) rows in
      _execute (extraction_insert_builder table payload) ;;;
      ret (Z.of_nat (length payload))
  end.

(** [PaperRepository.increment_attempts] *)
Definition increment_attempts (repository : PaperRepository)
    (pid : string) (current_attempts : option Z) : M PaperRecord :=
  let attempts_ := (match current_attempts with Some a => a | None => 0 end + 1)%Z in
  record_call (CallIncrementAttempts pid attempts_) ;;;
  now <- utc_now ;;
  rows <- db_update_by_id
            (set "updated_at" (VStr now) (set "attempts" (VInt attempts_) []))
            pid ;;
  row <- lift (_single rows) ;;
  lift (_to_record repository row).

(** The [values] dict that [update_state] sends. *)
Definition update_state_values (repository : PaperRepository)
    (st : PaperState) (updates : option dict) (now : string) : dict :=
  let values :=
    set "updated_at" (VStr now)
    (set "attempts" (VInt 0)
    (set (_state_column repository) (VStr (state_value st)) [])) in
  match updates with
  | Some (kv :: rest) =>
      let sanitized_updates :=
        filter (fun kv => negb (String.eqb (fst kv) "attempts")) (kv :: rest) in
      update values sanitized_updates
  | _ => values
  end.

(** [PaperRepository.update_state] *)
Definition update_state (repository : PaperRepository)
    (pid : string) (st : PaperState) (updates : option dict) : M PaperRecord :=
  record_call (CallUpdateState pid st) ;;;
  now <- utc_now ;;
  rows <- db_update_by_id (update_state_values repository st updates now) pid ;;
  row <- lift (_single rows) ;;
  lift (_to_record repository row).

(** [PaperRepository.save_text_reference] *)
Definition save_text_reference (repository : PaperRepository)
    (pid text_uri : string) : M PaperRecord :=
  update_state repository pid TEXT_AVAILABLE (Some [("text_uri", VStr text_uri)]).

(** [PaperRepository.register_score] *)
Definition register_score (repository : PaperRepository)
    (pid : string) (score_ : float) (reason_ model_name : string)
    (duration_ms : Z) (st : PaperState) : M PaperRecord :=
  let updates :=
    [("score", VFloat score_); ("reason", VStr reason_);
     ("model_name", VStr model_name); ("duration_ms", VInt duration_ms)] in
  update_state repository pid st (Some updates).

(** [PaperRepository.fetch_by_id] *)
Definition fetch_by_id (repository : PaperRepository) (pid : string) : M PaperRecord :=
  rows <- db_select (col_is_str "id" pid) (fun _ _ => true) 1 ;;
  row <- lift (_single rows) ;;
  lift (_to_record repository row).

End Repository.


(* ------------------------------------------------------------------ *)
(** ** The collaborators *)

Record PdfCandidate : Type := mk_candidate {
  filename : string;
  content : string;
  source_url : string
}.

Record LinkAnnotation : Type := mk_link {
  link_url : string;
  link_text : string;
  link_page : Z
}.

Record TextExtractionResult : Type := mk_extraction {
  ter_text_ref : StorageRef;
  ter_text : string;
  ter_links : list LinkAnnotation
}.

Record PgxExtractionRow : Type := mk_pgx_row {
  sample_id : string;
  gene : string;
  allele : string;
  rs_id : string;
  medication : string;
  outcome : string;
  actionability : string;
  cpic_recommendation : string;
  source_context : string
}.

(** [PdfFetcher.fetch] *)
Record PdfFetcher : Type := mk_fetcher {
  fetch : PaperRecord -> result (option PdfCandidate)
}.

(** [StorageGateway.store_pdf], [StorageGateway.fetch_blob] *)
Record StorageGateway : Type := mk_storage {
  store_pdf : string -> string -> string -> result StorageRef;
  fetch_blob : StorageRef -> result string
}.

(** [TextExtractor.extract] *)
Record TextExtractor : Type := mk_text_extractor {
  extract_text_of : PaperRecord -> result TextExtractionResult
}.

(** [ScoringModel.score] *)
Record ScoringModel : Type := mk_scorer {
  score_of : string -> option Z -> result ScoreResult
}.

(** [CitationExtractor.extract] *)
Record CitationExtractor : Type := mk_citation_extractor {
  extract_citations_of : string -> result (list CitationRecord)
}.

(** [PgxExtractor.extract_pdf] *)
Record PgxExtractor : Type := mk_pgx_extractor {
  extract_pdf : string -> result (list PgxExtractionRow)
}.

(* ------------------------------------------------------------------ *)
(** ** pipelines/attempts.py *)

(** [filter_processable] *)
Definition filter_processable (papers_ : list PaperRecord) : list PaperRecord :=
  filter (fun paper => (attempts paper <=? MAX_PROCESSING_ATTEMPTS)%Z) papers_.

(** [mark_processing_attempt] *)
Definition mark_processing_attempt (rt : Runtime) (repository : PaperRepository)
    (paper : PaperRecord) : M PaperRecord :=
  increment_attempts rt repository (id paper) (Some (attempts paper)).

(* ------------------------------------------------------------------ *)
(** ** pipelines/processing_steps.py *)

Definition BLOCKED_SOURCE_HOSTS : list string := ["hdl.handle.net"].

Section ProcessingSteps.
Variable rt : Runtime.

(** [_is_blocked_host] *)
Definition _is_blocked_host (url : string) : result bool :=
  h <~ urlparse_hostname rt url ;;
  let hostname := lower (match h with Some x => x | None => "" end) in
  Ok (existsb (String.eqb hostname) BLOCKED_SOURCE_HOSTS).

(** [str((paper.metadata.get("link") or {}).get("url") or "").strip()] *)
Definition metadata_link_url (metadata_ : dict) : result string :=
  let link := get_or_none "link" metadata_ in
  d <~ (if truthy link
        then match link with
             | VDict d => Ok d
             | _ => Raise (mk_exn AttributeError "object has no attribute 'get'")
             end
        else Ok []) ;;
  let u := get_or_none "url" d in
  Ok (strip (if truthy u
             then match u with VStr s => s | v => str_of_value rt v end
             else "")).

(** The loop over [candidates] in [_blocked_source_url]. *)
Fixpoint first_blocked (candidates : list string) : result (option string) :=
  match candidates with
  | [] => Ok None
  | candidate :: rest =>
      b <~ _is_blocked_host candidate ;;
      if b then Ok (Some candidate) else first_blocked rest
  end.

(** The candidate that the title gives, if it starts with [url:]. *)
Definition title_candidates (paper : PaperRecord) : list string :=
  let title_ := strip (title paper) in
  if startswith "url:" (lower title_) then [strip (drop 4 title_)] else [].

(** [_blocked_source_url] *)
Definition _blocked_source_url (paper : PaperRecord) : result (option string) :=
  let candidates := title_candidates paper in
  link <~ metadata_link_url (metadata paper) ;;
  first_blocked (candidates ++ (if String.eqb link "" then [] else [link])).

(** [_pgx_source_ref] *)
Definition _pgx_source_ref (paper : PaperRecord) : option StorageRef := pdf_ref paper.

Definition reason_update (r : string) : option dict := Some [("reason", VStr r)].

(** [fetch_pdf] *)
Definition fetch_pdf (paper : PaperRecord) (repository : PaperRepository)
    (storage : StorageGateway) (fetcher : PdfFetcher) : M StageOutcome :=
  blocked <- lift (_blocked_source_url paper) ;;
  match (match blocked with Some "" => None | other => other end) with
  | Some blocked_url =>
      update_state rt repository (id paper) FAILED
        (reason_update ("blocked source host: " ++ blocked_url)) ;;;
      ret (mk_outcome (id paper) "pdf_acquisition" false "blocked source host"
             [("source_url", VStr blocked_url)])
  | None =>
      if (attempts paper >? MAX_PROCESSING_ATTEMPTS)%Z then
        update_state rt repository (id paper) FAILED
          (reason_update "exceeded PDF acquisition attempts") ;;;
        ret (mk_outcome (id paper) "pdf_acquisition" false "exceeded attempt limit" [])
      else
        fetched <- try_except
                     (record_call (CallFetcher (id paper)) ;;;
                      candidate <- lift (fetch fetcher paper) ;;
                      ret (inl candidate))
                     (fun exc =>
                        ret (inr (mk_outcome (id paper) "pdf_acquisition" false
                                    "fetch error" [("error", VStr (exn_str exc))]))) ;;
        match fetched with
        | inr failed => ret failed
        | inl None =>
            ret (mk_outcome (id paper) "pdf_acquisition" false "pdf not found"
                   [("reason", VStr "No PDF found")])
        | inl (Some candidate) =>
            let pdf_hash := md5_hexdigest rt (content candidate) in
            match store_pdf storage (id paper) (filename candidate) (content candidate) with
            | Raise exc =>
                match exn_cls exc with
                | StorageError =>
                    ret (mk_outcome (id paper) "pdf_acquisition" false "storage error"
                           [("error", VStr (exn_str exc))])
                | _ => raise exc
                end
            | Ok pdf_ref_ =>
                let metadata_ :=
                  set "acquisition" (VDict [("source_url", VStr (source_url candidate))])
                      (metadata paper) in
                update_state rt repository (id paper) PDF_AVAILABLE
                  (Some [("source_uri", VStr (uri pdf_ref_));
                         ("metadata", VDict metadata_);
                         ("pdf_md5", VStr pdf_hash)]) ;;;
                ret (mk_outcome (id paper) "pdf_acquisition" true "pdf stored"
                       [("source_url", VStr (source_url candidate));
                        ("pdf_md5", VStr pdf_hash)])
            end
        end
  end.

(** The two messages after which a [RepositoryError] on a placeholder insert
    is skipped. *)
Definition skippable_message (exc : exn) : bool :=
  let message_ := lower (exn_str exc) in
  contains "papers_pkey" message_ || contains "server disconnected" message_.

(** One turn of the loop of [_insert_link_placeholders]. *)
Definition insert_link_placeholder (repository : PaperRepository)
    (paper : PaperRecord) (link : LinkAnnotation) : M unit :=
  let title_ := take 255 ("url:" ++ link_url link) in
  let metadata_ :=
    [("link", VDict [("url", VStr (link_url link)); ("text", VStr (link_text link));
                     ("page", VInt (link_page link))])] in
  try_except
    (create_pdf_placeholder rt repository title_ (id paper) (level paper + 1)%Z
       (seed_number paper) (Some metadata_) ;;; ret tt)
    (fun exc =>
       if is_duplicate_error exc then ret tt
       else if is_RepositoryError exc && skippable_message exc then ret tt
       else raise exc).

(** [_insert_link_placeholders] *)
Fixpoint _insert_link_placeholders (repository : PaperRepository)
    (paper : PaperRecord) (links : list LinkAnnotation) : M unit :=
  match links with
  | [] => ret tt
  | link :: rest =>
      insert_link_placeholder repository paper link ;;;
      _insert_link_placeholders repository paper rest
  end.

(** [extract_text] *)
Definition extract_text (paper : PaperRecord) (repository : PaperRepository)
    (extractor : TextExtractor) (store_links : bool) : M StageOutcome :=
  match extract_text_of extractor paper with
  | Raise exc =>
      match exn_cls exc with
      | ExtractionError =>
          update_state rt repository (id paper) FAILED (reason_update (exn_str exc)) ;;;
          ret (mk_outcome (id paper) "text_extraction" false (exn_str exc) [])
      | _ => raise exc
      end
  | Ok result_ =>
      save_text_reference rt repository (id paper) (uri (ter_text_ref result_)) ;;;
      (match store_links, ter_links result_ with
       | true, _ :: _ => _insert_link_placeholders repository paper (ter_links result_)
       | _, _ => ret tt
       end) ;;;
      ret (mk_outcome (id paper) "text_extraction" true "extracted"
             [("characters", VInt (Z.of_nat (String.length (ter_text result_))))])
  end.

(** [storage.fetch_blob(ref).decode("utf-8")] *)
Definition fetch_text (storage : StorageGateway) (ref : StorageRef) : result string :=
  blob <~ fetch_blob storage ref ;;
  utf8_decode rt blob.

(** [score_text] *)
Definition score_text (paper : PaperRecord) (repository : PaperRepository)
    (storage : StorageGateway) (scorer : ScoringModel) (threshold : float)
  : M StageOutcome :=
  match text_ref paper with
  | None =>
      update_state rt repository (id paper) FAILED
        (reason_update "Paper missing text reference") ;;;
      ret (mk_outcome (id paper) "scoring" false "paper missing text" [])
  | Some ref =>
      text_ <- lift (fetch_text storage ref) ;;
      result_ <- lift (score_of scorer text_ (seed_number paper)) ;;
      let eligible := PrimFloat.leb threshold (sr_score result_) in
      let next_state := if eligible then SCORED else PROCESSED_LOW_SCORE in
      register_score rt repository (id paper) (sr_score result_) (sr_reason result_)
        (sr_model_name result_) (sr_duration_ms result_) next_state ;;;
      ret (mk_outcome (id paper) "scoring" true "scored"
             [("score", VFloat (sr_score result_));
              ("eligible_for_citations", VBool eligible)])
  end.

(** The title under which a citation is stored:
    [(citation.raw_text or "").strip()[:255] or "Citation"]. *)
Definition citation_title (citation : CitationRecord) : string :=
  match take 255 (strip (raw_text citation)) with
  | EmptyString => "Citation"
  | t => t
  end.

(** The loop of [_insert_citations], with its two accumulators. *)
Fixpoint insert_citations_loop (repository : PaperRepository) (paper : PaperRecord)
    (citations : list CitationRecord) (seen_titles : list (list N)) (inserted : Z)
  : M Z :=
  match citations with
  | [] => ret inserted
  | citation :: rest =>
      let title_ := citation_title citation in
      let normalized := casefold title_ in
      if existsb (points_eqb normalized) seen_titles then
        insert_citations_loop repository paper rest seen_titles inserted
      else
        created <- try_except
                     (create_pdf_placeholder rt repository title_ (id paper)
                        (level paper + 1)%Z (seed_number paper)
                        (Some [("citation", VDict [("raw_text", VStr (raw_text citation))])]) ;;;
                      ret true)
                     (fun exc =>
                        if is_duplicate_error exc then ret false
                        else if is_RepositoryError exc && skippable_message exc then ret false
                        else raise exc) ;;
        insert_citations_loop repository paper rest (normalized :: seen_titles)
          (if created then inserted + 1 else inserted)%Z
  end.

(** [_insert_citations] *)
Definition _insert_citations (repository : PaperRepository) (paper : PaperRecord)
    (citations : list CitationRecord) : M Z :=
  insert_citations_loop repository paper citations [] 0%Z.

(** [paper.score is None or paper.score < threshold] *)
Definition below_threshold (paper : PaperRecord) (threshold : float) : bool :=
  match score paper with
  | None => true
  | Some s => PrimFloat.ltb s threshold
  end.

(** [extract_citations] *)
Definition extract_citations (paper : PaperRecord) (repository : PaperRepository)
    (storage : StorageGateway) (extractor : CitationExtractor) (threshold : float)
  : M StageOutcome :=
  if below_threshold paper threshold then
    ret (mk_outcome (id paper) "citations" false "paper below threshold" [])
  else
    match text_ref paper with
    | None => ret (mk_outcome (id paper) "citations" false "paper missing text" [])
    | Some ref =>
        text_ <- lift (fetch_text storage ref) ;;
        citations <- lift (extract_citations_of extractor text_) ;;
        inserted <- _insert_citations repository paper citations ;;
        update_state rt repository (id paper) PROCESSED
          (Some [("metadata", VDict (set "citation_count" (VInt inserted) (metadata paper)))]) ;;;
        ret (mk_outcome (id paper) "citations" true "citations created"
               [("count", VInt inserted)])
    end.

Definition pgx_row_payload (row : PgxExtractionRow) : dict :=
  [("sample_id", VStr (sample_id row)); ("gene", VStr (gene row));
   ("allele", VStr (allele row)); ("rs_id", VStr (rs_id row));
   ("medication", VStr (medication row)); ("outcome", VStr (outcome row));
   ("actionability", VStr (actionability row));
   ("cpic_recommendation", VStr (cpic_recommendation row));
   ("source_context", VStr (source_context row))].

Definition pgx_hint : string :=
  "No structured rows were returned from page-chunk extraction. Verify the model supports image input and the PDF contains readable tables/figures/text.".

(** The [except Exception] branch of [process_pgx_extraction], with the
    value [page_count] has when the exception is caught. *)
Definition pgx_failed (repository : PaperRepository) (paper : PaperRecord)
    (page_count : option Z) (exc : exn) : M StageOutcome :=
  update_state rt repository (id paper) P1_FAILURE (reason_update (exn_str exc)) ;;;
  ret (mk_outcome (id paper) "pgx_extraction" false "pgx extraction failed"
         [("error", VStr (exn_str exc)); ("page_count", opt_int_value page_count)]).

(** [process_pgx_extraction] *)
Definition process_pgx_extraction (paper : PaperRecord) (repository : PaperRepository)
    (storage : StorageGateway) (extractor : PgxExtractor)
    (pdf_bytes : option string) (page_count : option Z) (extraction_table : string)
  : M StageOutcome :=
  match _pgx_source_ref paper with
  | None =>
      update_state rt repository (id paper) P1_FAILURE
        (reason_update "Paper missing source_uri") ;;;
      ret (mk_outcome (id paper) "pgx_extraction" false "paper missing source_uri" [])
  | Some source_ref =>
      loaded <- try_except
                  (current_pdf_bytes <-
                     match pdf_bytes with
                     | Some b => ret b
                     | None => lift (fetch_blob storage source_ref)
                     end ;;
                   ret (inl current_pdf_bytes))
                  (fun exc => o <- pgx_failed repository paper page_count exc ;; ret (inr o)) ;;
      match loaded with
      | inr failed => ret failed
      | inl current_pdf_bytes =>
          let page_count_ :=
            match page_count with
            | None => pdf_page_count rt current_pdf_bytes
            | Some _ => page_count
            end in
          extracted <- try_except
                         (samples <- lift (extract_pdf extractor current_pdf_bytes) ;;
                          match samples with
                          | [] =>
                              update_state rt repository (id paper) P1_FAILURE
                                (reason_update "No PGX samples extracted") ;;;
                              ret (inr (mk_outcome (id paper) "pgx_extraction" false
                                          "no pgx samples extracted"
                                          [("page_count", opt_int_value page_count_);
                                           ("hint", VStr pgx_hint)]))
                          | _ =>
                              inserted <- insert_pgx_extractions rt (id paper)
                                            (map pgx_row_payload samples) extraction_table ;;
                              ret (inl inserted)
                          end)
                         (fun exc => o <- pgx_failed repository paper page_count_ exc ;; ret (inr o)) ;;
          match extracted with
          | inr finished => ret finished
          | inl inserted =>
              update_state rt repository (id paper) P1_SUCCESS
                (Some [("reason", VNone);
                       ("metadata",
                        VDict (set "pgx_extraction_count" (VInt inserted) (metadata paper)))]) ;;;
              ret (mk_outcome (id paper) "pgx_extraction" true "pgx extraction completed"
                     [("count", VInt inserted); ("page_count", opt_int_value page_count_)])
          end
      end
  end.

End ProcessingSteps.

(* ------------------------------------------------------------------ *)
(** ** pipelines/services.py and pipelines/paper_processor.py *)

Inductive StageName : Type :=
| pdf_acquisition
| text_extraction
| scoring
| citations
| pgx_extraction.

Definition stage_name (s : StageName) : string :=
  match s with
  | pdf_acquisition => "pdf_acquisition"
  | text_extraction => "text_extraction"
  | scoring => "scoring"
  | citations => "citations"
  | pgx_extraction => "pgx_extraction"
  end.

Record PipelineServices : Type := mk_services {
  repository_ : PaperRepository;
  storage_ : StorageGateway;
  text_extractor_ : TextExtractor;
  scorer_ : ScoringModel;
  citation_extractor_ : CitationExtractor;
  pdf_fetcher_ : PdfFetcher;
  score_threshold : float
}.

(** [STATE_FOR_STAGE] *)
Definition STATE_FOR_STAGE : list (StageName * PaperState) :=
  [(pdf_acquisition, PDF_NOT_AVAILABLE);
   (text_extraction, PDF_AVAILABLE);
   (scoring, TEXT_AVAILABLE);
   (citations, SCORED)].

(** [STATE_TO_STAGE.get(state)] *)
Definition stage_for_state (st : PaperState) : option StageName :=
  match find (fun entry => PaperState_eqb (snd entry) st) STATE_FOR_STAGE with
  | Some entry => Some (fst entry)
  | None => None
  end.

(** [outcome.metadata.setdefault(k, v)] *)
Definition setdefault (k : string) (v : value) (o : StageOutcome) : StageOutcome :=
  {| paper_id := paper_id o; stage := stage o; success := success o;
     message := message o;
     out_metadata := if mem k (out_metadata o) then out_metadata o
                     else set k v (out_metadata o) |}.

Section PaperProcessor.
Variable rt : Runtime.
Variable services : PipelineServices.

Definition _pdf_stage (paper : PaperRecord) : M StageOutcome :=
  fetch_pdf rt paper (repository_ services) (storage_ services) (pdf_fetcher_ services).

Definition _text_stage (paper : PaperRecord) : M StageOutcome :=
  extract_text rt paper (repository_ services) (text_extractor_ services) true.

Definition _scoring_stage (paper : PaperRecord) : M StageOutcome :=
  score_text rt paper (repository_ services) (storage_ services) (scorer_ services)
    (score_threshold services).

Definition _citation_stage (paper : PaperRecord) : M StageOutcome :=
  extract_citations rt paper (repository_ services) (storage_ services)
    (citation_extractor_ services) (score_threshold services).

(** [self._executors[target_stage]] *)
Definition _executors (target_stage : StageName) : result (PaperRecord -> M StageOutcome) :=
  match target_stage with
  | pdf_acquisition => Ok _pdf_stage
  | text_extraction => Ok _text_stage
  | scoring => Ok _scoring_stage
  | citations => Ok _citation_stage
  | pgx_extraction => Raise (mk_exn KeyError "'pgx_extraction'")
  end.

(** The timer reading that [run] turns into [duration_ms]. *)
Definition measure_ms : M Z :=
  fun w => (Ok (elapsed_ms rt (timers w)), with_timers (S (timers w)) w).

(** [PaperProcessor.run] *)
Definition run (paper : PaperRecord) (stage_ : option StageName) : M StageOutcome :=
  match (match stage_ with Some s => Some s | None => stage_for_state (state paper) end) with
  | None =>
      ret (mk_outcome (id paper) "noop" false
             ("No actionable stage for " ++ state_value (state paper)) [])
  | Some target_stage =>
      paper' <- mark_processing_attempt rt (repository_ services) paper ;;
      executor <- lift (_executors target_stage) ;;
      outcome_ <- try_except (executor paper')
                    (fun exc =>
                       ret (mk_outcome (id paper') (stage_name target_stage) false
                              "unexpected error" [("error", VStr (exn_str exc))])) ;;
      duration_ms <- measure_ms ;;
      ret (setdefault "duration_ms" (VInt duration_ms) outcome_)
  end.

End PaperProcessor.

(* ------------------------------------------------------------------ *)
(** ** The batch runners: pipelines/text_stage.py and
       pipelines/scoring_stage.py *)

(** A worker pool runs the submitted tasks on the shared store.  The model
    takes the order in which the tasks finish as a parameter ([schedule], a
    list of task numbers) and runs each task as one step, in that order; what
    a task returns or raises is kept in its future. *)
Section BatchRunners.
Variable rt : Runtime.

(** [executor.submit] for every task, then the pool at work. *)
Fixpoint run_pool (task : PaperRecord -> M StageOutcome) (papers_ : list PaperRecord)
    (schedule : list nat) : M (list (nat * result StageOutcome)) :=
  match schedule with
  | [] => ret []
  | idx :: rest =>
      match nth_error papers_ idx with
      | None => run_pool task papers_ rest
      | Some paper =>
          fun w =>
            let (r, w') := task paper w in
            match run_pool task papers_ rest w' with
            | (Ok futures, w'') => (Ok ((idx, r) :: futures), w'')
            | (Raise e, w'') => (Raise e, w'')
            end
      end
  end.

(** [outcomes[idx] = outcome] *)
Fixpoint store_at {A} (idx : nat) (a : A) (slots : list (option A)) : list (option A) :=
  match slots, idx with
  | [], _ => []
  | _ :: t, O => Some a :: t
  | x :: t, S i => x :: store_at i a t
  end.

(** [for future in as_completed(futures)]: the futures in the order they
    finished; [future.result()] raises what the task raised. *)
Fixpoint collect_as_completed (stage_ : string) (papers_ : list PaperRecord)
    (futures : list (nat * result StageOutcome))
    (outcomes : list (option StageOutcome)) : M (list (option StageOutcome)) :=
  match futures with
  | [] => ret outcomes
  | (idx, r) :: rest =>
      outcome_ <- lift r ;;
      record_call (CallCompletion stage_ (paper_id outcome_)) ;;;
      collect_as_completed stage_ papers_ rest (store_at idx outcome_ outcomes)
  end.

(** [[result for result in outcomes if result is not None]] *)
Fixpoint present {A} (slots : list (option A)) : list A :=
  match slots with
  | [] => []
  | Some a :: t => a :: present t
  | None :: t => present t
  end.

(** The sequential branch: [for paper in papers: outcomes.append(_process(paper))]. *)
Fixpoint run_in_order (stage_ : string) (task : PaperRecord -> M StageOutcome)
    (papers_ : list PaperRecord) : M (list StageOutcome) :=
  match papers_ with
  | [] => ret []
  | paper :: rest =>
      outcome_ <- task paper ;;
      record_call (CallCompletion stage_ (paper_id outcome_)) ;;;
      outcomes <- run_in_order stage_ task rest ;;
      ret (outcome_ :: outcomes)
  end.

(** What the four runners share after the candidates are chosen. *)
Definition run_batch (stage_ : string) (task : PaperRecord -> M StageOutcome)
    (papers_ : list PaperRecord) (max_workers : Z) (schedule : list nat)
  : M (list StageOutcome) :=
  match papers_ with
  | [] => ret []
  | _ =>
      if (max_workers <=? 1)%Z || (length papers_ =? 1)%nat then
        run_in_order stage_ task papers_
      else
        futures <- run_pool task papers_ schedule ;;
        outcomes <- collect_as_completed stage_ papers_ futures
                      (repeat None (length papers_)) ;;
        ret (present outcomes)
  end.

(** [process_text_extraction_batch] *)
Definition process_text_extraction_batch (batch_size : Z) (repository : PaperRepository)
    (extractor : TextExtractor) (level_ : Z) (seed_number_ : option Z)
    (max_workers : Z) (schedule : list nat) : M (list StageOutcome) :=
  fetched <- fetch_by_state_at_level repository PDF_AVAILABLE level_ batch_size
               seed_number_ ;;
  let papers_ := filter_processable fetched in
  let _process := fun paper =>
    updated <- mark_processing_attempt rt repository paper ;;
    extract_text rt updated repository extractor true in
  run_batch "text_extraction" _process papers_ max_workers schedule.

(** [process_scoring_batch] *)
Definition process_scoring_batch (batch_size : Z) (repository : PaperRepository)
    (storage : StorageGateway) (scorer : ScoringModel) (threshold : float)
    (level_ : Z) (seed_number_ : option Z)
    (max_workers : Z) (schedule : list nat) : M (list StageOutcome) :=
  fetched <- fetch_by_state_at_level repository TEXT_AVAILABLE level_ batch_size
               seed_number_ ;;
  let papers_ := filter_processable fetched in
  let _process := fun paper =>
    updated <- mark_processing_attempt rt repository paper ;;
    score_text rt updated repository storage scorer threshold in
  run_batch "scoring" _process papers_ max_workers schedule.

(* ------------------------------------------------------------------ *)
(** ** pipelines/pgx_extraction_stage.py *)

Definition _FETCH_LIMIT : Z := 100.

(** [random.choice(candidates)] on a list that is not empty. *)
Definition random_choice (first : PaperRecord) (others : list PaperRecord) : M PaperRecord :=
  fun w =>
    (Ok (nth (random_index rt (draws w) mod S (length others)) (first :: others) first),
     with_draws (S (draws w)) w).

(** The inner [_process] of [process_pgx_extraction_batch]; the journal keeps
    the record that the stage function receives. *)
Definition pgx_process (repository : PaperRepository) (storage : StorageGateway)
    (extractor : PgxExtractor) (extraction_table : string) (paper : PaperRecord)
    (pdf_bytes : option string) (page_count : option Z) : M StageOutcome :=
  updated <- mark_processing_attempt rt repository paper ;;
  record_call (CallStage "pgx_extraction" updated) ;;;
  process_pgx_extraction rt updated repository storage extractor pdf_bytes page_count
    extraction_table.

(** The [try] around the blob fetch: any exception leaves both values [None]. *)
Definition preload_pdf (storage : StorageGateway) (paper : PaperRecord)
  : option string * option Z :=
  match pdf_ref paper with
  | Some ref =>
      match fetch_blob storage ref with
      | Ok pdf_bytes => (Some pdf_bytes, pdf_page_count rt pdf_bytes)
      | Raise _ => (None, None)
      end
  | None => (None, None)
  end.

(** The [while len(outcomes) < batch_size] loop; [remaining] is
    [batch_size - len(outcomes)]. *)
Fixpoint pgx_batch_loop (repository : PaperRepository) (storage : StorageGateway)
    (extractor : PgxExtractor) (extraction_table : string)
    (remaining : nat) (outcomes : list StageOutcome) : M (list StageOutcome) :=
  match remaining with
  | O => ret outcomes
  | S remaining' =>
      fetched <- fetch_by_state repository P1 _FETCH_LIMIT ;;
      match filter_processable fetched with
      | [] => ret outcomes
      | first :: others =>
          selected <- random_choice first others ;;
          paper <- update_state rt repository (id selected) P1_WIP None ;;
          let (pdf_bytes, page_count) := preload_pdf storage paper in
          let progress_paper :=
            replace_metadata paper
              (set "page_count" (opt_int_value page_count) (metadata paper)) in
          outcome_ <- pgx_process repository storage extractor extraction_table
                        progress_paper pdf_bytes page_count ;;
          pgx_batch_loop repository storage extractor extraction_table remaining'
            (outcomes ++ [outcome_])
      end
  end.

(** [process_pgx_extraction_batch] *)
Definition process_pgx_extraction_batch (batch_size : Z) (repository : PaperRepository)
    (storage : StorageGateway) (extractor : PgxExtractor) (extraction_table : string)
  : M (list StageOutcome) :=
  pgx_batch_loop repository storage extractor extraction_table (Z.to_nat batch_size) [].

End BatchRunners.

(* ================================================================== *)
(** * Vocabulary of the properties *)

Section StoreAfter.
Variable rt : Runtime.
Variable repository : PaperRepository.

(** The rows of the table after [update(values).eq("id", pid)]. *)
Definition rows_after (values : dict) (pid : string) (t : list dict) : list dict :=
  map (fun row => if col_is_str "id" pid row then update row values else row) t.

(** The store after [update_state]. *)
Definition after_update_state (pid : string) (st : PaperState) (updates : option dict)
    (w : world) : world :=
  with_papers
    (rows_after (update_state_values repository st updates (now_iso rt (clock w))) pid
       (papers w))
    (with_clock (S (clock w)) (with_journal (journal w ++ [CallUpdateState pid st]) w)).

(** The store after [increment_attempts]. *)
Definition after_increment (pid : string) (next : Z) (w : world) : world :=
  with_papers
    (rows_after [("attempts", VInt next); ("updated_at", VStr (now_iso rt (clock w)))]
       pid (papers w))
    (with_clock (S (clock w))
       (with_journal (journal w ++ [CallIncrementAttempts pid next]) w)).

End StoreAfter.

(** The stored row with a given id: the one an update by id answers with. *)
Definition find_row (pid : string) (w : world) : option dict :=
  find (col_is_str "id" pid) (papers w).

(** Ids are text and no two rows share one (the primary key). *)
Fixpoint unique_ids (t : list dict) : bool :=
  match t with
  | [] => true
  | row :: rest =>
      match get "id" row with
      | Some (VStr s) => negb (existsb (col_is_str "id" s) rest) && unique_ids rest
      | _ => false
      end
  end.

(** The number of rows in a state. *)
Definition count_state (repository : PaperRepository) (st : PaperState)
    (t : list dict) : nat :=
  length (filter (col_is_str (_state_column repository) (state_value st)) t).

(** The state column is one of the two that the application configures:
    [status] for the [papers] table and [gstatus] for [gpapers]. *)
Definition configured (repository : PaperRepository) : Prop :=
  _state_column repository = "status" \/ _state_column repository = "gstatus".

(** The record after a transition: the new state, no attempts, the time of
    the update. *)
Definition stamped (st : PaperState) (now : string) (p : PaperRecord) : PaperRecord :=
  {| id := id p; title := title p; state := st; level := level p;
     attempts := 0; pdf_ref := pdf_ref p; text_ref := text_ref p;
     score := score p; reason := reason p; pdf_md5 := pdf_md5 p;
     parent_id := parent_id p; seed_number := seed_number p;
     metadata := metadata p; created_at := created_at p;
     updated_at := Some now |}.

(** The record after an attempt is charged. *)
Definition charged (next : Z) (now : string) (p : PaperRecord) : PaperRecord :=
  {| id := id p; title := title p; state := state p; level := level p;
     attempts := next; pdf_ref := pdf_ref p; text_ref := text_ref p;
     score := score p; reason := reason p; pdf_md5 := pdf_md5 p;
     parent_id := parent_id p; seed_number := seed_number p;
     metadata := metadata p; created_at := created_at p;
     updated_at := Some now |}.

Definition with_reason (r : option string) (p : PaperRecord) : PaperRecord :=
  {| id := id p; title := title p; state := state p; level := level p;
     attempts := attempts p; pdf_ref := pdf_ref p; text_ref := text_ref p;
     score := score p; reason := r; pdf_md5 := pdf_md5 p;
     parent_id := parent_id p; seed_number := seed_number p;
     metadata := metadata p; created_at := created_at p;
     updated_at := updated_at p |}.

Definition with_score (s : float) (p : PaperRecord) : PaperRecord :=
  {| id := id p; title := title p; state := state p; level := level p;
     attempts := attempts p; pdf_ref := pdf_ref p; text_ref := text_ref p;
     score := Some s; reason := reason p; pdf_md5 := pdf_md5 p;
     parent_id := parent_id p; seed_number := seed_number p;
     metadata := metadata p; created_at := created_at p;
     updated_at := updated_at p |}.

(** *** A runtime and stores to run the code on *)

Definition ticks (n : nat) : string := string_of_list_ascii (repeat "x"%char n).

Fixpoint after_slashes (s : string) : option string :=
  match s with
  | String "/" (String "/" r) => Some r
  | String _ r => after_slashes r
  | EmptyString => None
  end.

Fixpoint until_delimiter (s : string) : string :=
  match s with
  | EmptyString => EmptyString
  | String c r => if has_char c "/?#:" then EmptyString else String c (until_delimiter r)
  end.

(** The host name that [urlparse] reports for a URL of the plain form
    [scheme://host[:port][/path]], and [None] without [//]. *)
Definition plain_url_hostname (url : string) : result (option string) :=
  Ok (match after_slashes url with
      | Some r => match until_delimiter r with
                  | EmptyString => None
                  | h => Some (lower h)
                  end
      | None => None
      end).

(** Ids [uuid-], [uuid-x], ...; times [t], [tx], ...; every timed run takes
    5 ms; the n-th draw is n; the database accepts every insert; text is its
    own encoding. *)
Definition example_runtime : Runtime :=
  {| uuid4 := fun n => ("uuid-" ++ ticks n)%string;
     now_iso := fun n => ("t" ++ ticks n)%string;
     elapsed_ms := fun _ => 5%Z;
     random_index := fun n => n;
     insert_verdict := fun _ _ _ => Accepted;
     extraction_insert_verdict := fun _ _ _ => Accepted;
     md5_hexdigest := fun _ => "0cc175b9c0f1b6a831c399e269772661";
     utf8_decode := fun b => Ok b;
     urlparse_hostname := plain_url_hostname;
     str_of_value := fun _ => "";
     pdf_page_count := fun _ => Some 1%Z |}.

Definition example_row (pid title_ status : string) (level_ attempts_ : Z) : dict :=
  [("id", VStr pid); ("title", VStr title_); ("status", VStr status);
   ("level", VInt level_); ("attempts", VInt attempts_);
   ("source_uri", VStr ("storage://pdfs/" ++ pid)); ("metadata", VDict []);
   ("created_at", VStr "t")].

Definition example_world (t : list dict) : world := mk_world t [] 0 0 0 0 [].

Definition example_paper (pid title_ : string) (st : PaperState) (level_ attempts_ : Z)
  : PaperRecord :=
  {| id := pid; title := title_; state := st; level := level_; attempts := attempts_;
     pdf_ref := Some (mk_ref ("storage://pdfs/" ++ pid)); text_ref := None;
     score := None; reason := None; pdf_md5 := None; parent_id := None;
     seed_number := None; metadata := []; created_at := Some "t";
     updated_at := None |}.

(** The record that the repository holds for an id: the first row with that
    id, as [_to_record] reads it. *)
Definition stored (repository : PaperRepository) (pid : string) (w : world)
  : option PaperRecord :=
  match find_row pid w with
  | Some row =>
      match _to_record repository row with
      | Ok p => Some p
      | Raise _ => None
      end
  | None => None
  end.



(** Services whose storage is down: every [fetch_blob] raises. *)
Definition storage_down : StorageGateway :=
  mk_storage (fun _ _ _ => Raise (mk_exn StorageError "storage down"))
             (fun _ => Raise (mk_exn StorageError "storage down")).

Definition example_services (storage : StorageGateway) : PipelineServices :=
  mk_services default_repository storage
    (mk_text_extractor (fun _ => Raise (mk_exn ExtractionError "unreadable")))
    (mk_scorer (fun _ _ => Ok (mk_score 9.0%float "relevant" "fake" 50)))
    (mk_citation_extractor (fun _ => Ok []))
    (mk_fetcher (fun _ => Ok None)) 7.0%float.

(** A stored record with extracted text, waiting for its score. *)
Definition text_row (pid : string) : dict :=
  set "text_uri" (VStr ("storage://texts/" ++ pid))
    (example_row pid "T" "Text Available" 1 0).

Definition text_paper (pid : string) : PaperRecord :=
  {| id := pid; title := "T"; state := TEXT_AVAILABLE; level := 1; attempts := 0;
     pdf_ref := Some (mk_ref ("storage://pdfs/" ++ pid));
     text_ref := Some (mk_ref ("storage://texts/" ++ pid));
     score := None; reason := None; pdf_md5 := None; parent_id := None;
     seed_number := None; metadata := []; created_at := Some "t";
     updated_at := None |}.

(** A task answers for the paper it was given. *)
Definition respects (task : PaperRecord -> M StageOutcome) : Prop :=
  forall paper w o w', task paper w = (Ok o, w') -> paper_id o = id paper.

(** Each slot that is filled holds the outcome of the paper at its place. *)
Definition agree (papers_ : list PaperRecord) (slots : list (option StageOutcome)) : Prop :=
  Forall2 (fun paper slot =>
             match slot with
             | Some o => paper_id o = id paper
             | None => True
             end) papers_ slots.

(** What a future holds is what its task returned or raised on some store. *)
Definition future_of (task : PaperRecord -> M StageOutcome) (papers_ : list PaperRecord)
    (f : nat * result StageOutcome) : Prop :=
  exists paper w0, nth_error papers_ (fst f) = Some paper /\ fst (task paper w0) = snd f.

(** The inner [_process] of the two runners. *)
Definition text_task (rt : Runtime) (repository : PaperRepository)
    (extractor : TextExtractor) (paper : PaperRecord) : M StageOutcome :=
  bind (mark_processing_attempt rt repository paper)
       (fun updated => extract_text rt updated repository extractor true).

Definition scoring_task (rt : Runtime) (repository : PaperRepository)
    (storage : StorageGateway) (scorer : ScoringModel) (threshold : float)
    (paper : PaperRecord) : M StageOutcome :=
  bind (mark_processing_attempt rt repository paper)
       (fun updated => score_text rt updated repository storage scorer threshold).

(** A slot is filled. *)
Definition filled (slots : list (option StageOutcome)) (i : nat) : Prop :=
  exists o, nth_error slots i = Some (Some o).

(** A text extractor that reads every PDF and finds no links. *)
Definition example_text_extractor : TextExtractor :=
  mk_text_extractor
    (fun paper => Ok (mk_extraction (mk_ref ("storage://texts/" ++ id paper))
                        "text" [])).

(** Two PDFs at level 1, [a] created before [b]. *)
Definition two_pdfs : world :=
  example_world
    [example_row "a" "A" "PDF Available" 1 0;
     set "created_at" (VStr "tx") (example_row "b" "B" "PDF Available" 1 0)].

(** The database accepts every insert at the first try. *)
Definition accepts_all (rt : Runtime) : Prop :=
  forall t payload n, insert_verdict rt t payload n = Accepted.

(** The text of the [title] cell of a row. *)
Definition row_title (row : dict) : string :=
  match get "title" row with
  | Some (VStr t) => t
  | _ => ""
  end.

(** A row is a placeholder derived from [paper]: [PdfNotAvailable], one
    level below, with [paper] as parent and its seed number, no attempts. *)
Definition is_placeholder (repository : PaperRepository) (paper : PaperRecord)
    (row : dict) : Prop :=
  get (_state_column repository) row = Some (VStr (state_value PDF_NOT_AVAILABLE))
  /\ get "level" row = Some (VInt (level paper + 1))
  /\ get "parent_id" row = Some (VStr (id paper))
  /\ get "seed_number" row = Some (opt_int_value (seed_number paper))
  /\ get "attempts" row = Some (VInt 0).


(** The store after an accepted placeholder insert. *)
Definition after_insert (rt : Runtime) (title_ : string) (row : dict) (w : world) : world :=
  with_clock (S (clock w))
    (with_papers (papers w ++ [row])
       (with_uuids (S (uuids w))
          (with_journal (journal w ++ [CallCreatePlaceholder title_]) w))).

(** A stored record scored 9.0, with extracted text. *)
Definition scored_row (pid : string) : dict :=
  set "score" (VFloat 9.0%float)
    (set "text_uri" (VStr ("storage://texts/" ++ pid))
       (example_row pid "T" "Scored" 1 0)).

Definition scored_paper (pid : string) : PaperRecord :=
  {| id := pid; title := "T"; state := SCORED; level := 1; attempts := 0;
     pdf_ref := Some (mk_ref ("storage://pdfs/" ++ pid));
     text_ref := Some (mk_ref ("storage://texts/" ++ pid));
     score := Some 9.0%float; reason := None; pdf_md5 := None; parent_id := None;
     seed_number := None; metadata := []; created_at := Some "t";
     updated_at := None |}.

Definition text_storage : StorageGateway :=
  mk_storage (fun _ _ _ => Ok (mk_ref "s")) (fun _ => Ok "text").

(** An extractor that returns the given citation strings. *)
Definition citing (raw : list string) : CitationExtractor :=
  mk_citation_extractor (fun _ => Ok (map mk_citation raw)).


(** *** The PGX batch *)

(** The row is in state [P1]. *)
Definition p1_row (repository : PaperRepository) (row : dict) : bool :=
  col_is_str (_state_column repository) (state_value P1) row.

(** The row converts to a record that passes [filter_processable]. *)
Definition processable_row (repository : PaperRepository) (row : dict) : bool :=
  match _to_record repository row with
  | Ok p => (attempts p <=? MAX_PROCESSING_ATTEMPTS)%Z
  | Raise _ => false
  end.

(** The table as a PGX batch expects it: ids are unique and every [P1] row
    is a well-formed record within the attempt budget. *)
Definition pgx_ready (repository : PaperRepository) (w : world) : Prop :=
  unique_ids (papers w) = true
  /\ forall row, In row (filter (p1_row repository) (papers w)) ->
                 processable_row repository row = true.

(** The rows with a given id through [f], the others as they are. *)
Definition patch_rows (f : dict -> dict) (pid : string) (t : list dict) : list dict :=
  map (fun row => if col_is_str "id" pid row then f row else row) t.

(** An update that keeps the id and leaves the row outside [P1]. *)
Definition settling (repository : PaperRepository) (f : dict -> dict) : Prop :=
  (forall row, get "id" (f row) = get "id" row)
  /\ (forall row, p1_row repository (f row) = false).

(** An update that keeps the id and the state. *)
Definition keeping (repository : PaperRepository) (f : dict -> dict) : Prop :=
  (forall row, get "id" (f row) = get "id" row)
  /\ (forall row, p1_row repository (f row) = p1_row repository row).

(** The journal entries that the properties count. *)
Definition is_p1_fetch (c : call) : bool :=
  match c with CallFetchByState P1 _ => true | _ => false end.

Definition is_claim (c : call) : bool :=
  match c with CallUpdateState _ P1_WIP => true | _ => false end.

Definition is_stage_call (c : call) : bool :=
  match c with CallStage _ _ => true | _ => false end.

(** The record that a stage function received had [attempts = 1]. *)
Definition stage_attempts_one (c : call) : Prop :=
  match c with CallStage _ p => attempts p = 1%Z | _ => True end.

(** No row with this id is in [P1]: the record has been claimed. *)
Definition released (repository : PaperRepository) (pid : string) (t : list dict) : Prop :=
  forall row, In row t -> col_is_str "id" pid row = true -> p1_row repository row = false.

(** What a repository call on a claimed record leaves behind: the journal
    grows by [js], the [P1] rows and the uniqueness of ids are as before, and
    the record stays claimed and stored. *)
Definition quiet_step (repository : PaperRepository) (pid : string) (js : list call)
    (w w' : world) : Prop :=
  journal w' = journal w ++ js
  /\ filter (p1_row repository) (papers w') = filter (p1_row repository) (papers w)
  /\ unique_ids (papers w') = unique_ids (papers w)
  /\ released repository pid (papers w')
  /\ stored repository pid w' <> None.

(** A computation that, from any store and whether it returns or raises,
    adds to the journal only entries that satisfy [P], and returns only
    values that satisfy [Q]. *)
Definition journals {A} (P : call -> Prop) (Q : A -> Prop) (m : M A) : Prop :=
  forall w, exists js,
    journal (snd (m w)) = journal w ++ js
    /\ Forall P js
    /\ match fst (m w) with Ok a => Q a | Raise _ => True end.

(** Two queued PGX records with attempts behind them, and a finished one. *)
Definition queued_pgx : world :=
  example_world
    [example_row "a" "A" "P1" 1 2;
     example_row "b" "B" "P1" 1 1;
     example_row "c" "C" "Processed" 1 0].

(** An extractor that reads one sample from every document. *)
Definition sampling_extractor : PgxExtractor :=
  mk_pgx_extractor
    (fun _ => Ok [mk_pgx_row "S1" "CYP2D6" "*4" "rs3892097" "codeine" "reduced response"
                    "actionable" "avoid codeine" "Table 2"]).

(* ------------------------------------------------------------------ *)
(** ** More of the code: storage URIs, the seed upload, the other runners *)

(** [s.split(sep, maxsplit)] for a separator of one character. *)
Fixpoint split_on (sep : ascii) (maxsplit : nat) (s : string) : list string :=
  match s with
  | EmptyString => [EmptyString]
  | String c r =>
      match maxsplit with
      | O => [s]
      | S m =>
          if Ascii.eqb c sep then EmptyString :: split_on sep m r
          else
            match split_on sep maxsplit r with
            | h :: t => String c h :: t
            | [] => [String c EmptyString]
            end
      end
  end.

(** [StorageRef.bucket] (common/dtos.py) *)
Definition bucket (ref : StorageRef) : option string :=
  let segments := split_on "/"%char 3 (uri ref) in
  if (2 <? length segments)%nat then nth_error segments 2 else None.

(** [StorageRef.path] *)
Definition path (ref : StorageRef) : option string :=
  let segments := split_on "/"%char 3 (uri ref) in
  if (3 <? length segments)%nat then nth_error segments 3 else None.

(** [StorageGateway._uri] (ingest/storage_gateway.py) *)
Definition _uri (bucket_ path_ : string) : string :=
  "storage://" ++ bucket_ ++ "/" ++ path_.

(** [StorageGateway._parse_uri] *)
Definition _parse_uri (uri_ : string) : result (string * string) :=
  let segments := split_on "/"%char 3 uri_ in
  if (length segments <? 4)%nat
  then Raise (mk_exn StorageError ("Malformed storage URI: " ++ uri_))
  else
    match segments with
    | _ :: _ :: b :: p :: _ => Ok (b, p)
    | _ => Raise (mk_exn StorageError ("Malformed storage URI: " ++ uri_))
    end.

(** [_normalize_actionability] (parsers/pgx_extractor.py) *)
Definition _normalize_actionability (value_ : string) : string :=
  let normalized := lower (strip value_) in
  if existsb (String.eqb normalized) ["yes"; "y"; "true"; "1"] then "Yes"
  else if existsb (String.eqb normalized) ["no"; "n"; "false"; "0"] then "No"
  else "No".

Section MoreCode.
Variable rt : Runtime.

(** [PaperRepository.create_pdf_available] *)
Definition create_pdf_available (repository : PaperRepository)
    (title_ pdf_uri : string) (level_ : Z) (parent_id_ : option string)
    (seed_number_ : option Z) (metadata_ : option dict)
    (paper_id_ : option string) (pdf_md5_ : option string) : M PaperRecord :=
  pid <- match paper_id_ with
         | Some (String c r) => ret (String c r)
         | _ => new_uuid rt
         end ;;
  let payload :=
    set "metadata" (VDict (match metadata_ with
                           | Some d => d
                           | None => []
                           end))
    (set "seed_number" (opt_int_value seed_number_)
    (set "parent_id" (match parent_id_ with Some p => VStr p | None => VNone end)
    (set "attempts" (VInt 0)
    (set "level" (VInt level_)
    (set (_state_column repository) (VStr (state_value PDF_AVAILABLE))
    (set "pdf_md5" (match pdf_md5_ with Some h => VStr h | None => VNone end)
    (set "source_uri" (VStr pdf_uri)
    (set "title" (VStr title_)
    (set "id" (VStr pid) []))))))))) in
  rows <- _execute (insert_builder rt payload) ;;
  row <- lift (_single rows) ;;
  lift (_to_record repository row).

(** [upload_seed_pdf] (pipelines/seed.py) *)
Definition upload_seed_pdf (file_bytes filename_ title_ : string) (level_ : Z)
    (seed_number_ : option Z) (repository : PaperRepository)
    (storage : StorageGateway) (parent_id_ : option string) : M PaperRecord :=
  pid <- new_uuid rt ;;
  let pdf_hash := md5_hexdigest rt file_bytes in
  pdf_ref_ <- lift (store_pdf storage pid filename_ file_bytes) ;;
  create_pdf_available repository title_ (uri pdf_ref_) level_ parent_id_ seed_number_
    None (Some pid) (Some pdf_hash).

(** [process_pdf_acquisition_batch] (pipelines/pdf_acquisition_stage.py) *)
Definition process_pdf_acquisition_batch (batch_size : Z) (repository : PaperRepository)
    (storage : StorageGateway) (fetcher : PdfFetcher) (level_ : Z)
    (seed_number_ : option Z) (max_workers : Z) (schedule : list nat)
  : M (list StageOutcome) :=
  fetched <- fetch_by_state_at_level repository PDF_NOT_AVAILABLE level_ batch_size
               seed_number_ ;;
  let papers_ := filter_processable fetched in
  let _process := fun paper =>
    updated <- mark_processing_attempt rt repository paper ;;
    fetch_pdf rt updated repository storage fetcher in
  run_batch "pdf_acquisition" _process papers_ max_workers schedule.

(** [paper.score is not None and paper.score >= threshold] *)
Definition eligible_for_citations (threshold : float) (paper : PaperRecord) : bool :=
  match score paper with
  | None => false
  | Some s => PrimFloat.leb threshold s
  end.

(** [process_citation_batch] (pipelines/citation_stage.py) *)
Definition process_citation_batch (batch_size : Z) (repository : PaperRepository)
    (storage : StorageGateway) (extractor : CitationExtractor) (threshold : float)
    (level_ : Z) (seed_number_ : option Z) (max_workers : Z) (schedule : list nat)
  : M (list StageOutcome) :=
  candidates <- fetch_by_state_at_level repository SCORED level_ batch_size
                  seed_number_ ;;
  let eligible := filter (eligible_for_citations threshold) candidates in
  let papers_ := filter_processable eligible in
  let _process := fun paper =>
    updated <- mark_processing_attempt rt repository paper ;;
    extract_citations rt updated repository storage extractor threshold in
  run_batch "citations" _process papers_ max_workers schedule.

(** [[self._processor.run(paper, stage=stage) for paper in papers]] *)
Fixpoint run_each (task : PaperRecord -> M StageOutcome) (papers_ : list PaperRecord)
  : M (list StageOutcome) :=
  match papers_ with
  | [] => ret []
  | paper :: rest =>
      outcome_ <- task paper ;;
      outcomes <- run_each task rest ;;
      ret (outcome_ :: outcomes)
  end.

(** [for future in as_completed(futures): outcomes[idx] = future.result()] *)
Fixpoint collect_results (futures : list (nat * result StageOutcome))
    (outcomes : list (option StageOutcome)) : M (list (option StageOutcome)) :=
  match futures with
  | [] => ret outcomes
  | (idx, r) :: rest =>
      outcome_ <- lift r ;;
      collect_results rest (store_at idx outcome_ outcomes)
  end.

(** [STATE_FOR_STAGE[stage]] *)
Definition state_for_stage (stage_ : StageName) : result PaperState :=
  match find (fun entry => String.eqb (stage_name (fst entry)) (stage_name stage_))
             STATE_FOR_STAGE with
  | Some entry => Ok (snd entry)
  | None => Raise (mk_exn KeyError ("'" ++ stage_name stage_ ++ "'"))
  end.

(** [ProcessingHarness.run] (pipelines/harness.py) *)
Definition harness_run (services : PipelineServices) (stage_ : StageName)
    (level_ max_steps max_workers : Z) (schedule : list nat) : M (list StageOutcome) :=
  if (max_steps <=? 0)%Z then ret []
  else
    st <- lift (state_for_stage stage_) ;;
    candidates <- fetch_by_state_at_level (repository_ services) st level_ max_steps None ;;
    let papers_ := firstn (Z.to_nat max_steps) (filter_processable candidates) in
    match papers_ with
    | [] => ret []
    | _ =>
        let task := fun paper => run rt services paper (Some stage_) in
        if (max_workers <=? 1)%Z || (length papers_ =? 1)%nat then
          run_each task papers_
        else
          futures <- run_pool task papers_ schedule ;;
          outcomes <- collect_results futures (repeat None (length papers_)) ;;
          ret (present outcomes)
    end.

End MoreCode.

(* ------------------------------------------------------------------ *)
(** ** Vocabulary of the further properties *)

(** A builder whose answer depends on the number of the try only, and
    leaves the store alone. *)
Definition scripted {A} (answers : nat -> reply A) : builder A :=
  fun try w => (answers try, w).

(** The answer is a transport failure that [_execute] takes for transient. *)
Definition retriable {A} (r : reply A) : bool :=
  match r with
  | TransportFailure exc linked => _is_transient_transport_error exc linked
  | _ => false
  end.

(** What [_execute] makes of the answer that ends its loop. *)
Definition final_answer {A} (r : reply A) : result A :=
  match r with
  | Done data => Ok data
  | ApiFailure e => Raise (_map_postgrest_error e)
  | TransportFailure exc _ => Raise (mk_exn RepositoryError (raised_str exc))
  end.

(** A database that is unreachable twice and then answers: first a
    [RuntimeError] raised from a [ConnectionResetError], then a dropped
    connection. *)
Definition flaky_answers : nat -> reply Z :=
  fun try =>
    match try with
    | O => TransportFailure (mk_raised false "request failed")
             [mk_raised false "[Errno 104] Connection reset by peer"]
    | S O => TransportFailure
               (mk_raised false "Server disconnected without sending a response") []
    | _ => Done 7%Z
    end.

(** A chain of [n] exceptions that say nothing, then a dropped connection. *)
Definition buried (n : nat) : list RaisedError :=
  repeat (mk_raised false "wrapped") n ++ [mk_raised true "Server disconnected"].

(** A unique violation as PostgREST reports it. *)
Definition title_conflict : APIError :=
  mk_api_error (Some "23505")
    (Some "duplicate key value violates unique constraint papers_title_unique")
    None None "APIError".

(** Consecutive rows are in the order [le]. *)
Fixpoint rows_ascend (le : dict -> dict -> bool) (l : list dict) : Prop :=
  match l with
  | [] => True
  | a :: t =>
      match t with
      | [] => True
      | b :: _ => le a b = true
      end /\ rows_ascend le t
  end.

(** The levels of consecutive records do not decrease. *)
Fixpoint levels_ascend (l : list PaperRecord) : Prop :=
  match l with
  | [] => True
  | a :: t =>
      match t with
      | [] => True
      | b :: _ => (level a <= level b)%Z
      end /\ levels_ascend t
  end.

(** The row has an integer in its [level] column. *)
Definition has_level (row : dict) : bool :=
  match get "level" row with
  | Some (VInt _) => true
  | _ => false
  end.

(** Three stored records of one state on two levels, the deeper one first. *)
Definition mixed_levels : world :=
  example_world
    [example_row "a" "A" "Scored" 2 0;
     example_row "b" "B" "Scored" 1 0;
     example_row "c" "C" "Failed" 1 0;
     example_row "d" "D" "Scored" 1 0].

(** [StorageRef(uri) if uri else None] *)
Definition ref_of (u : string) : option StorageRef :=
  if String.eqb u "" then None else Some (mk_ref u).

(** The record after its PDF is stored: the reference, the checksum and the
    metadata that [fetch_pdf] writes. *)
Definition with_pdf (u h : string) (m : dict) (p : PaperRecord) : PaperRecord :=
  {| id := id p; title := title p; state := state p; level := level p;
     attempts := attempts p; pdf_ref := ref_of u; text_ref := text_ref p;
     score := score p; reason := reason p; pdf_md5 := Some h;
     parent_id := parent_id p; seed_number := seed_number p;
     metadata := m; created_at := created_at p;
     updated_at := updated_at p |}.

(** The record after its text is stored. *)
Definition with_text (u : string) (p : PaperRecord) : PaperRecord :=
  {| id := id p; title := title p; state := state p; level := level p;
     attempts := attempts p; pdf_ref := pdf_ref p; text_ref := ref_of u;
     score := score p; reason := reason p; pdf_md5 := pdf_md5 p;
     parent_id := parent_id p; seed_number := seed_number p;
     metadata := metadata p; created_at := created_at p;
     updated_at := updated_at p |}.

(** A fetcher that finds one PDF, a storage that keeps it, and a storage that
    fails in a way that is not a [StorageError]. *)
Definition found_pdf : PdfCandidate :=
  mk_candidate "paper.pdf" "%PDF-1.7" "https://example.org/paper.pdf".

Definition finding_fetcher : PdfFetcher := mk_fetcher (fun _ => Ok (Some found_pdf)).

Definition keeping_storage : StorageGateway :=
  mk_storage (fun pid name _ => Ok (mk_ref (_uri "pdfs" (pid ++ "/" ++ name))))
             (fun _ => Ok "%PDF-1.7").

(** The title that [_insert_link_placeholders] stores for a link. *)
Definition link_title (link : LinkAnnotation) : string :=
  take 255 ("url:" ++ link_url link).

(** A row is the placeholder of a link of [paper]. *)
Definition is_link_placeholder (repository : PaperRepository) (paper : PaperRecord)
    (link : LinkAnnotation) (row : dict) : Prop :=
  is_placeholder repository paper row
  /\ row_title row = link_title link
  /\ get "metadata" row
     = Some (VDict [("link", VDict [("url", VStr (link_url link));
                                    ("text", VStr (link_text link));
                                    ("page", VInt (link_page link))])]).

(** A runtime whose database refuses every insert as a duplicate title. *)
Definition refusing_runtime : Runtime :=
  {| uuid4 := uuid4 example_runtime;
     now_iso := now_iso example_runtime;
     elapsed_ms := elapsed_ms example_runtime;
     random_index := random_index example_runtime;
     insert_verdict := fun _ _ _ => Refused title_conflict;
     extraction_insert_verdict := extraction_insert_verdict example_runtime;
     md5_hexdigest := md5_hexdigest example_runtime;
     utf8_decode := utf8_decode example_runtime;
     urlparse_hostname := urlparse_hostname example_runtime;
     str_of_value := str_of_value example_runtime;
     pdf_page_count := pdf_page_count example_runtime |}.

(** An extractor that reads a text with two links, the same one twice. *)
Definition linking_extractor : TextExtractor :=
  mk_text_extractor
    (fun paper =>
       Ok (mk_extraction (mk_ref ("storage://texts/" ++ id paper)) "some text"
             [mk_link "https://example.org/a" "A" 0;
              mk_link "https://example.org/a" "A again" 3])).

(** The bytes that [process_pgx_extraction] works on: the ones it was given,
    else the blob behind the PDF reference. *)
Definition loaded_pdf (storage : StorageGateway) (ref : StorageRef)
    (pdf_bytes : option string) : result string :=
  match pdf_bytes with
  | Some b => Ok b
  | None => fetch_blob storage ref
  end.

(** The rows that [insert_pgx_extractions] sends for a paper. *)
Definition extraction_payload (pid : string) (rows : list dict) : list dict :=
  map (fun row => update [("paper_id", VStr pid)] row) rows.

(** How a PGX outcome and the stored record go together: the outcome is for
    this paper and stage, and the record is in [P1Success] when the outcome
    is a success and in [P1Failure] otherwise, with no attempts; one
    [update_state] was journaled. *)
Definition pgx_settled (repository : PaperRepository) (paper : PaperRecord)
    (w : world) (o : StageOutcome) (w' : world) : Prop :=
  paper_id o = id paper
  /\ stage o = "pgx_extraction"
  /\ exists p',
       stored repository (id paper) w' = Some p'
       /\ state p' = (if success o then P1_SUCCESS else P1_FAILURE)
       /\ attempts p' = 0%Z
       /\ journal w' = journal w ++ [CallUpdateState (id paper) (state p')].

(** An extractor that fails, and one that finds nothing. *)
Definition failing_extractor : PgxExtractor :=
  mk_pgx_extractor (fun _ => Raise (mk_exn RuntimeError "model unavailable")).

Definition empty_extractor : PgxExtractor := mk_pgx_extractor (fun _ => Ok []).

(** A claimed record, as the batch hands it to the stage. *)
Definition claimed_row (pid : string) : dict := example_row pid "A" "P1WIP" 1 1.

Definition claimed_paper (pid : string) : PaperRecord := example_paper pid "A" P1_WIP 1 1.


(** How many times a character occurs in a string. *)
Fixpoint count_char (c : ascii) (s : string) : nat :=
  match s with
  | EmptyString => O
  | String d r => (if Ascii.eqb d c then 1 else 0) + count_char c r
  end.


(** A [Scored] row with another score cell, and a queue of four [Scored]
    rows: two at 9.0, one at 3.0 and one without a score. *)
Definition scored_with (pid : string) (s : value) : dict :=
  set "score" s (scored_row pid).

Definition citation_queue : world :=
  example_world
    [scored_row "a"; scored_with "b" (VFloat 3.0%float); scored_with "c" VNone;
     scored_row "d"].

(** The inner [_process] of [process_citation_batch]. *)
Definition citation_task (rt : Runtime) (repository : PaperRepository)
    (storage : StorageGateway) (extractor : CitationExtractor) (threshold : float)
    (paper : PaperRecord) : M StageOutcome :=
  bind (mark_processing_attempt rt repository paper)
       (fun updated => extract_citations rt updated repository storage extractor threshold).



(** The text is made of white space only. *)
Fixpoint blank (s : string) : bool :=
  match s with
  | EmptyString => true
  | String c r => is_space c && blank r
  end.

(** A title behind a no-break space, as a line copied from a web page has
    it. *)
Definition behind_no_break_space (s : string) : string :=
  String (ascii_of_nat 160) s.

(* ================================================================== *)
(** * Properties *)

(** ** Dictionaries *)

Section DictFacts.
Context {A : Type}.
Implicit Types (d u : list (string * A)) (k : string).

Lemma get_set_same k (v : A) d : get k (set k v d) = Some v.
Proof.
  induction d as [|[k' v'] d IH]; simpl.
  - now rewrite String.eqb_refl.
  - destruct (String.eqb k k') eqn:E; simpl.
    + now rewrite String.eqb_refl.
    + now rewrite E.
Qed.

Lemma get_set_other k k' (v : A) d :
  String.eqb k k' = false -> get k (set k' v d) = get k d.
Proof.
  intros Hne. induction d as [|[k2 v2] d IH]; simpl.
  - now rewrite Hne.
  - destruct (String.eqb k' k2) eqn:E; simpl.
    + apply String.eqb_eq in E; subst k2. now rewrite Hne.
    + destruct (String.eqb k k2); auto.
Qed.

Lemma get_set k k' (v : A) d :
  get k (set k' v d) = if String.eqb k k' then Some v else get k d.
Proof.
  destruct (String.eqb k k') eqn:E.
  - apply String.eqb_eq in E; subst. apply get_set_same.
  - now apply get_set_other.
Qed.

Lemma get_app k d u :
  get k (d ++ u) = match get k d with Some v => Some v | None => get k u end.
Proof.
  induction d as [|[k' v'] d IH]; simpl; auto.
  destruct (String.eqb k k'); auto.
Qed.

(** A key reads from the updates, the last one first, and from the dict
    otherwise. *)
Lemma get_update k d u :
  get k (update d u) =
  match get k (rev u) with Some v => Some v | None => get k d end.
Proof.
  unfold update. revert d.
  induction u as [|[k' v'] u IH]; intros d; simpl; auto.
  rewrite IH, get_app, get_set. simpl.
  destruct (get k (rev u)); auto.
  destruct (String.eqb k k'); auto.
Qed.

Lemma get_rev_filter_out k u :
  get k (rev (filter (fun kv => negb (String.eqb (fst kv) k)) u)) = None.
Proof.
  induction u as [|[k' v'] u IH]; simpl; auto.
  destruct (String.eqb k' k) eqn:E; simpl; auto.
  rewrite get_app, IH. simpl.
  rewrite String.eqb_sym, E. reflexivity.
Qed.

End DictFacts.

(** ** How the repository calls run *)

Section RepositoryFacts.
Variable rt : Runtime.
Variable repository : PaperRepository.

Lemma update_state_run pid st updates w :
  update_state rt repository pid st updates w =
  (row <~ _single (map (fun row => update row
                          (update_state_values repository st updates (now_iso rt (clock w))))
                       (filter (col_is_str "id" pid) (papers w))) ;;
   _to_record repository row,
   after_update_state rt repository pid st updates w).
Proof.
  unfold update_state, after_update_state, bind, record_call, utc_now,
    db_update_by_id, lift, rows_after. simpl.
  destruct (_single _); simpl; reflexivity.
Qed.

Lemma increment_attempts_run pid current w :
  increment_attempts rt repository pid (Some current) w =
  (row <~ _single (map (fun row => update row
                          [("attempts", VInt (current + 1));
                           ("updated_at", VStr (now_iso rt (clock w)))])
                       (filter (col_is_str "id" pid) (papers w))) ;;
   _to_record repository row,
   after_increment rt pid (current + 1) w).
Proof.
  unfold increment_attempts, after_increment, bind, record_call, utc_now,
    db_update_by_id, lift, rows_after. simpl.
  destruct (_single _); simpl; reflexivity.
Qed.

(** The [values] of [update_state] always carry [attempts = 0]. *)
Lemma update_state_values_attempts st updates now :
  get "attempts" (update_state_values repository st updates now) = Some (VInt 0).
Proof.
  assert (Hbase : get "attempts"
            (set "updated_at" (VStr now)
               (set "attempts" (VInt 0)
                  (set (_state_column repository) (VStr (state_value st)) [])))
          = Some (VInt 0)).
  { rewrite get_set_other by reflexivity. apply get_set_same. }
  unfold update_state_values.
  destruct updates as [[|kv u]|]; auto.
  rewrite get_update, get_rev_filter_out. exact Hbase.
Qed.

(** The attempts that [_to_record] reads from a row whose cell is [0]. *)
Lemma to_record_attempts_zero row rec :
  get "attempts" row = Some (VInt 0) ->
  _to_record repository row = Ok rec -> attempts rec = 0%Z.
Proof.
  intros Hget. unfold _to_record, rbind.
  repeat match goal with
         | |- match ?x with Ok _ => _ | Raise _ => _ end = _ -> _ =>
             destruct x eqn:?; try discriminate
         end.
  intros H. injection H as <-. simpl.
  match goal with
  | E : attempts_of _ = Ok ?z |- ?z = _ =>
      unfold attempts_of, get_or_none in E; rewrite Hget in E; congruence
  end.
Qed.

End RepositoryFacts.

(** ** Rows and records *)

Lemma PaperState_of_value st : PaperState_of (VStr (state_value st)) = Ok st.
Proof. destruct st; reflexivity. Qed.

Lemma PaperState_eqb_refl st : PaperState_eqb st st = true.
Proof. destruct st; reflexivity. Qed.

Lemma PaperState_eqb_eq a b : PaperState_eqb a b = true -> a = b.
Proof. destruct a, b; simpl; intros H; try reflexivity; discriminate H. Qed.

Lemma state_value_inj a b : state_value a = state_value b -> a = b.
Proof.
  intros H. apply PaperState_eqb_eq. unfold PaperState_eqb.
  rewrite H. apply String.eqb_refl.
Qed.

(** What a successful [_to_record] says about each cell of the row. *)
Lemma to_record_inv repository row p :
  _to_record repository row = Ok p ->
  required_str "id" (get "id" row) = Ok (id p)
  /\ required_str "title" (get "title" row) = Ok (title p)
  /\ PaperState_of (state_cell repository row) = Ok (state p)
  /\ level_of (get "level" row) = Ok (level p)
  /\ _maybe_ref "source_uri" (get_or_none "source_uri" row) = Ok (pdf_ref p)
  /\ _maybe_ref "text_uri" (get_or_none "text_uri" row) = Ok (text_ref p)
  /\ opt_float "score" (get_or_none "score" row) = Ok (score p)
  /\ opt_str "reason" (get_or_none "reason" row) = Ok (reason p)
  /\ opt_str "pdf_md5" (get_or_none "pdf_md5" row) = Ok (pdf_md5 p)
  /\ opt_str "parent_id" (get_or_none "parent_id" row) = Ok (parent_id p)
  /\ opt_int "seed_number" (get_or_none "seed_number" row) = Ok (seed_number p)
  /\ metadata_of (get_or_none "metadata" row) = Ok (metadata p)
  /\ attempts_of (get_or_none "attempts" row) = Ok (attempts p)
  /\ opt_str "created_at" (get_or_none "created_at" row) = Ok (created_at p)
  /\ opt_str "updated_at" (get_or_none "updated_at" row) = Ok (updated_at p).
Proof.
  unfold _to_record, rbind.
  repeat match goal with
         | |- match ?x with Ok _ => _ | Raise _ => _ end = _ -> _ =>
             destruct x eqn:?; try discriminate
         end.
  intros H. injection H as <-. simpl. repeat split; reflexivity.
Qed.

Lemma to_record_id repository row p :
  _to_record repository row = Ok p -> get "id" row = Some (VStr (id p)).
Proof.
  intros H. apply to_record_inv in H. destruct H as [H _].
  unfold required_str in H. destruct (get "id" row) as [[| | | | |]|]; try discriminate.
  congruence.
Qed.

Arguments PaperState_of : simpl never.
Arguments required_str : simpl never.
Arguments level_of : simpl never.
Arguments _maybe_ref : simpl never.
Arguments opt_float : simpl never.
Arguments opt_str : simpl never.
Arguments opt_int : simpl never.
Arguments metadata_of : simpl never.
Arguments attempts_of : simpl never.

(** Rewrites the record of an updated row, cell by cell, from the record of
    the row. *)
Ltac updated_record H :=
  let E := fresh "E" in
  pose proof (to_record_inv _ _ _ H) as E;
  destruct E as (Eid & Etitle & Estate & Elevel & Epdf & Etext & Escore &
                 Ereason & Emd5 & Eparent & Eseed & Emeta & Eatt & Ecre & Eupd);
  unfold state_cell, get_or_none in Estate; simpl in Estate;
  unfold _to_record, state_cell, get_or_none;
  rewrite !get_update; simpl;
  unfold get_or_none in *;
  rewrite ?PaperState_of_value;
  rewrite ?Eid, ?Etitle, ?Estate, ?Elevel, ?Epdf, ?Etext, ?Escore, ?Ereason,
    ?Emd5, ?Eparent, ?Eseed, ?Emeta, ?Eatt, ?Ecre, ?Eupd;
  try reflexivity.

Section RowFacts.
Variable repository : PaperRepository.
Hypothesis Hconf : configured repository.

Lemma to_record_stamped row p st now :
  _to_record repository row = Ok p ->
  _to_record repository (update row (update_state_values repository st None now))
  = Ok (stamped st now p).
Proof.
  intros H. destruct repository as [sc]. destruct Hconf as [Hc|Hc]; simpl in Hc; subst sc;
    updated_record H.
Qed.

Lemma to_record_reason row p st now r :
  _to_record repository row = Ok p ->
  _to_record repository
    (update row (update_state_values repository st (reason_update r) now))
  = Ok (with_reason (Some r) (stamped st now p)).
Proof.
  intros H. destruct repository as [sc]. destruct Hconf as [Hc|Hc]; simpl in Hc; subst sc;
    updated_record H.
Qed.

Lemma to_record_scored row p st now s r model ms :
  _to_record repository row = Ok p ->
  _to_record repository
    (update row (update_state_values repository st
                   (Some [("score", VFloat s); ("reason", VStr r);
                          ("model_name", VStr model); ("duration_ms", VInt ms)]) now))
  = Ok (with_score s (with_reason (Some r) (stamped st now p))).
Proof.
  intros H. destruct repository as [sc]. destruct Hconf as [Hc|Hc]; simpl in Hc; subst sc;
    updated_record H.
Qed.

Lemma metadata_of_dict m : metadata_of (VDict m) = Ok m.
Proof. destruct m; reflexivity. Qed.


Lemma to_record_cleared row p st now m :
  _to_record repository row = Ok p ->
  _to_record repository
    (update row (update_state_values repository st
                   (Some [("reason", VNone); ("metadata", VDict m)]) now))
  = Ok (with_reason None (replace_metadata (stamped st now p) m)).
Proof.
  intros H. destruct repository as [sc]. destruct Hconf as [Hc|Hc]; simpl in Hc; subst sc;
    updated_record H; rewrite metadata_of_dict; reflexivity.
Qed.

Lemma to_record_charged row p next now :
  _to_record repository row = Ok p ->
  _to_record repository
    (update row [("attempts", VInt next); ("updated_at", VStr now)])
  = Ok (charged next now p).
Proof.
  intros H. destruct repository as [sc]. destruct Hconf as [Hc|Hc]; simpl in Hc; subst sc;
    updated_record H.
Qed.

End RowFacts.

(** ** Rows found and rows replaced *)

Lemma find_filter {A} (f : A -> bool) t x :
  find f t = Some x -> exists rest, filter f t = x :: rest.
Proof.
  induction t as [|a t IH]; simpl; try discriminate.
  destruct (f a) eqn:E.
  - intros H. injection H as ->. eauto.
  - auto.
Qed.

Lemma find_rows_after values pid t row :
  find (col_is_str "id" pid) t = Some row ->
  col_is_str "id" pid (update row values) = true ->
  find (col_is_str "id" pid) (rows_after values pid t) = Some (update row values).
Proof.
  intros Hfind Hhit. induction t as [|a t IH]; simpl in *; try discriminate.
  destruct (col_is_str "id" pid a) eqn:E.
  - injection Hfind as ->. now rewrite Hhit.
  - rewrite E. auto.
Qed.

Lemma col_is_str_record repository row p pid :
  _to_record repository row = Ok p ->
  col_is_str "id" pid row = String.eqb (id p) pid.
Proof.
  intros H. apply to_record_id in H. unfold col_is_str. now rewrite H.
Qed.

Section CallFacts.
Variable rt : Runtime.
Variable repository : PaperRepository.

(** [update_state] on a stored row whose updated form converts. *)
Lemma update_state_spec pid st updates w row p' :
  find_row pid w = Some row ->
  _to_record repository
    (update row (update_state_values repository st updates (now_iso rt (clock w))))
  = Ok p' ->
  update_state rt repository pid st updates w
  = (Ok p', after_update_state rt repository pid st updates w).
Proof.
  intros Hfind Hrec. rewrite update_state_run.
  destruct (find_filter _ _ _ Hfind) as [rest ->]. cbn [map _single rbind].
  now rewrite Hrec.
Qed.

(** [update_state] when no row has the id. *)
Lemma update_state_missing pid st updates w :
  find_row pid w = None ->
  update_state rt repository pid st updates w
  = (Raise (mk_exn RepositoryError "Supabase returned no rows for mutation"),
     after_update_state rt repository pid st updates w).
Proof.
  intros Hfind. rewrite update_state_run.
  assert (filter (col_is_str "id" pid) (papers w) = []) as ->; [|reflexivity].
  unfold find_row in Hfind. induction (papers w) as [|a t IH]; simpl in *; auto.
  destruct (col_is_str "id" pid a); [discriminate|auto].
Qed.

Lemma increment_attempts_spec pid current w row p' :
  find_row pid w = Some row ->
  _to_record repository
    (update row [("attempts", VInt (current + 1));
                 ("updated_at", VStr (now_iso rt (clock w)))])
  = Ok p' ->
  increment_attempts rt repository pid (Some current) w
  = (Ok p', after_increment rt pid (current + 1) w).
Proof.
  intros Hfind Hrec. rewrite increment_attempts_run.
  destruct (find_filter _ _ _ Hfind) as [rest ->]. cbn [map _single rbind].
  now rewrite Hrec.
Qed.

End CallFacts.

(** ** Keys of a dict that was built by assignments *)

Section KeyFacts.
Context {A : Type}.
Implicit Types (d u : list (string * A)) (k : string).

Lemma keys_set k k' (v : A) d :
  In k' (map fst (set k v d)) <-> k' = k \/ In k' (map fst d).
Proof.
  induction d as [|[k2 v2] d IH]; simpl.
  - intuition.
  - destruct (String.eqb k k2) eqn:E; simpl.
    + apply String.eqb_eq in E; subst. intuition.
    + rewrite IH. intuition.
Qed.

Lemma nodup_set k (v : A) d :
  NoDup (map fst d) -> NoDup (map fst (set k v d)).
Proof.
  induction d as [|[k2 v2] d IH]; simpl; intros Hd.
  - constructor; [intros []|constructor].
  - inversion Hd as [|? ? Hnotin Hd']; subst.
    destruct (String.eqb k k2) eqn:E; simpl.
    + apply String.eqb_eq in E; subst. now constructor.
    + constructor; auto. rewrite keys_set. intros [->|Hin]; auto.
      now rewrite String.eqb_refl in E.
Qed.

Lemma nodup_update d u :
  NoDup (map fst d) -> NoDup (map fst (update d u)).
Proof.
  unfold update. revert d. induction u as [|[k v] u IH]; simpl; auto.
  intros d Hd. apply IH. now apply nodup_set.
Qed.

Lemma get_some_in k d (v : A) : get k d = Some v -> In k (map fst d).
Proof.
  induction d as [|[k2 v2] d IH]; simpl; try discriminate.
  destruct (String.eqb k k2) eqn:E; auto.
  apply String.eqb_eq in E; auto.
Qed.

Lemma get_rev_nodup k d : NoDup (map fst d) -> get k (rev d) = get k d.
Proof.
  induction d as [|[k2 v2] d IH]; simpl; auto.
  intros Hd. inversion Hd as [|? ? Hnotin Hd']; subst.
  rewrite get_app, (IH Hd'). simpl.
  destruct (get k d) eqn:Eg.
  - destruct (String.eqb k k2) eqn:E; auto.
    apply String.eqb_eq in E; subst. apply get_some_in in Eg. contradiction.
  - destruct (String.eqb k k2); auto.
Qed.

End KeyFacts.

Lemma update_state_values_nodup repository st updates now :
  NoDup (map fst (update_state_values repository st updates now)).
Proof.
  assert (Hbase : NoDup (map fst
            (set "updated_at" (VStr now)
               (set "attempts" (VInt 0)
                  (set (_state_column repository) (VStr (state_value st)) []))))).
  { repeat apply nodup_set. constructor. }
  unfold update_state_values. destruct updates as [[|kv u]|]; auto.
  now apply nodup_update.
Qed.

(** A row that took the [values] of [update_state] has [attempts = 0]. *)
Lemma updated_row_attempts repository st updates now row :
  get "attempts" (update row (update_state_values repository st updates now))
  = Some (VInt 0).
Proof.
  rewrite get_update, get_rev_nodup by apply update_state_values_nodup.
  now rewrite update_state_values_attempts.
Qed.

(** ** C1 *)

(** C1.  Whatever the paper id, the new state and the [updates] dict are,
    [update_state] sends [attempts = 0] (an [attempts] key of [updates] is
    never merged), every stored row with that id holds [attempts = 0]
    afterwards while the other rows are untouched, and the record it returns
    has [attempts = 0]. *)
Theorem update_state_resets_attempts :
  forall (rt : Runtime) (repository : PaperRepository) (pid : string)
         (st : PaperState) (updates : option dict) (w : world),
    get "attempts"
      (update_state_values repository st updates (now_iso rt (clock w)))
    = Some (VInt 0)
    /\ Forall2
         (fun old new =>
            if col_is_str "id" pid old
            then get "attempts" new = Some (VInt 0)
            else new = old)
         (papers w)
         (papers (snd (update_state rt repository pid st updates w)))
    /\ match fst (update_state rt repository pid st updates w) with
       | Ok p => attempts p = 0%Z
       | Raise _ => True
       end.
Proof.
  intros. rewrite update_state_run. cbn [fst snd].
  split; [apply update_state_values_attempts|]. split.
  - unfold after_update_state, rows_after. cbn [papers with_papers].
    induction (papers w) as [|row t IH]; simpl; constructor; auto.
    destruct (col_is_str "id" pid row); auto using updated_row_attempts.
  - destruct (filter (col_is_str "id" pid) (papers w)) as [|row rest];
      cbn [map _single rbind]; auto.
    destruct (_to_record _ _) eqn:E; auto.
    eapply to_record_attempts_zero; [|exact E].
    apply updated_row_attempts.
Qed.

(** ** C4 *)

(** C4.  When the score is [None] or strictly below the threshold, or the
    text reference is missing, [extract_citations] returns a failure outcome
    and leaves the store exactly as it was: no row, counter or journal entry
    changes, so the record keeps its state, score and attempts. *)
Theorem extract_citations_blocked_no_mutation :
  forall (rt : Runtime) (paper : PaperRecord) (repository : PaperRepository)
         (storage : StorageGateway) (extractor : CitationExtractor)
         (threshold : float) (w : world),
    score paper = None
    \/ (exists s, score paper = Some s /\ PrimFloat.ltb s threshold = true)
    \/ text_ref paper = None ->
    exists o,
      extract_citations rt paper repository storage extractor threshold w = (Ok o, w)
      /\ success o = false
      /\ paper_id o = id paper.
Proof.
  intros rt paper repository storage extractor threshold w H.
  unfold extract_citations, below_threshold.
  destruct H as [Hs | [(s & Hs & Hlt) | Ht]].
  - rewrite Hs. eexists; repeat split.
  - rewrite Hs, Hlt. eexists; repeat split.
  - rewrite Ht.
    destruct (match score paper with Some s => _ | None => true end);
      eexists; repeat split.
Qed.

(** C4 at a record scored 3.5 under the threshold 7.0. *)
Lemma extract_citations_blocked_no_mutation_witness :
  let paper := with_score 3.5%float (example_paper "a" "T" SCORED 1 1) in
  let w := example_world [example_row "a" "T" "Scored" 1 1] in
  exists o,
    extract_citations example_runtime paper default_repository
      (mk_storage (fun _ _ _ => Ok (mk_ref "s")) (fun _ => Ok ""))
      (mk_citation_extractor (fun _ => Ok [])) 7.0%float w = (Ok o, w)
    /\ success o = false
    /\ paper_id o = id paper.
Proof.
  intros paper w.
  apply (extract_citations_blocked_no_mutation example_runtime paper).
  right; left. exists 3.5%float. split; reflexivity.
Defined.

(** ** C5 *)

(** C5.  For a [PdfNotAvailable] record that names no blocked host and is
    within the attempt budget, when the fetcher finds no candidate,
    [fetch_pdf] returns the failure outcome "pdf not found" after exactly one
    fetcher call and without touching the repository: the rows and the
    counters are as before, so the stored state is still [PdfNotAvailable],
    and the record still passes [filter_processable]. *)
Theorem fetch_pdf_not_found_soft_failure :
  forall (rt : Runtime) (paper : PaperRecord) (repository : PaperRepository)
         (storage : StorageGateway) (fetcher : PdfFetcher) (w : world),
    state paper = PDF_NOT_AVAILABLE ->
    _blocked_source_url rt paper = Ok None ->
    (attempts paper <= MAX_PROCESSING_ATTEMPTS)%Z ->
    fetch fetcher paper = Ok None ->
    exists o,
      fetch_pdf rt paper repository storage fetcher w
      = (Ok o, with_journal (journal w ++ [CallFetcher (id paper)]) w)
      /\ success o = false
      /\ message o = "pdf not found"
      /\ paper_id o = id paper
      /\ filter_processable [paper] = [paper].
Proof.
  intros rt paper repository storage fetcher w _ Hblocked Hatt Hfetch.
  unfold fetch_pdf, bind, lift, try_except, record_call, ret.
  rewrite Hblocked.
  assert ((attempts paper >? MAX_PROCESSING_ATTEMPTS)%Z = false) as ->.
  { rewrite Z.gtb_ltb. apply Z.ltb_ge. lia. }
  rewrite Hfetch. eexists. repeat split.
  unfold filter_processable. simpl.
  apply Z.leb_le in Hatt. now rewrite Hatt.
Qed.

(** C5 at a first attempt on a placeholder with an ordinary title. *)
Lemma fetch_pdf_not_found_soft_failure_witness :
  let paper := example_paper "a" "Some title" PDF_NOT_AVAILABLE 1 1 in
  let w := example_world [example_row "a" "Some title" "PDF Not Available" 1 1] in
  let fetcher := mk_fetcher (fun _ => Ok None) in
  let storage := mk_storage (fun _ _ _ => Ok (mk_ref "s")) (fun _ => Ok "") in
  exists o,
    fetch_pdf example_runtime paper default_repository storage fetcher w
    = (Ok o, with_journal (journal w ++ [CallFetcher (id paper)]) w)
    /\ success o = false
    /\ message o = "pdf not found"
    /\ paper_id o = id paper
    /\ filter_processable [paper] = [paper].
Proof.
  intros paper w fetcher storage.
  apply (fetch_pdf_not_found_soft_failure example_runtime paper);
    [reflexivity | reflexivity | unfold MAX_PROCESSING_ATTEMPTS; simpl; lia | reflexivity].
Defined.

(** ** Calls on a stored record *)

Section StoredFacts.
Variable rt : Runtime.
Variable repository : PaperRepository.
Hypothesis Hconf : configured repository.

Lemma stored_inv pid w p :
  stored repository pid w = Some p ->
  exists row, find_row pid w = Some row
              /\ _to_record repository row = Ok p
              /\ id p = pid.
Proof.
  unfold stored. destruct (find_row pid w) as [row|] eqn:Hf; try discriminate.
  destruct (_to_record repository row) as [q|] eqn:Hr; try discriminate.
  intros H. injection H as ->. exists row. repeat split; auto.
  unfold find_row in Hf. apply find_some in Hf. destruct Hf as [_ Hhit].
  rewrite (col_is_str_record _ _ _ _ Hr) in Hhit. now apply String.eqb_eq.
Qed.

Lemma stored_after_rows values pid w row p' :
  find_row pid w = Some row ->
  _to_record repository (update row values) = Ok p' ->
  id p' = pid ->
  forall w', papers w' = rows_after values pid (papers w) ->
  stored repository pid w' = Some p'.
Proof.
  intros Hf Hr Hid w' Hw'. unfold stored, find_row. rewrite Hw'.
  rewrite (find_rows_after values pid (papers w) row Hf).
  - now rewrite Hr.
  - rewrite (col_is_str_record _ _ _ _ Hr), Hid. apply String.eqb_refl.
Qed.

(** [update_state] on a stored record, for updates whose effect on the
    record is [F]. *)
Lemma update_state_stored pid st updates w p0 (F : string -> PaperRecord -> PaperRecord) :
  (forall row p now,
      _to_record repository row = Ok p ->
      _to_record repository (update row (update_state_values repository st updates now))
      = Ok (F now p)) ->
  (forall now p, id (F now p) = id p) ->
  stored repository pid w = Some p0 ->
  update_state rt repository pid st updates w
  = (Ok (F (now_iso rt (clock w)) p0), after_update_state rt repository pid st updates w)
  /\ stored repository pid (after_update_state rt repository pid st updates w)
     = Some (F (now_iso rt (clock w)) p0).
Proof.
  intros HF Hid Hst. destruct (stored_inv _ _ _ Hst) as (row & Hf & Hr & Hp).
  split.
  - apply update_state_spec with (row := row); auto.
  - eapply stored_after_rows; eauto.
    rewrite Hid. exact Hp.
Qed.

Lemma update_state_plain pid st w p0 :
  stored repository pid w = Some p0 ->
  update_state rt repository pid st None w
  = (Ok (stamped st (now_iso rt (clock w)) p0),
     after_update_state rt repository pid st None w)
  /\ stored repository pid (after_update_state rt repository pid st None w)
     = Some (stamped st (now_iso rt (clock w)) p0).
Proof.
  apply (update_state_stored pid st None w p0 (fun now p => stamped st now p)); auto.
  intros. now apply to_record_stamped.
Qed.

Lemma update_state_reason pid st r w p0 :
  stored repository pid w = Some p0 ->
  update_state rt repository pid st (reason_update r) w
  = (Ok (with_reason (Some r) (stamped st (now_iso rt (clock w)) p0)),
     after_update_state rt repository pid st (reason_update r) w)
  /\ stored repository pid (after_update_state rt repository pid st (reason_update r) w)
     = Some (with_reason (Some r) (stamped st (now_iso rt (clock w)) p0)).
Proof.
  apply (update_state_stored pid st (reason_update r) w p0
           (fun now p => with_reason (Some r) (stamped st now p))); auto.
  intros. now apply to_record_reason.
Qed.

Lemma register_score_stored pid s r model ms st w p0 :
  stored repository pid w = Some p0 ->
  let updates := Some [("score", VFloat s); ("reason", VStr r);
                       ("model_name", VStr model); ("duration_ms", VInt ms)] in
  register_score rt repository pid s r model ms st w
  = (Ok (with_score s (with_reason (Some r) (stamped st (now_iso rt (clock w)) p0))),
     after_update_state rt repository pid st updates w)
  /\ stored repository pid (after_update_state rt repository pid st updates w)
     = Some (with_score s (with_reason (Some r) (stamped st (now_iso rt (clock w)) p0))).
Proof.
  intros Hst updates. unfold register_score.
  apply (update_state_stored pid st updates w p0
           (fun now p => with_score s (with_reason (Some r) (stamped st now p)))); auto.
  intros. now apply to_record_scored.
Qed.


Lemma update_state_cleared pid st m w p0 :
  stored repository pid w = Some p0 ->
  let updates := Some [("reason", VNone); ("metadata", VDict m)] in
  update_state rt repository pid st updates w
  = (Ok (with_reason None (replace_metadata (stamped st (now_iso rt (clock w)) p0) m)),
     after_update_state rt repository pid st updates w)
  /\ stored repository pid (after_update_state rt repository pid st updates w)
     = Some (with_reason None (replace_metadata (stamped st (now_iso rt (clock w)) p0) m)).
Proof.
  intros Hst updates.
  apply (update_state_stored pid st updates w p0
           (fun now p => with_reason None (replace_metadata (stamped st now p) m))); auto.
  intros. now apply to_record_cleared.
Qed.

Lemma increment_attempts_stored pid current w p0 :
  stored repository pid w = Some p0 ->
  increment_attempts rt repository pid (Some current) w
  = (Ok (charged (current + 1) (now_iso rt (clock w)) p0),
     after_increment rt pid (current + 1) w)
  /\ stored repository pid (after_increment rt pid (current + 1) w)
     = Some (charged (current + 1) (now_iso rt (clock w)) p0).
Proof.
  intros Hst. destruct (stored_inv _ _ _ Hst) as (row & Hf & Hr & Hp).
  pose proof (to_record_charged repository Hconf row p0 (current + 1)
                (now_iso rt (clock w)) Hr) as Hc.
  split.
  - apply increment_attempts_spec with (row := row); auto.
  - eapply stored_after_rows; eauto.
Qed.

End StoredFacts.

(** ** C6 *)






(** The title of a record is stripped as [str.strip] does it: a blocked URL
    behind a no-break space is found, and the record is failed as blocked. *)
Example blocked_host_behind_a_no_break_space :
  let title_ := behind_no_break_space "url:https://hdl.handle.net/x" in
  let paper := example_paper "a" title_ PDF_NOT_AVAILABLE 2 1 in
  _blocked_source_url example_runtime paper = Ok (Some "https://hdl.handle.net/x")
  /\ exists o w',
       fetch_pdf example_runtime paper default_repository keeping_storage finding_fetcher
         (example_world [example_row "a" title_ "PDF Not Available" 2 1]) = (Ok o, w')
       /\ message o = "blocked source host"
       /\ journal w' = [CallUpdateState "a" FAILED].
Proof.
  intros title_ paper. split; [reflexivity|].
  do 2 eexists. split; [vm_compute; reflexivity|]. split; reflexivity.
Qed.

(** ** C2 *)

(** A score strictly below the threshold is not [>=] it. *)
Lemma ltb_not_leb (a b : float) :
  PrimFloat.ltb a b = true -> PrimFloat.leb b a = false.
Proof.
  rewrite ltb_spec, leb_spec. unfold SFltb, SFleb.
  destruct (Prim2SF a) as [s1|s1| |s1 m1 e1], (Prim2SF b) as [s2|s2| |s2 m2 e2];
    simpl; try discriminate; try (destruct s1; discriminate);
    try (destruct s2; discriminate);
    try (destruct s1, s2; simpl; congruence).
  destruct s1, s2; simpl; try (intros; congruence);
    rewrite (Z.compare_antisym e1 e2);
    destruct (e1 ?= e2)%Z; simpl; try (intros; congruence);
    fold (Pos.compare m1 m2); fold (Pos.compare m2 m1);
    rewrite (Pos.compare_antisym m1 m2);
    destruct (m1 ?= m2)%positive; simpl; intros; congruence.
Qed.

(** C2.  With a text reference, [score_text] succeeds and the stored record
    becomes [Scored] exactly when [score >= threshold] and
    [ProcessedLowScore] otherwise, in particular when the score is strictly
    below the threshold; without a text reference the stored record becomes
    [Failed] and the outcome is a failure. *)
Theorem score_text_threshold_inclusive :
  forall (rt : Runtime) (paper : PaperRecord) (repository : PaperRepository)
         (storage : StorageGateway) (scorer : ScoringModel) (threshold : float)
         (w : world) (p0 : PaperRecord),
    configured repository ->
    stored repository (id paper) w = Some p0 ->
    (forall ref text_ res,
        text_ref paper = Some ref ->
        fetch_text rt storage ref = Ok text_ ->
        score_of scorer text_ (seed_number paper) = Ok res ->
        exists o w' p',
          score_text rt paper repository storage scorer threshold w = (Ok o, w')
          /\ success o = true
          /\ stored repository (id paper) w' = Some p'
          /\ score p' = Some (sr_score res)
          /\ (state p' = SCORED <-> PrimFloat.leb threshold (sr_score res) = true)
          /\ (state p' = PROCESSED_LOW_SCORE
              <-> PrimFloat.leb threshold (sr_score res) = false)
          /\ (PrimFloat.ltb (sr_score res) threshold = true ->
              state p' = PROCESSED_LOW_SCORE))
    /\ (text_ref paper = None ->
        exists o w' p',
          score_text rt paper repository storage scorer threshold w = (Ok o, w')
          /\ success o = false
          /\ stored repository (id paper) w' = Some p'
          /\ state p' = FAILED).
Proof.
  intros rt paper repository storage scorer threshold w p0 Hconf Hst. split.
  - intros ref text_ res Href Htext Hscore.
    unfold score_text, bind, lift, ret. rewrite Href, Htext, Hscore.
    set (st := if PrimFloat.leb threshold (sr_score res)
               then SCORED else PROCESSED_LOW_SCORE).
    destruct (register_score_stored rt repository Hconf (id paper) (sr_score res)
                (sr_reason res) (sr_model_name res) (sr_duration_ms res) st w p0 Hst)
      as [Hrun Hstored].
    rewrite Hrun. do 3 eexists. split; [reflexivity|]. split; [reflexivity|].
    split; [exact Hstored|]. split; [reflexivity|]. cbn [state with_score with_reason stamped].
    subst st. repeat split.
    + destruct (PrimFloat.leb threshold (sr_score res)); [reflexivity|discriminate].
    + intros ->. reflexivity.
    + destruct (PrimFloat.leb threshold (sr_score res)); [discriminate|reflexivity].
    + intros ->. reflexivity.
    + intros Hlt. now rewrite (ltb_not_leb _ _ Hlt).
  - intros Href. unfold score_text, bind, ret. rewrite Href.
    destruct (update_state_reason rt repository Hconf (id paper) FAILED
                "Paper missing text reference" w p0 Hst) as [Hrun Hstored].
    rewrite Hrun. do 3 eexists. repeat split; [exact Hstored|reflexivity].
Qed.

(** C2 at the boundary: threshold 7.0 and a score of exactly 7.0. *)
Lemma score_text_threshold_inclusive_witness :
  let paper :=
    {| id := "a"; title := "T"; state := TEXT_AVAILABLE; level := 1; attempts := 1;
       pdf_ref := Some (mk_ref "storage://pdfs/a");
       text_ref := Some (mk_ref "storage://texts/a");
       score := None; reason := None; pdf_md5 := None; parent_id := None;
       seed_number := None; metadata := []; created_at := Some "t";
       updated_at := None |} in
  let w := example_world
             [set "text_uri" (VStr "storage://texts/a")
                (example_row "a" "T" "Text Available" 1 1)] in
  let storage := mk_storage (fun _ _ _ => Ok (mk_ref "s")) (fun _ => Ok "text") in
  let scorer := mk_scorer (fun _ _ => Ok (mk_score 7.0%float "relevant" "fake" 50)) in
  exists o w' p',
    score_text example_runtime paper default_repository storage scorer 7.0%float w
    = (Ok o, w')
    /\ success o = true
    /\ stored default_repository "a" w' = Some p'
    /\ state p' = SCORED.
Proof.
  intros paper w storage scorer.
  destruct (score_text_threshold_inclusive example_runtime paper default_repository
              storage scorer 7.0%float w paper) as [Hscored _].
  - left; reflexivity.
  - reflexivity.
  - destruct (Hscored (mk_ref "storage://texts/a") "text"
                (mk_score 7.0%float "relevant" "fake" 50))
      as (o & w' & p' & Hrun & Hok & Hst & _ & Hiff & _); try reflexivity.
    exists o, w', p'. repeat split; auto.
    apply Hiff. reflexivity.
Defined.

(** A score of 6.999 (the binary64 value [0x1.bfef9db22d0e5p+2]) under the
    threshold 7.0 ends in [ProcessedLowScore]. *)
Example score_text_just_below :
  let w := example_world
             [set "text_uri" (VStr "storage://texts/a")
                (example_row "a" "T" "Text Available" 1 1)] in
  let paper := match stored default_repository "a" w with
               | Some p => p
               | None => example_paper "a" "T" TEXT_AVAILABLE 1 1
               end in
  let storage := mk_storage (fun _ _ _ => Ok (mk_ref "s")) (fun _ => Ok "text") in
  let scorer := mk_scorer (fun _ _ => Ok (mk_score 0x1.bfef9db22d0e5p+2%float "weak" "fake" 50)) in
  let run := score_text example_runtime paper default_repository storage scorer
               7.0%float w in
  match fst run with Ok o => success o | Raise _ => false end = true
  /\ match stored default_repository "a" (snd run) with
     | Some p' => state p'
     | None => FAILED
     end = PROCESSED_LOW_SCORE.
Proof. vm_compute. split; reflexivity. Qed.

(** ** C8 *)

Lemma setdefault_mem k v o : mem k (out_metadata (setdefault k v o)) = true.
Proof.
  unfold setdefault. cbn [out_metadata].
  destruct (mem k (out_metadata o)) eqn:E; auto.
  unfold mem. now rewrite get_set_same.
Qed.

(** A record in a state that no stage acts on, run without a stage, gets the
    "noop" outcome, whose metadata is empty: it carries no [duration_ms]. *)
Lemma run_noop_has_no_duration :
  let services :=
    mk_services default_repository
      (mk_storage (fun _ _ _ => Ok (mk_ref "s")) (fun _ => Ok ""))
      (mk_text_extractor (fun _ => Raise (mk_exn ExtractionError "unreadable")))
      (mk_scorer (fun _ _ => Ok (mk_score 9.0%float "relevant" "fake" 50)))
      (mk_citation_extractor (fun _ => Ok []))
      (mk_fetcher (fun _ => Ok None)) 7.0%float in
  let paper := example_paper "a" "T" PROCESSED 1 0 in
  let w := example_world [example_row "a" "T" "Processed" 1 0] in
  ~ (exists o w',
        run example_runtime services paper None w = (Ok o, w')
        /\ mem "duration_ms" (out_metadata o) = true).
Proof.
  intros services paper w (o & w' & Hrun & Hmem).
  vm_compute in Hrun. injection Hrun as <- _. discriminate Hmem.
Qed.

(** C8, as the code has it.  When a stage is resolved (given, or inferred from
    the state) and it is one of the four stages the processor executes, and
    the record is stored, [run] returns an outcome whose metadata has
    [duration_ms]; an exception of the stage function never propagates: it
    becomes the failure outcome "unexpected error" with [str(exc)] under
    [error].  When no stage is resolved, [run] returns the "noop" failure
    outcome with empty metadata and leaves the store as it is. *)
Theorem run_times_and_wraps_stage :
  forall (rt : Runtime) (services : PipelineServices) (paper : PaperRecord)
         (stage_ : option StageName) (w : world),
    let resolved := match stage_ with
                    | Some s => Some s
                    | None => stage_for_state (state paper)
                    end in
    (forall target p0 executor,
        resolved = Some target ->
        _executors rt services target = Ok executor ->
        configured (repository_ services) ->
        stored (repository_ services) (id paper) w = Some p0 ->
        exists o w',
          run rt services paper stage_ w = (Ok o, w')
          /\ mem "duration_ms" (out_metadata o) = true
          /\ forall exc w1,
               executor (charged (attempts paper + 1) (now_iso rt (clock w)) p0)
                 (after_increment rt (id paper) (attempts paper + 1) w)
               = (Raise exc, w1) ->
               success o = false
               /\ message o = "unexpected error"
               /\ stage o = stage_name target
               /\ get "error" (out_metadata o) = Some (VStr (exn_str exc)))
    /\ (resolved = None ->
        run rt services paper stage_ w
        = (Ok (mk_outcome (id paper) "noop" false
                 ("No actionable stage for " ++ state_value (state paper)) []), w)).
Proof.
  intros rt services paper stage_ w resolved. split.
  - intros target p0 executor Hres Hexec Hconf Hst.
    unfold run. fold resolved. rewrite Hres.
    unfold bind, mark_processing_attempt, lift, try_except, measure_ms, ret.
    destruct (increment_attempts_stored rt (repository_ services) Hconf (id paper)
                (attempts paper) w p0 Hst) as [Hrun _].
    rewrite Hrun, Hexec.
    destruct (executor _ _) as [[o1|exc] w1] eqn:Hstage.
    + do 2 eexists. split; [reflexivity|]. split; [apply setdefault_mem|].
      intros exc w2 H. discriminate H.
    + do 2 eexists. split; [reflexivity|]. split; [apply setdefault_mem|].
      intros exc' w2 H. injection H as <- <-. repeat split.
  - intros Hres. unfold run. fold resolved. rewrite Hres. reflexivity.
Qed.

(** C8 at a scoring run whose storage is down: the [StorageError] of
    [fetch_blob] becomes the outcome. *)
Lemma run_times_and_wraps_stage_witness :
  exists o w',
    run example_runtime (example_services storage_down) (text_paper "a") None
      (example_world [text_row "a"]) = (Ok o, w')
    /\ mem "duration_ms" (out_metadata o) = true
    /\ success o = false
    /\ get "error" (out_metadata o) = Some (VStr "storage down").
Proof.
  destruct (run_times_and_wraps_stage example_runtime (example_services storage_down)
              (text_paper "a") None (example_world [text_row "a"])) as [H _].
  destruct (H scoring (text_paper "a")
              (_scoring_stage example_runtime (example_services storage_down))
              eq_refl eq_refl (or_introl eq_refl) eq_refl)
    as (o & w' & Hrun & Hmem & Hexc).
  exists o, w'. split; [exact Hrun|]. split; [exact Hmem|].
  destruct (Hexc (mk_exn StorageError "storage down")
              (after_increment example_runtime "a" 1 (example_world [text_row "a"]))
              eq_refl) as (Hs & _ & _ & He).
  split; assumption.
Defined.

(** ** The worker pool *)

Section PoolFacts.
Variable stage_ : string.
Variable task : PaperRecord -> M StageOutcome.
Hypothesis Htask : respects task.

Lemma run_in_order_spec papers_ w r w' :
  run_in_order stage_ task papers_ w = (r, w') ->
  match r with
  | Ok outs => map paper_id outs = map id papers_
  | Raise e => exists paper w0 w1, In paper papers_ /\ task paper w0 = (Raise e, w1)
  end.
Proof.
  revert w r w'. induction papers_ as [|paper rest IH]; intros w r w'; simpl.
  - unfold ret. intros H. injection H as <- _. reflexivity.
  - unfold bind, record_call, ret.
    destruct (task paper w) as [[o|e] w1] eqn:Ht.
    + destruct (run_in_order stage_ task rest _) as [[outs|e] w2] eqn:Hrest;
        intros H; injection H as <- _; apply IH in Hrest.
      * simpl. f_equal; eauto.
      * destruct Hrest as (q & w0 & w3 & Hin & Hq). exists q, w0, w3. auto.
    + intros H. injection H as <- _. exists paper, w, w1. auto.
Qed.

Lemma run_pool_spec papers_ schedule w :
  exists futures w',
    run_pool task papers_ schedule w = (Ok futures, w')
    /\ map fst futures = filter (fun i => (i <? length papers_)%nat) schedule
    /\ Forall (future_of task papers_) futures.
Proof.
  revert w. induction schedule as [|idx rest IH]; intros w; simpl.
  - do 2 eexists. unfold ret. repeat split. constructor.
  - destruct (nth_error papers_ idx) as [paper|] eqn:Hn.
    + assert (idx < length papers_)%nat as Hlt
          by (apply nth_error_Some; congruence).
      apply Nat.ltb_lt in Hlt. rewrite Hlt.
      destruct (task paper w) as [r w1] eqn:Ht.
      destruct (IH w1) as (futures & w' & Hrun & Hmap & Hall).
      rewrite Hrun. do 2 eexists. split; [reflexivity|]. split.
      * simpl. now rewrite Hmap.
      * constructor; auto. exists paper, w. simpl. now rewrite Ht.
    + assert ((idx <? length papers_)%nat = false) as ->.
      { apply Nat.ltb_ge. now apply nth_error_None. }
      apply IH.
Qed.

Lemma store_at_length {A} idx (a : A) slots :
  length (store_at idx a slots) = length slots.
Proof.
  revert idx. induction slots as [|x t IH]; intros [|i]; simpl; auto.
Qed.

Lemma store_at_same {A} idx (a : A) slots :
  (idx < length slots)%nat -> nth_error (store_at idx a slots) idx = Some (Some a).
Proof.
  revert idx. induction slots as [|x t IH]; intros [|i]; simpl; try lia; auto.
  intros H. apply IH. lia.
Qed.

Lemma store_at_other {A} idx i (a : A) slots :
  i <> idx -> nth_error (store_at idx a slots) i = nth_error slots i.
Proof.
  revert idx i. induction slots as [|x t IH]; intros [|idx] [|i]; simpl; auto;
    try congruence.
Qed.

Lemma agree_store papers_ slots idx paper o :
  agree papers_ slots ->
  nth_error papers_ idx = Some paper ->
  paper_id o = id paper ->
  agree papers_ (store_at idx o slots).
Proof.
  unfold agree. intros H. revert idx.
  induction H as [|q s ps ss Hqs Hrest IH]; intros [|idx]; simpl; try discriminate.
  - intros Hq Ho. injection Hq as ->. constructor; auto.
  - intros Hq Ho. constructor; eauto.
Qed.

Lemma collect_spec papers_ futures slots w r w' :
  Forall (future_of task papers_) futures ->
  agree papers_ slots ->
  collect_as_completed stage_ papers_ futures slots w = (r, w') ->
  match r with
  | Ok slots' =>
      agree papers_ slots'
      /\ length slots' = length slots
      /\ forall i, (i < length slots)%nat ->
                   filled slots i \/ In i (map fst futures) -> filled slots' i
  | Raise e => exists paper w0 w1, In paper papers_ /\ task paper w0 = (Raise e, w1)
  end.
Proof.
  intros Hfut. revert slots w r w'.
  induction Hfut as [|[idx res] rest Hf _ IH]; intros slots w r w' Hagree; simpl.
  - unfold ret. intros H. injection H as <- _. repeat split; auto.
    intros i _ [Hi|[]]. exact Hi.
  - destruct Hf as (paper & w0 & Hn & Hres). simpl in Hn, Hres.
    unfold bind, lift, record_call.
    destruct res as [o|e].
    + assert (paper_id o = id paper) as Ho.
      { destruct (task paper w0) as [r0 w1] eqn:Ht. simpl in Hres. subst r0.
        eapply Htask; eauto. }
      intros Hrun. apply IH in Hrun; [|eapply agree_store; eauto].
      destruct r as [slots'|e]; auto.
      destruct Hrun as (Hag & Hlen & Hfill). rewrite store_at_length in Hlen, Hfill.
      repeat split; auto.
      intros i Hi Hor. apply Hfill; auto.
      destruct (Nat.eq_dec i idx) as [->|Hne].
      * left. eexists. apply store_at_same. exact Hi.
      * destruct Hor as [(o' & Ho')|[Heq|Hin]]; auto.
        -- left. exists o'. now rewrite store_at_other.
        -- simpl in Heq. congruence.
    + intros H. injection H as <- _.
      exists paper, w0, (snd (task paper w0)).
      split; [eapply nth_error_In; eauto|].
      destruct (task paper w0) as [r0 w1]. simpl in *. now subst.
Qed.

Lemma present_agree papers_ slots :
  agree papers_ slots ->
  (forall i, (i < length slots)%nat -> filled slots i) ->
  map paper_id (present slots) = map id papers_.
Proof.
  unfold agree. induction 1 as [|paper slot ps ss Hps _ IH]; intros Hfill; auto.
  destruct (Hfill 0%nat) as (o & Ho); [simpl; lia|].
  simpl in Ho. injection Ho as ->. simpl. f_equal; auto.
  apply IH. intros i Hi. destruct (Hfill (S i)) as (o' & Ho'); [simpl; lia|].
  exists o'. exact Ho'.
Qed.

Lemma agree_none papers_ : agree papers_ (repeat None (length papers_)).
Proof. induction papers_; simpl; constructor; auto. Qed.

(** The outcomes of a batch follow the papers, whatever the order in which
    the workers finish; the batch raises only what a worker raised. *)
Lemma run_batch_spec papers_ max_workers schedule w r w' :
  Permutation schedule (seq 0 (length papers_)) ->
  run_batch stage_ task papers_ max_workers schedule w = (r, w') ->
  match r with
  | Ok outs => map paper_id outs = map id papers_
  | Raise e => exists paper w0 w1, In paper papers_ /\ task paper w0 = (Raise e, w1)
  end.
Proof.
  intros Hperm. unfold run_batch.
  destruct papers_ as [|p0 ps] eqn:Hp.
  - unfold ret. intros H. injection H as <- _. reflexivity.
  - rewrite <- Hp in *. clear Hp.
    destruct ((max_workers <=? 1)%Z || (length papers_ =? 1)%nat).
    + apply run_in_order_spec.
    + unfold bind.
      destruct (run_pool_spec papers_ schedule w) as (futures & w1 & Hpool & Hmap & Hfut).
      rewrite Hpool.
      destruct (collect_as_completed _ _ _ _ _) as [[slots'|e] w2] eqn:Hcol;
        intros H; injection H as <- _;
        apply collect_spec in Hcol; auto using agree_none.
      destruct Hcol as (Hag & Hlen & Hfill). rewrite repeat_length in Hlen, Hfill.
      apply present_agree; auto.
      intros i Hi. rewrite Hlen in Hi. apply Hfill; auto. right.
      rewrite Hmap. apply filter_In. split.
      * eapply Permutation_in; [symmetry; exact Hperm|]. apply in_seq. lia.
      * now apply Nat.ltb_lt.
Qed.

End PoolFacts.

(** ** C9 *)

Lemma increment_attempts_id rt repository pid current w p' w' :
  increment_attempts rt repository pid (Some current) w = (Ok p', w') ->
  id p' = pid.
Proof.
  rewrite increment_attempts_run.
  destruct (filter (col_is_str "id" pid) (papers w)) as [|row rest] eqn:Hf;
    cbn [map _single rbind]; intros H; injection H as H _; try discriminate.
  assert (In row (filter (col_is_str "id" pid) (papers w))) as Hin
      by (rewrite Hf; now left).
  apply filter_In in Hin. destruct Hin as [_ Hhit].
  apply to_record_id in H. rewrite ?get_update, ?get_set in H. simpl in H.
  unfold col_is_str in Hhit. rewrite H in Hhit.
  apply String.eqb_eq in Hhit. exact Hhit.
Qed.

Ltac step_outcome H :=
  repeat (match type of H with
          | context [match ?x with _ => _ end] => destruct x eqn:?
          | context [if ?x then _ else _] => destruct x eqn:?
          end; cbv beta iota in H);
  try discriminate H;
  try (injection H as <- _; reflexivity).

Lemma extract_text_paper_id rt paper repository extractor store_links w o w' :
  extract_text rt paper repository extractor store_links w = (Ok o, w') ->
  paper_id o = id paper.
Proof.
  unfold extract_text, bind, ret, raise. intros H. step_outcome H.
Qed.

Lemma score_text_paper_id rt paper repository storage scorer threshold w o w' :
  score_text rt paper repository storage scorer threshold w = (Ok o, w') ->
  paper_id o = id paper.
Proof.
  unfold score_text, bind, ret, lift. intros H. step_outcome H.
Qed.

Lemma text_task_respects rt repository extractor :
  respects (text_task rt repository extractor).
Proof.
  intros paper w o w'. unfold text_task, bind, mark_processing_attempt.
  destruct (increment_attempts _ _ _ _ _) as [[p'|e] w1] eqn:Hinc; try discriminate.
  intros H. apply extract_text_paper_id in H.
  apply increment_attempts_id in Hinc. congruence.
Qed.

Lemma scoring_task_respects rt repository storage scorer threshold :
  respects (scoring_task rt repository storage scorer threshold).
Proof.
  intros paper w o w'. unfold scoring_task, bind, mark_processing_attempt.
  destruct (increment_attempts _ _ _ _ _) as [[p'|e] w1] eqn:Hinc; try discriminate.
  intros H. apply score_text_paper_id in H.
  apply increment_attempts_id in Hinc. congruence.
Qed.

(** With two candidates [a], [b] and two workers, the batch returns the
    outcome of [a] before the outcome of [b] also when [b] finishes first
    (the completion callbacks do fire for [b] first); no completion order
    gives another order of outcomes. *)
Lemma parallel_outcomes_keep_submission_order :
  (exists outs w',
      process_text_extraction_batch example_runtime 10 default_repository
        example_text_extractor 1 None 2 [1; 0]%nat two_pdfs = (Ok outs, w')
      /\ map paper_id outs = ["a"; "b"]
      /\ filter (fun c => match c with CallCompletion _ _ => true | _ => false end)
           (journal w')
         = [CallCompletion "text_extraction" "b"; CallCompletion "text_extraction" "a"])
  /\ ~ (exists schedule outs w',
           Permutation schedule [0; 1]%nat
           /\ process_text_extraction_batch example_runtime 10 default_repository
                example_text_extractor 1 None 2 schedule two_pdfs = (Ok outs, w')
           /\ map paper_id outs <> ["a"; "b"]).
Proof.
  split.
  - do 2 eexists. split; [vm_compute; reflexivity|]. split; reflexivity.
  - intros (schedule & outs & w' & Hperm & Hrun & Hne).
    apply Permutation_sym, Permutation_length_2_inv in Hperm.
    destruct Hperm as [-> | ->]; vm_compute in Hrun; injection Hrun as <- _;
      apply Hne; reflexivity.
Qed.

(** C9, as the code has it.  A runner with more than one worker and more than
    one candidate stores each result at the index of its submission, so for
    every completion order of the pool the outcomes it returns follow the
    candidates: the i-th outcome belongs to the i-th candidate.  The batch
    raises only an exception that one of its workers raised. *)
Theorem parallel_batch_outcomes_follow_candidates :
  forall (rt : Runtime) (repository : PaperRepository) (extractor : TextExtractor)
         (storage : StorageGateway) (scorer : ScoringModel) (threshold : float)
         (batch_size level_ : Z) (seed_number_ : option Z) (max_workers : Z)
         (schedule : list nat) (w w0 : world) (fetched : list PaperRecord),
    (1 < max_workers)%Z ->
    (1 < length (filter_processable fetched))%nat ->
    Permutation schedule (seq 0 (length (filter_processable fetched))) ->
    (fetch_by_state_at_level repository PDF_AVAILABLE level_ batch_size seed_number_ w
     = (Ok fetched, w0) ->
     forall r w',
       process_text_extraction_batch rt batch_size repository extractor level_
         seed_number_ max_workers schedule w = (r, w') ->
       match r with
       | Ok outs => map paper_id outs = map id (filter_processable fetched)
       | Raise e =>
           exists paper w1 w2,
             In paper (filter_processable fetched)
             /\ text_task rt repository extractor paper w1 = (Raise e, w2)
       end)
    /\ (fetch_by_state_at_level repository TEXT_AVAILABLE level_ batch_size seed_number_ w
        = (Ok fetched, w0) ->
        forall r w',
          process_scoring_batch rt batch_size repository storage scorer threshold level_
            seed_number_ max_workers schedule w = (r, w') ->
          match r with
          | Ok outs => map paper_id outs = map id (filter_processable fetched)
          | Raise e =>
              exists paper w1 w2,
                In paper (filter_processable fetched)
                /\ scoring_task rt repository storage scorer threshold paper w1
                   = (Raise e, w2)
          end).
Proof.
  intros rt repository extractor storage scorer threshold batch_size level_
    seed_number_ max_workers schedule w w0 fetched _ _ Hperm.
  split; intros Hfetch r w' Hrun.
  - unfold process_text_extraction_batch, bind in Hrun. rewrite Hfetch in Hrun.
    apply (run_batch_spec "text_extraction" (text_task rt repository extractor)
             (text_task_respects rt repository extractor) _ _ _ _ _ _ Hperm Hrun).
  - unfold process_scoring_batch, bind in Hrun. rewrite Hfetch in Hrun.
    apply (run_batch_spec "scoring" (scoring_task rt repository storage scorer threshold)
             (scoring_task_respects rt repository storage scorer threshold)
             _ _ _ _ _ _ Hperm Hrun).
Qed.

(** C9 at two PDFs and two workers, with [b] finishing before [a]. *)
Lemma parallel_batch_outcomes_follow_candidates_witness :
  exists outs w',
    process_text_extraction_batch example_runtime 10 default_repository
      example_text_extractor 1 None 2 [1; 0]%nat two_pdfs = (Ok outs, w')
    /\ map paper_id outs = ["a"; "b"].
Proof.
  destruct (process_text_extraction_batch example_runtime 10 default_repository
              example_text_extractor 1 None 2 [1; 0]%nat two_pdfs) as [r w'] eqn:Hrun.
  pose proof (parallel_batch_outcomes_follow_candidates example_runtime
                default_repository example_text_extractor storage_down
                (mk_scorer (fun _ _ => Raise (mk_exn RuntimeError "unused")))
                7.0%float 10 1 None 2 [1; 0]%nat two_pdfs
                (snd (fetch_by_state_at_level default_repository PDF_AVAILABLE 1 10 None
                        two_pdfs))
                (match fst (fetch_by_state_at_level default_repository PDF_AVAILABLE
                                   1 10 None two_pdfs) with
                 | Ok l => l
                 | Raise _ => []
                 end)) as H.
  destruct H as [H _].
  - reflexivity.
  - simpl. lia.
  - simpl. apply perm_swap.
  - specialize (H eq_refl r w' Hrun).
    vm_compute in Hrun. injection Hrun as <- <-.
    do 2 eexists. split; [reflexivity|exact H].
Defined.

(** ** C3 *)

(** Every error that [_map_postgrest_error] makes is a [RepositoryError]. *)
Lemma mapped_error_is_repository_error e :
  is_RepositoryError (_map_postgrest_error e) = true.
Proof.
  unfold _map_postgrest_error.
  destruct (_is_topic_unique_error e); [reflexivity|].
  destruct (_is_title_unique_error e); [reflexivity|].
  destruct (nonempty (api_message e)); [reflexivity|].
  destruct (nonempty (api_details e)); reflexivity.
Qed.

(** An insert through [_execute] either stores the row, once, or raises a
    [RepositoryError] and leaves the store as it was. *)
Lemma execute_insert_cases rt payload :
  forall retries attempts w r w',
    _execute_from retries attempts (insert_builder rt payload) w = (r, w') ->
    (r = Ok [set "created_at" (VStr (now_iso rt (clock w))) payload]
     /\ w' = with_clock (S (clock w))
               (with_papers
                  (papers w ++ [set "created_at" (VStr (now_iso rt (clock w))) payload]) w))
    \/ (exists e, r = Raise e /\ is_RepositoryError e = true /\ w' = w).
Proof.
  induction retries as [|n IH]; intros attempts w r w';
    cbn [_execute_from]; unfold insert_builder at 1;
    destruct (insert_verdict rt (papers w) payload attempts) as [|e|cls msg];
    try (intros H; injection H as <- <-; auto; right; eexists; repeat split;
         apply mapped_error_is_repository_error).
  destruct (_is_transient_transport_error cls msg).
  - apply IH.
  - intros H; injection H as <- <-. right. eexists. repeat split.
Qed.













Lemma stored_app repository pid w w' new p :
  stored repository pid w = Some p ->
  papers w' = papers w ++ new ->
  stored repository pid w' = Some p.
Proof.
  unfold stored, find_row. intros H Hp. rewrite Hp.
  destruct (find (col_is_str "id" pid) (papers w)) as [row|] eqn:Hf; try discriminate.
  assert (find (col_is_str "id" pid) (papers w ++ new) = Some row) as ->; auto.
  clear H Hp. induction (papers w) as [|a t IH]; simpl in *; try discriminate.
  destruct (col_is_str "id" pid a); auto.
Qed.







(** The citations [First Ref] and [Second Ref] give two placeholders at
    level 2 and a count of 2; adding [first ref] changes nothing. *)
Example two_references_two_placeholders :
  let run cs := extract_citations example_runtime (scored_paper "a") default_repository
                  text_storage (citing cs) 7.0%float (example_world [scored_row "a"]) in
  let count r := match fst r with
                 | Ok o => get "count" (out_metadata o)
                 | Raise _ => None
                 end in
  count (run ["First Ref"; "Second Ref"]) = Some (VInt 2)
  /\ count (run ["First Ref"; "first ref"; "Second Ref"]) = Some (VInt 2)
  /\ map row_title (papers (snd (run ["First Ref"; "Second Ref"])))
     = ["T"; "First Ref"; "Second Ref"]
  /\ map (get "level") (papers (snd (run ["First Ref"; "Second Ref"])))
     = [Some (VInt 1); Some (VInt 2); Some (VInt 2)]
  /\ match stored default_repository "a" (snd (run ["First Ref"; "Second Ref"])) with
     | Some p => get "citation_count" (metadata p)
     | None => None
     end = Some (VInt 2).
Proof. vm_compute. repeat split; reflexivity. Qed.

(** Titles that differ only by letters that [casefold] makes alike share one
    placeholder: an accented capital and its small letter, the sharp s and
    [ss]. *)
Example titles_folded_alike_give_one_placeholder :
  let e_acute := String (ascii_of_nat 201) "cole" in
  let e_small := String (ascii_of_nat 233) "cole" in
  let sharp_s := ("Stra" ++ String (ascii_of_nat 223) "e")%string in
  let count cs := match fst (extract_citations example_runtime (scored_paper "a")
                               default_repository text_storage (citing cs) 7.0%float
                               (example_world [scored_row "a"])) with
                  | Ok o => get "count" (out_metadata o)
                  | Raise _ => None
                  end in
  casefold e_acute = casefold e_small
  /\ casefold sharp_s = casefold "STRASSE"
  /\ count [e_acute; e_small] = Some (VInt 1)
  /\ count [sharp_s; "STRASSE"] = Some (VInt 1).
Proof. vm_compute. repeat split; reflexivity. Qed.

(** ** Tables under updates by id *)

Section PatchFacts.
Variable repository : PaperRepository.
Variable f : dict -> dict.
Variable pid : string.
Hypothesis Hid : forall row, get "id" (f row) = get "id" row.

Lemma hit_patched s row : col_is_str "id" s (f row) = col_is_str "id" s row.
Proof. unfold col_is_str. now rewrite Hid. Qed.

Lemma existsb_patch s t :
  existsb (col_is_str "id" s) (patch_rows f pid t) = existsb (col_is_str "id" s) t.
Proof.
  induction t as [|row t IH]; simpl; auto.
  rewrite IH. f_equal.
  destruct (col_is_str "id" pid row); auto using hit_patched.
Qed.

Lemma unique_patch t : unique_ids (patch_rows f pid t) = unique_ids t.
Proof.
  induction t as [|row t IH]; auto.
  cbn [patch_rows map unique_ids]. fold (patch_rows f pid t).
  destruct (col_is_str "id" pid row); rewrite ?Hid;
    destruct (get "id" row) as [[| | | |s|]|]; auto;
    now rewrite existsb_patch, IH.
Qed.

Lemma find_patch t row :
  find (col_is_str "id" pid) t = Some row ->
  find (col_is_str "id" pid) (patch_rows f pid t) = Some (f row).
Proof.
  induction t as [|a t IH]; simpl; try discriminate.
  destruct (col_is_str "id" pid a) eqn:E.
  - intros H. injection H as ->. now rewrite hit_patched, E.
  - rewrite E. auto.
Qed.

(** After a settling update the [P1] rows are the old ones without the rows
    of that id. *)
Lemma p1_after_settling t :
  (forall row, p1_row repository (f row) = false) ->
  filter (p1_row repository) (patch_rows f pid t)
  = filter (fun row => negb (col_is_str "id" pid row)) (filter (p1_row repository) t).
Proof.
  intros Hp. induction t as [|row t IH]; simpl; auto.
  fold (patch_rows f pid t). rewrite IH.
  destruct (col_is_str "id" pid row) eqn:E.
  - rewrite Hp. destruct (p1_row repository row); simpl; auto. now rewrite E.
  - destruct (p1_row repository row); simpl; auto. now rewrite E.
Qed.

(** After an update that keeps the state of rows that are not [P1], the [P1]
    rows are the old ones. *)
Lemma p1_after_keeping t :
  (forall row, p1_row repository (f row) = p1_row repository row) ->
  (forall row, In row t -> col_is_str "id" pid row = true ->
               p1_row repository row = false) ->
  filter (p1_row repository) (patch_rows f pid t) = filter (p1_row repository) t.
Proof.
  intros Hp Hno. induction t as [|row t IH]; simpl; auto.
  fold (patch_rows f pid t). rewrite IH by (intros; apply Hno; simpl; auto).
  destruct (col_is_str "id" pid row) eqn:E; auto.
  rewrite Hp, (Hno row) by (simpl; auto). reflexivity.
Qed.

End PatchFacts.

Lemma no_p1_hit_after repository pid t :
  forall row,
    In row (filter (fun r => negb (col_is_str "id" pid r)) (filter (p1_row repository) t)) ->
    col_is_str "id" pid row = false.
Proof.
  intros row Hin. apply filter_In in Hin. destruct Hin as [_ H].
  now apply negb_true_iff in H.
Qed.

Lemma filter_none {A} (g : A -> bool) l :
  (forall x, In x l -> g x = false) -> filter g l = [].
Proof.
  induction l as [|a l IH]; simpl; auto.
  intros H. rewrite (H a) by auto. auto.
Qed.

Lemma unique_filter_hit t :
  unique_ids t = true ->
  forall row pid, In row t -> col_is_str "id" pid row = true ->
                  filter (col_is_str "id" pid) t = [row].
Proof.
  induction t as [|a t IH]; simpl; intros Hu row pid Hin Hhit; [destruct Hin|].
  destruct (get "id" a) as [[| | | |s|]|] eqn:Ea; try discriminate.
  apply andb_true_iff in Hu. destruct Hu as [Hnot Hu].
  apply negb_true_iff in Hnot.
  assert (forall x, In x t -> col_is_str "id" s x = false) as Hfree.
  { intros x Hx. destruct (col_is_str "id" s x) eqn:E; auto.
    assert (existsb (col_is_str "id" s) t = true) as Hex
        by (apply existsb_exists; eauto).
    congruence. }
  destruct Hin as [->|Hin].
  - rewrite Hhit. f_equal.
    unfold col_is_str in Hhit. rewrite Ea in Hhit. apply String.eqb_eq in Hhit. subst s.
    now apply filter_none.
  - assert (col_is_str "id" pid a = false) as ->.
    { unfold col_is_str. rewrite Ea.
      destruct (String.eqb s pid) eqn:E; auto.
      apply String.eqb_eq in E. subst s. rewrite (Hfree row Hin) in Hhit. discriminate. }
    now apply IH.
Qed.

Lemma unique_find t row pid :
  unique_ids t = true -> In row t -> col_is_str "id" pid row = true ->
  find (col_is_str "id" pid) t = Some row.
Proof.
  intros Hu Hin Hhit.
  pose proof (unique_filter_hit t Hu row pid Hin Hhit) as Hf.
  clear Hu Hin. induction t as [|a t IH]; simpl in *; try discriminate.
  destruct (col_is_str "id" pid a).
  - now injection Hf as ->.
  - auto.
Qed.

Lemma filter_swap {A} (g h : A -> bool) l :
  filter g (filter h l) = filter h (filter g l).
Proof.
  induction l as [|a l IH]; simpl; auto.
  destruct (g a) eqn:Eg, (h a) eqn:Eh; simpl; rewrite ?Eg, ?Eh, ?IH; auto.
Qed.

(** Claiming one [P1] row leaves one [P1] row less. *)
Lemma p1_count_after_claim repository t row pid :
  unique_ids t = true ->
  In row t -> col_is_str "id" pid row = true -> p1_row repository row = true ->
  S (length (filter (fun r => negb (col_is_str "id" pid r))
               (filter (p1_row repository) t)))
  = length (filter (p1_row repository) t).
Proof.
  intros Hu Hin Hhit Hp.
  rewrite <- (filter_length (col_is_str "id" pid) (filter (p1_row repository) t)).
  rewrite (filter_swap (col_is_str "id" pid) (p1_row repository)).
  rewrite (unique_filter_hit t Hu row pid Hin Hhit). simpl. now rewrite Hp.
Qed.

(** ** The updates of a PGX run *)

Lemma not_p1_value st : st <> P1 -> String.eqb (state_value st) "P1" = false.
Proof. destruct st; intros H; try reflexivity. now contradiction H. Qed.

Ltac settle_values Hconf Hst :=
  let row := fresh "row" in
  split; intros row; unfold p1_row, col_is_str; rewrite get_update;
  match goal with
  | repository : PaperRepository |- _ =>
      destruct repository as [sc]; destruct Hconf as [Hc|Hc]; simpl in Hc; subst sc;
      simpl; rewrite ?(not_p1_value _ Hst); reflexivity
  end.

Section UpdateFacts.
Variable repository : PaperRepository.
Hypothesis Hconf : configured repository.

Lemma settling_plain st now :
  st <> P1 ->
  settling repository (fun row => update row (update_state_values repository st None now)).
Proof. intros Hst. settle_values Hconf Hst. Qed.

Lemma settling_reason st now r :
  st <> P1 ->
  settling repository
    (fun row => update row (update_state_values repository st (reason_update r) now)).
Proof. intros Hst. settle_values Hconf Hst. Qed.

Lemma settling_cleared st now m :
  st <> P1 ->
  settling repository
    (fun row => update row
                  (update_state_values repository st
                     (Some [("reason", VNone); ("metadata", VDict m)]) now)).
Proof. intros Hst. settle_values Hconf Hst. Qed.

Lemma keeping_charge next now :
  keeping repository
    (fun row => update row [("attempts", VInt next); ("updated_at", VStr now)]).
Proof.
  split; intros row; unfold p1_row, col_is_str; rewrite get_update;
    destruct repository as [sc]; destruct Hconf as [Hc|Hc]; simpl in Hc; subst sc;
    reflexivity.
Qed.

(** A [P1] row converts to a [P1] record. *)
Lemma p1_row_state row p :
  _to_record repository row = Ok p ->
  p1_row repository row = true -> state p = P1.
Proof.
  intros H Hp. apply to_record_inv in H.
  destruct H as (_ & _ & Hs & _).
  unfold p1_row, col_is_str, state_cell, get_or_none in *.
  destruct repository as [sc]. destruct Hconf as [Hc|Hc]; simpl in Hc; subst sc;
    simpl in *.
  - destruct (get "status" row) as [[| | | |s|]|]; try discriminate Hp.
    apply String.eqb_eq in Hp. subst s.
    change (VStr "P1") with (VStr (state_value P1)) in Hs.
    rewrite PaperState_of_value in Hs. congruence.
  - destruct (get "gstatus" row) as [[| | | |s|]|]; try discriminate Hp.
    apply String.eqb_eq in Hp. subst s.
    change (VStr "P1") with (VStr (state_value P1)) in Hs.
    rewrite PaperState_of_value in Hs. congruence.
Qed.

End UpdateFacts.

Lemma patched_hit_settled repository f pid t :
  (forall row, get "id" (f row) = get "id" row) ->
  (forall row, p1_row repository (f row) = false) ->
  forall row, In row (patch_rows f pid t) -> col_is_str "id" pid row = true ->
              p1_row repository row = false.
Proof.
  intros Hid Hp row Hin Hhit. unfold patch_rows in Hin. apply in_map_iff in Hin.
  destruct Hin as (r0 & Hr & _).
  destruct (col_is_str "id" pid r0) eqn:E; subst row; auto. congruence.
Qed.

Lemma patched_hit_kept repository f pid t :
  (forall row, get "id" (f row) = get "id" row) ->
  (forall row, p1_row repository (f row) = p1_row repository row) ->
  (forall row, In row t -> col_is_str "id" pid row = true ->
               p1_row repository row = false) ->
  forall row, In row (patch_rows f pid t) -> col_is_str "id" pid row = true ->
              p1_row repository row = false.
Proof.
  intros Hid Hp Hno row Hin Hhit. unfold patch_rows in Hin. apply in_map_iff in Hin.
  destruct Hin as (r0 & Hr & Hin0).
  destruct (col_is_str "id" pid r0) eqn:E; subst row.
  - rewrite Hp. now apply Hno.
  - congruence.
Qed.

(** ** What [fetch_by_state] answers *)

Lemma insert_sorted_in le r l x : In x (insert_sorted le r l) <-> x = r \/ In x l.
Proof.
  induction l as [|a l IH]; simpl.
  - intuition.
  - destruct (le r a); simpl; [intuition|]. rewrite IH. intuition.
Qed.

Lemma order_rows_in le l x : In x (order_rows le l) <-> In x l.
Proof.
  unfold order_rows. induction l as [|a l IH]; simpl; [tauto|].
  rewrite insert_sorted_in, IH. intuition.
Qed.

Lemma insert_sorted_length le r l : length (insert_sorted le r l) = S (length l).
Proof.
  induction l as [|a l IH]; simpl; auto.
  destruct (le r a); simpl; auto.
Qed.

Lemma order_rows_length le l : length (order_rows le l) = length l.
Proof.
  unfold order_rows. induction l as [|a l IH]; simpl; auto.
  now rewrite insert_sorted_length, IH.
Qed.

Lemma firstn_in {A} n (l : list A) x : In x (firstn n l) -> In x l.
Proof.
  revert l. induction n as [|n IH]; intros [|a l]; simpl; try tauto.
  intros [->|H]; auto.
Qed.

Lemma map_result_all {A B} (f : A -> result B) l :
  (forall a, In a l -> exists b, f a = Ok b) ->
  exists bs, map_result f l = Ok bs /\ Forall2 (fun a b => f a = Ok b) l bs.
Proof.
  induction l as [|a l IH]; intros H; simpl.
  - exists []. split; auto.
  - destruct (H a) as (b & Hb); [now left|]. rewrite Hb.
    destruct IH as (bs & Hbs & Hall); [intros; apply H; now right|].
    rewrite Hbs. exists (b :: bs). split; auto.
Qed.

Lemma processable_row_inv repository row :
  processable_row repository row = true ->
  exists p, _to_record repository row = Ok p
            /\ (attempts p <=? MAX_PROCESSING_ATTEMPTS)%Z = true.
Proof.
  unfold processable_row. destruct (_to_record repository row) as [p|]; try discriminate.
  eauto.
Qed.

(** On a ready table, the [P1] query returns the records of [P1] rows, all
    within the budget, and at least one when there is a [P1] row. *)
Lemma fetch_p1_spec repository w :
  pgx_ready repository w ->
  exists fetched rows,
    fetch_by_state repository P1 _FETCH_LIMIT w
    = (Ok fetched, with_journal (journal w ++ [CallFetchByState P1 _FETCH_LIMIT]) w)
    /\ filter_processable fetched = fetched
    /\ Forall2 (fun row p => _to_record repository row = Ok p) rows fetched
    /\ (forall row, In row rows -> In row (filter (p1_row repository) (papers w)))
    /\ (count_state repository P1 (papers w) = 0%nat -> fetched = [])
    /\ (count_state repository P1 (papers w) <> 0%nat -> fetched <> []).
Proof.
  intros [_ Hproc].
  set (rows := limit_rows _FETCH_LIMIT
                 (order_rows by_level_created (filter (p1_row repository) (papers w)))).
  assert (Hsub : forall row, In row rows -> In row (filter (p1_row repository) (papers w))).
  { intros row Hin. unfold rows, limit_rows in Hin.
    apply firstn_in in Hin. now apply order_rows_in in Hin. }
  destruct (map_result_all (_to_record repository) rows) as (fetched & Hmap & Hall).
  { intros row Hin. apply Hsub, Hproc, processable_row_inv in Hin.
    destruct Hin as (p & Hp & _). eauto. }
  exists fetched, rows.
  split.
  { unfold fetch_by_state, bind, record_call, db_select, lift. simpl papers.
    f_equal. exact Hmap. }
  split.
  { unfold filter_processable. apply forallb_filter_id.
    apply forallb_forall. intros p Hin.
    assert (exists row, In row rows /\ _to_record repository row = Ok p) as (row & Hr & Hp).
    { clear -Hall Hin. induction Hall as [|r q rs qs Hrq _ IH]; [destruct Hin|].
      destruct Hin as [<-|Hin]; [exists r; simpl; auto|].
      destruct (IH Hin) as (r' & Hr' & Hq). exists r'. simpl; auto. }
    apply Hsub, Hproc, processable_row_inv in Hr.
    destruct Hr as (p' & Hp' & Hle). congruence. }
  split; [exact Hall|]. split; [exact Hsub|].
  assert (Hlen : length fetched = length rows)
    by (symmetry; eapply Forall2_length; eauto).
  change (count_state repository P1 (papers w))
    with (length (filter (p1_row repository) (papers w))).
  split.
  - intros H0. apply length_zero_iff_nil in H0.
    apply length_zero_iff_nil. rewrite Hlen. unfold rows. rewrite H0. reflexivity.
  - intros Hne Hnil. apply Hne. subst fetched. simpl in Hlen.
    symmetry in Hlen. apply length_zero_iff_nil in Hlen.
    unfold rows, limit_rows in Hlen.
    destruct (order_rows by_level_created (filter (p1_row repository) (papers w)))
      as [|a l] eqn:Ho.
    + rewrite <- (order_rows_length by_level_created), Ho. reflexivity.
    + discriminate Hlen.
Qed.

(** ** The steps of one PGX iteration *)

(** Updates by id of a claimed record leave the [P1] rows as they are. *)
Lemma p1_after_released repository f pid t :
  (forall row, get "id" (f row) = get "id" row) ->
  released repository pid t ->
  (forall row, p1_row repository (f row) = false)
  \/ (forall row, p1_row repository (f row) = p1_row repository row) ->
  filter (p1_row repository) (patch_rows f pid t) = filter (p1_row repository) t
  /\ released repository pid (patch_rows f pid t).
Proof.
  intros Hid Hrel [Hset|Hkeep]; split.
  - rewrite p1_after_settling by auto.
    apply forallb_filter_id, forallb_forall. intros row Hin.
    apply filter_In in Hin. destruct Hin as [Hin Hp].
    destruct (col_is_str "id" pid row) eqn:E; auto.
    rewrite (Hrel row Hin E) in Hp. discriminate.
  - intros row. now apply (patched_hit_settled repository f pid t).
  - now apply p1_after_keeping.
  - intros row. now apply (patched_hit_kept repository f pid t).
Qed.

Lemma stored_same_papers repository pid w w' :
  papers w' = papers w -> stored repository pid w' = stored repository pid w.
Proof. unfold stored, find_row. now intros ->. Qed.

Lemma hit_own_id repository row p :
  _to_record repository row = Ok p -> col_is_str "id" (id p) row = true.
Proof.
  intros H. apply to_record_id in H. unfold col_is_str. rewrite H.
  apply String.eqb_refl.
Qed.

Section PgxSteps.
Variable rt : Runtime.
Variable repository : PaperRepository.
Hypothesis Hconf : configured repository.

(** The claim: the selected [P1] record goes to [P1WIP] with no attempts, and
    the table has one [P1] row less. *)
Lemma claim_step w row selected :
  unique_ids (papers w) = true ->
  In row (papers w) -> p1_row repository row = true ->
  _to_record repository row = Ok selected ->
  let pid := id selected in
  let w' := after_update_state rt repository pid P1_WIP None w in
  update_state rt repository pid P1_WIP None w
  = (Ok (stamped P1_WIP (now_iso rt (clock w)) selected), w')
  /\ stored repository pid w' = Some (stamped P1_WIP (now_iso rt (clock w)) selected)
  /\ filter (p1_row repository) (papers w')
     = filter (fun r => negb (col_is_str "id" pid r)) (filter (p1_row repository) (papers w))
  /\ S (count_state repository P1 (papers w')) = count_state repository P1 (papers w)
  /\ unique_ids (papers w') = true
  /\ released repository pid (papers w').
Proof.
  intros Huniq Hin Hp1 Hrec pid w'.
  pose proof (hit_own_id _ _ _ Hrec) as Hhit. fold pid in Hhit.
  assert (Hst : stored repository pid w = Some selected).
  { unfold stored, find_row. now rewrite (unique_find _ _ _ Huniq Hin Hhit), Hrec. }
  destruct (update_state_plain rt repository Hconf pid P1_WIP w selected Hst) as [Hrun Hst'].
  assert (Hset : settling repository
                   (fun r => update r (update_state_values repository P1_WIP None
                                         (now_iso rt (clock w)))))
    by (apply settling_plain; [exact Hconf | discriminate]).
  destruct Hset as [Hid Hno].
  assert (Hpapers : papers w'
                    = patch_rows (fun r => update r (update_state_values repository P1_WIP None
                                                       (now_iso rt (clock w)))) pid (papers w))
    by reflexivity.
  assert (Hfilter : filter (p1_row repository) (papers w')
                    = filter (fun r => negb (col_is_str "id" pid r))
                        (filter (p1_row repository) (papers w))).
  { rewrite Hpapers. now apply p1_after_settling. }
  repeat split; auto.
  - change (count_state repository P1 (papers w'))
      with (length (filter (p1_row repository) (papers w'))).
    rewrite Hfilter. now apply (p1_count_after_claim repository (papers w) row pid).
  - rewrite Hpapers, unique_patch; auto.
  - rewrite Hpapers. intros r. now apply (patched_hit_settled repository _ pid (papers w)).
Qed.

(** An update by id that settles the claimed record is a quiet step. *)
Lemma after_settle pid st updates w p' :
  settling repository
    (fun r => update r (update_state_values repository st updates (now_iso rt (clock w)))) ->
  released repository pid (papers w) ->
  stored repository pid (after_update_state rt repository pid st updates w) = Some p' ->
  quiet_step repository pid [CallUpdateState pid st] w
    (after_update_state rt repository pid st updates w).
Proof.
  intros [Hid Hno] Hrel Hst.
  destruct (p1_after_released repository _ pid (papers w) Hid Hrel (or_introl Hno))
    as [Hf Hr].
  repeat split; auto.
  - apply (unique_patch _ pid Hid).
  - congruence.
Qed.

(** Charging an attempt to a claimed record is a quiet step. *)
Lemma charge_step pid current w p0 :
  stored repository pid w = Some p0 ->
  released repository pid (papers w) ->
  let w' := after_increment rt pid (current + 1) w in
  increment_attempts rt repository pid (Some current) w
  = (Ok (charged (current + 1) (now_iso rt (clock w)) p0), w')
  /\ quiet_step repository pid [CallIncrementAttempts pid (current + 1)] w w'.
Proof.
  intros Hst Hrel w'.
  destruct (increment_attempts_stored rt repository Hconf pid current w p0 Hst)
    as [Hrun Hst'].
  destruct (keeping_charge repository Hconf (current + 1) (now_iso rt (clock w)))
    as [Hid Hkeep].
  destruct (p1_after_released repository _ pid (papers w) Hid Hrel (or_intror Hkeep))
    as [Hf Hr].
  split; [exact Hrun|]. repeat split; auto.
  - apply (unique_patch _ pid Hid).
  - fold w' in Hst'. congruence.
Qed.

(** Steps compose. *)
Lemma quiet_step_trans pid js1 js2 w1 w2 w3 :
  quiet_step repository pid js1 w1 w2 ->
  quiet_step repository pid js2 w2 w3 ->
  quiet_step repository pid (js1 ++ js2) w1 w3.
Proof.
  intros (Hj1 & Hf1 & Hu1 & _ & _) (Hj2 & Hf2 & Hu2 & Hr2 & Hs2).
  repeat split; auto; try congruence.
  now rewrite Hj2, Hj1, app_assoc.
Qed.

(** A call that touches neither the rows nor the journal. *)
Lemma quiet_step_same pid w w' p0 :
  papers w' = papers w -> journal w' = journal w ->
  stored repository pid w = Some p0 ->
  released repository pid (papers w) ->
  quiet_step repository pid [] w w'.
Proof.
  intros Hp Hj Hst Hrel. unfold quiet_step.
  rewrite (stored_same_papers repository pid w w' Hp), Hp, Hj, app_nil_r, Hst.
  repeat split; auto. discriminate.
Qed.


Lemma settle_reason_step pid st r w p0 :
  st <> P1 ->
  stored repository pid w = Some p0 ->
  released repository pid (papers w) ->
  exists p' w',
    update_state rt repository pid st (reason_update r) w = (Ok p', w')
    /\ quiet_step repository pid [CallUpdateState pid st] w w'.
Proof.
  intros Hne Hst Hrel.
  destruct (update_state_reason rt repository Hconf pid st r w p0 Hst) as [Hrun Hst'].
  eexists _, _. split; [exact Hrun|].
  eapply after_settle; eauto. now apply settling_reason.
Qed.

Lemma settle_cleared_step pid st m w p0 :
  st <> P1 ->
  stored repository pid w = Some p0 ->
  released repository pid (papers w) ->
  exists p' w',
    update_state rt repository pid st (Some [("reason", VNone); ("metadata", VDict m)]) w
    = (Ok p', w')
    /\ quiet_step repository pid [CallUpdateState pid st] w w'.
Proof.
  intros Hne Hst Hrel.
  destruct (update_state_cleared rt repository Hconf pid st m w p0 Hst) as [Hrun Hst'].
  eexists _, _. split; [exact Hrun|].
  eapply after_settle; eauto. now apply settling_cleared.
Qed.

(** Rows for [pgx_extractions] go to their own table: whatever the answer,
    the [papers] rows and the journal are as before. *)
Lemma execute_extraction_same table payload retries attempts w r w' :
  _execute_from retries attempts (extraction_insert_builder rt table payload) w = (r, w') ->
  papers w' = papers w /\ journal w' = journal w.
Proof.
  revert attempts w. induction retries as [|n IH]; intros attempts w;
    cbn [_execute_from]; unfold extraction_insert_builder at 1;
    destruct (extraction_insert_verdict rt table payload attempts) as [|e|cls msg];
    try (intros H; injection H as <- <-; simpl; auto).
  destruct (_is_transient_transport_error cls msg).
  - apply IH.
  - intros H; injection H as <- <-; simpl; auto.
Qed.

Lemma insert_pgx_extractions_same pid rows table w r w' :
  insert_pgx_extractions rt pid rows table w = (r, w') ->
  papers w' = papers w /\ journal w' = journal w.
Proof.
  destruct rows as [|row rows]; [intros H; injection H as <- <-; auto|].
  unfold insert_pgx_extractions, bind, _execute.
  match goal with
  | |- context [_execute_from ?n ?a ?b w] =>
      destruct (_execute_from n a b w) as [[u|e] w1] eqn:E
  end;
    intros H; injection H as <- <-; eapply execute_extraction_same; eauto.
Qed.

(** The [except Exception] branch settles the record as [P1_FAILURE]. *)
Lemma pgx_failed_step paper page_count exc w p0 :
  stored repository (id paper) w = Some p0 ->
  released repository (id paper) (papers w) ->
  exists o w',
    pgx_failed rt repository paper page_count exc w = (Ok o, w')
    /\ quiet_step repository (id paper) [CallUpdateState (id paper) P1_FAILURE] w w'.
Proof.
  intros Hst Hrel.
  destruct (settle_reason_step (id paper) P1_FAILURE (exn_str exc) w p0)
    as (p' & w' & Hrun & Hq); auto; [discriminate|].
  unfold pgx_failed, bind. rewrite Hrun. eexists _, _. split; [reflexivity|exact Hq].
Qed.

(** [process_pgx_extraction] on a claimed record always returns an outcome and
    settles the record with one transition, to [P1_FAILURE] or [P1_SUCCESS]. *)
Lemma process_pgx_extraction_settles paper storage extractor pdf_bytes page_count table w p0 :
  stored repository (id paper) w = Some p0 ->
  released repository (id paper) (papers w) ->
  exists o w' st,
    process_pgx_extraction rt paper repository storage extractor pdf_bytes page_count table w
    = (Ok o, w')
    /\ (st = P1_FAILURE \/ st = P1_SUCCESS)
    /\ quiet_step repository (id paper) [CallUpdateState (id paper) st] w w'.
Proof.
  intros Hst Hrel. unfold process_pgx_extraction.
  destruct (_pgx_source_ref paper) as [source_ref|].
  2: { destruct (settle_reason_step (id paper) P1_FAILURE "Paper missing source_uri" w p0)
         as (p' & w' & Hrun & Hq); auto; [discriminate|].
       unfold bind. rewrite Hrun. eexists _, _, P1_FAILURE. split; [reflexivity|]. auto. }
  unfold bind, try_except, ret, lift.
  assert (Hfail : forall pc e,
             exists o w',
               pgx_failed rt repository paper pc e w = (Ok o, w')
               /\ quiet_step repository (id paper)
                    [CallUpdateState (id paper) P1_FAILURE] w w')
    by (intros; now apply pgx_failed_step with (p0 := p0)).
  match goal with
  | |- context [match pdf_bytes with Some _ => _ | None => _ end w] =>
      match goal with
      | |- context [?m w] =>
          match m with
          | match pdf_bytes with Some _ => _ | None => _ end =>
              assert (Hload : exists loaded, m w = (loaded, w))
                by (destruct pdf_bytes; [|destruct (fetch_blob storage source_ref)]; eauto);
              destruct Hload as (loaded & ->)
          end
      end
  end.
  destruct loaded as [current|e].
  2: { destruct (Hfail page_count e) as (o & w' & -> & Hq).
       exists o, w', P1_FAILURE. auto. }
  cbv beta iota.
  generalize (match page_count with
              | Some _ => page_count
              | None => pdf_page_count rt current
              end). intros page_count_.
  destruct (extract_pdf extractor current) as [[|sample samples]|e].
  - destruct (settle_reason_step (id paper) P1_FAILURE "No PGX samples extracted" w p0)
      as (p' & w' & -> & Hq); auto; [discriminate|].
    eexists _, w', P1_FAILURE. auto.
  - destruct (insert_pgx_extractions rt (id paper)
                (map pgx_row_payload (sample :: samples)) table w) as [[inserted|e] w1] eqn:Eins;
      destruct (insert_pgx_extractions_same _ _ _ _ _ _ Eins) as [Hp Hj];
      pose proof (quiet_step_same (id paper) w w1 p0 Hp Hj Hst Hrel) as Hq1;
      assert (Hst1 : stored repository (id paper) w1 = Some p0)
        by (now rewrite (stored_same_papers repository (id paper) w w1 Hp));
      assert (Hrel1 : released repository (id paper) (papers w1)) by (now rewrite Hp).
    + destruct (settle_cleared_step (id paper) P1_SUCCESS
                  (set "pgx_extraction_count" (VInt inserted) (metadata paper)) w1 p0)
        as (p' & w' & -> & Hq); auto; [discriminate|].
      eexists _, w', P1_SUCCESS. split; [reflexivity|]. split; [auto|].
      exact (quiet_step_trans _ _ _ _ _ _ Hq1 Hq).
    + destruct (pgx_failed_step paper page_count_ e w1 p0 Hst1 Hrel1) as (o & w' & -> & Hq).
      exists o, w', P1_FAILURE. split; [reflexivity|]. split; [auto|].
      exact (quiet_step_trans _ _ _ _ _ _ Hq1 Hq).
  - destruct (Hfail page_count_ e) as (o & w' & -> & Hq).
    exists o, w', P1_FAILURE. auto.
Qed.

(** [random.choice] answers with one of the candidates. *)
Lemma random_choice_in first others w :
  exists selected,
    random_choice rt first others w = (Ok selected, with_draws (S (draws w)) w)
    /\ In selected (first :: others).
Proof.
  unfold random_choice. eexists. split; [reflexivity|].
  apply nth_In. simpl length. apply Nat.mod_upper_bound. discriminate.
Qed.

Lemma Forall2_in_right {A B} (R : A -> B -> Prop) l l' b :
  Forall2 R l l' -> In b l' -> exists a, In a l /\ R a b.
Proof.
  induction 1 as [|a0 b0 l l' Hab _ IH]; intros Hin; [destruct Hin|].
  destruct Hin as [<-|Hin]; [exists a0; simpl; auto|].
  destruct (IH Hin) as (a & Ha & Hr). exists a. simpl; auto.
Qed.

(** One turn of the loop on a table with a [P1] row: one query, one claim,
    one stage call on a record with one attempt, one outcome; the table is
    ready again with one [P1] row less. *)
Lemma pgx_iteration storage extractor table w k remaining outs :
  pgx_ready repository w ->
  count_state repository P1 (papers w) = S k ->
  exists o w' pid updated st,
    pgx_batch_loop rt repository storage extractor table (S remaining) outs w
    = pgx_batch_loop rt repository storage extractor table remaining (outs ++ [o]) w'
    /\ journal w'
       = journal w ++ [CallFetchByState P1 _FETCH_LIMIT;
                       CallUpdateState pid P1_WIP;
                       CallIncrementAttempts pid 1;
                       CallStage "pgx_extraction" updated;
                       CallUpdateState pid st]
    /\ attempts updated = 1%Z
    /\ (st = P1_FAILURE \/ st = P1_SUCCESS)
    /\ pgx_ready repository w'
    /\ count_state repository P1 (papers w') = k.
Proof.
  intros Hready Hcount.
  destruct (fetch_p1_spec repository w Hready)
    as (fetched & rows & Hfetch & Hproc & Hall & Hsub & _ & Hnz).
  destruct fetched as [|first others]; [exfalso; apply Hnz; [rewrite Hcount|]; easy|].
  clear Hnz.
  cbn [pgx_batch_loop]. unfold bind at 1. rewrite Hfetch, Hproc.
  set (w1 := with_journal _ w).
  destruct (random_choice_in first others w1) as (selected & Hdraw & Hsel).
  unfold bind at 1. rewrite Hdraw.
  set (w2 := with_draws _ w1).
  destruct (Forall2_in_right _ _ _ _ Hall Hsel) as (row & Hrow & Hrec).
  apply Hsub, filter_In in Hrow. destruct Hrow as [Hin Hp1].
  destruct Hready as [Huniq Hprocessable].
  destruct (claim_step w2 row selected Huniq Hin Hp1 Hrec)
    as (Hclaim & Hst2 & Hf2 & Hc2 & Hu2 & Hr2).
  unfold bind at 1. rewrite Hclaim.
  set (paper := stamped P1_WIP _ selected) in *.
  set (w3 := after_update_state rt repository (id selected) P1_WIP None w2) in *.
  destruct (preload_pdf rt storage paper) as [pdf_bytes page_count].
  set (progress := replace_metadata paper _).
  destruct (charge_step (id selected) 0 w3 paper Hst2 Hr2) as [Hcharge Hq3].
  change (0 + 1)%Z with 1%Z in Hcharge, Hq3.
  set (updated := charged 1 _ paper) in *.
  set (w4 := after_increment rt (id selected) 1 w3) in *.
  destruct Hq3 as (Hj4 & Hf4 & Hu4 & Hr4 & Hs4).
  destruct (stored repository (id selected) w4) as [p4|] eqn:Hst4; [clear Hs4|easy].
  set (w5 := with_journal (journal w4 ++ [CallStage "pgx_extraction" updated]) w4).
  destruct (process_pgx_extraction_settles updated storage extractor pdf_bytes page_count
              table w5 p4 Hst4 Hr4)
    as (o & w6 & st & Hrun & Hst & Hj6 & Hf6 & Hu6 & Hr6 & _).
  exists o, w6, (id selected), updated, st.
  split.
  { unfold bind at 1. unfold pgx_process, mark_processing_attempt.
    change (id progress) with (id selected). change (attempts progress) with 0%Z.
    unfold bind at 1. rewrite Hcharge.
    unfold bind at 1. unfold record_call at 1. fold w5. rewrite Hrun. reflexivity. }
  assert (Hf : filter (p1_row repository) (papers w6)
               = filter (p1_row repository) (papers w3)).
  { rewrite Hf6. change (papers w5) with (papers w4). exact Hf4. }
  split.
  { rewrite Hj6. change (journal w5) with (journal w4 ++ [CallStage "pgx_extraction" updated]).
    rewrite Hj4.
    change (journal w3)
      with ((journal w ++ [CallFetchByState P1 _FETCH_LIMIT])
              ++ [CallUpdateState (id selected) P1_WIP]).
    rewrite <- !app_assoc. reflexivity. }
  split; [reflexivity|]. split; [exact Hst|].
  split.
  - split.
    + rewrite Hu6. change (papers w5) with (papers w4). now rewrite Hu4.
    + intros r Hr. rewrite Hf, Hf2 in Hr. apply filter_In in Hr.
      apply Hprocessable. exact (proj1 Hr).
  - change (count_state repository P1 (papers w6))
      with (length (filter (p1_row repository) (papers w6))).
    rewrite Hf.
    change (length (filter (p1_row repository) (papers w3)))
      with (count_state repository P1 (papers w3)).
    change (papers w2) with (papers w) in Hc2. rewrite Hcount in Hc2.
    now injection Hc2.
Qed.

(** The whole loop on a ready table: it returns, and with [k] rows in [P1]
    and [remaining] outcomes to go it takes [min remaining k] turns; the loop
    asks once more than it claims exactly when the rows run out first. *)
Lemma pgx_batch_loop_spec storage extractor table remaining :
  forall outs w,
    pgx_ready repository w ->
    exists outs' w' js,
      pgx_batch_loop rt repository storage extractor table remaining outs w
      = (Ok (outs ++ outs'), w')
      /\ journal w' = journal w ++ js
      /\ length outs' = Nat.min remaining (count_state repository P1 (papers w))
      /\ length (filter is_claim js)
         = Nat.min remaining (count_state repository P1 (papers w))
      /\ length (filter is_stage_call js)
         = Nat.min remaining (count_state repository P1 (papers w))
      /\ length (filter is_p1_fetch js)
         = (if (remaining <=? count_state repository P1 (papers w))%nat
            then remaining
            else S (count_state repository P1 (papers w)))
      /\ Forall stage_attempts_one js.
Proof.
  induction remaining as [|r IH]; intros outs w Hready.
  - exists [], w, []. simpl. rewrite !app_nil_r. repeat split; auto.
  - destruct (count_state repository P1 (papers w)) as [|k] eqn:Hcount.
    + destruct (fetch_p1_spec repository w Hready)
        as (fetched & rows & Hfetch & _ & _ & _ & Hzero & _).
      rewrite (Hzero Hcount) in Hfetch.
      exists [], (with_journal (journal w ++ [CallFetchByState P1 _FETCH_LIMIT]) w),
        [CallFetchByState P1 _FETCH_LIMIT].
      split.
      { cbn [pgx_batch_loop]. unfold bind at 1. rewrite Hfetch.
        rewrite app_nil_r. reflexivity. }
      simpl. repeat split; auto. repeat constructor.
    + destruct (pgx_iteration storage extractor table w k r outs Hready Hcount)
        as (o & w1 & pid & updated & st & Hstep & Hj & Hatt & Hst & Hready1 & Hcount1).
      destruct (IH (outs ++ [o]) w1 Hready1)
        as (outs' & w' & js & Hrun & Hj' & Hlen & Hclaims & Hstages & Hfetches & Hall).
      rewrite Hcount1 in Hlen, Hclaims, Hstages, Hfetches.
      exists (o :: outs'), w',
        ([CallFetchByState P1 _FETCH_LIMIT; CallUpdateState pid P1_WIP;
          CallIncrementAttempts pid 1; CallStage "pgx_extraction" updated;
          CallUpdateState pid st] ++ js).
      split; [rewrite Hstep, Hrun, <- app_assoc; reflexivity|].
      split; [rewrite Hj', Hj, <- app_assoc; reflexivity|].
      split; [simpl; now rewrite Hlen|].
      split; [destruct Hst as [-> | ->]; simpl; now rewrite Hclaims|].
      split; [simpl; now rewrite Hstages|].
      split.
      { simpl. rewrite Hfetches. now destruct (r <=? k)%nat. }
      repeat (constructor; simpl; auto).
Qed.

End PgxSteps.

(** ** What a computation adds to the journal *)

Section JournalFacts.
Context {A B : Type}.
Variable P : call -> Prop.

Lemma journals_ret (Q : A -> Prop) a : Q a -> journals P Q (ret a).
Proof. intros H w. exists []. simpl. rewrite app_nil_r. auto. Qed.

Lemma journals_lift (Q : A -> Prop) (r : result A) :
  (forall a, r = Ok a -> Q a) -> journals P Q (lift r).
Proof.
  intros H w. exists []. simpl. rewrite app_nil_r. repeat split; auto.
  destruct r; auto.
Qed.

Lemma journals_any (m : M A) :
  (forall w, exists js, journal (snd (m w)) = journal w ++ js /\ Forall P js) ->
  journals P (fun _ => True) m.
Proof.
  intros H w. destruct (H w) as (js & Hj & Hall). exists js. repeat split; auto.
  now destruct (fst (m w)).
Qed.

Lemma journals_weaken (Q Q' : A -> Prop) (m : M A) :
  journals P Q m -> (forall a, Q a -> Q' a) -> journals P Q' m.
Proof.
  intros H Himp w. destruct (H w) as (js & Hj & Hall & Hq). exists js.
  repeat split; auto. destruct (fst (m w)); auto.
Qed.

Lemma journals_bind (Q : A -> Prop) (R : B -> Prop) (m : M A) (k : A -> M B) :
  journals P Q m -> (forall a, Q a -> journals P R (k a)) -> journals P R (bind m k).
Proof.
  intros Hm Hk w. unfold bind. destruct (Hm w) as (js & Hj & Hall & Hq).
  destruct (m w) as [[a|e] w1]; simpl in *.
  - destruct (Hk a Hq w1) as (js' & Hj' & Hall' & Hr).
    exists (js ++ js'). rewrite Hj', Hj, app_assoc. repeat split; auto.
    apply Forall_app; auto.
  - exists js. auto.
Qed.

Lemma journals_try (Q : A -> Prop) (m : M A) (h : exn -> M A) :
  journals P Q m -> (forall e, journals P Q (h e)) -> journals P Q (try_except m h).
Proof.
  intros Hm Hh w. unfold try_except. destruct (Hm w) as (js & Hj & Hall & Hq).
  destruct (m w) as [[a|e] w1]; simpl in *.
  - exists js. auto.
  - destruct (Hh e w1) as (js' & Hj' & Hall' & Hr).
    exists (js ++ js'). rewrite Hj', Hj, app_assoc. repeat split; auto.
    apply Forall_app; auto.
Qed.

Lemma journals_same (Q : A -> Prop) (m : M A) :
  (forall w, journal (snd (m w)) = journal w) ->
  (forall w a, fst (m w) = Ok a -> Q a) ->
  journals P Q m.
Proof.
  intros Hj Hq w. exists []. rewrite app_nil_r. repeat split; auto.
  destruct (fst (m w)) eqn:E; auto. eapply Hq; eauto.
Qed.

End JournalFacts.

Lemma journals_record P c : P c -> journals P (fun _ : unit => True) (record_call c).
Proof. intros H w. exists [c]. simpl. repeat split; auto. Qed.

(** ** The journal of the PGX batch, from any store *)

Section JournalOfCalls.
Variable rt : Runtime.
Variable repository : PaperRepository.

(** [update_state] journals its call only and answers, when it does, with a
    record that has no attempts. *)
Lemma update_state_journals pid st updates :
  journals stage_attempts_one (fun p => attempts p = 0%Z)
    (update_state rt repository pid st updates).
Proof.
  intros w. rewrite update_state_run. cbn [fst snd].
  exists [CallUpdateState pid st]. split; [reflexivity|].
  split; [repeat constructor|].
  destruct (filter (col_is_str "id" pid) (papers w)) as [|row rest];
    cbn [map _single rbind]; auto.
  destruct (_to_record _ _) eqn:E; auto.
  eapply to_record_attempts_zero; [|exact E].
  apply updated_row_attempts.
Qed.

(** [increment_attempts] journals its call only and answers, when it does,
    with a record that has one attempt more than the count it was given. *)
Lemma increment_attempts_journals pid current :
  journals stage_attempts_one (fun p => attempts p = (current + 1)%Z)
    (increment_attempts rt repository pid (Some current)).
Proof.
  intros w. rewrite increment_attempts_run. cbn [fst snd].
  exists [CallIncrementAttempts pid (current + 1)]. split; [reflexivity|].
  split; [repeat constructor|].
  destruct (filter (col_is_str "id" pid) (papers w)) as [|row rest];
    cbn [map _single rbind]; auto.
  destruct (_to_record _ _) eqn:E; auto.
  apply to_record_inv in E.
  destruct E as (_ & _ & _ & _ & _ & _ & _ & _ & _ & _ & _ & _ & Hatt & _).
  unfold get_or_none in Hatt. rewrite get_update in Hatt. simpl in Hatt.
  unfold attempts_of in Hatt. congruence.
Qed.

Lemma fetch_by_state_journals st limit :
  journals stage_attempts_one (fun _ => True) (fetch_by_state repository st limit).
Proof.
  apply journals_any. intros w. exists [CallFetchByState st limit].
  split; [reflexivity|]. repeat constructor.
Qed.

Lemma random_choice_journals first others :
  journals stage_attempts_one (fun _ => True) (random_choice rt first others).
Proof. apply journals_same; auto. Qed.

Lemma insert_pgx_extractions_journals pid rows table :
  journals stage_attempts_one (fun _ => True)
    (insert_pgx_extractions rt pid rows table).
Proof.
  apply journals_same; auto. intros w.
  destruct (insert_pgx_extractions rt pid rows table w) as [r w'] eqn:E.
  now apply insert_pgx_extractions_same in E.
Qed.

Lemma update_state_journals_any pid st updates :
  journals stage_attempts_one (fun _ => True) (update_state rt repository pid st updates).
Proof. eapply journals_weaken; [apply update_state_journals|auto]. Qed.

Ltac journal_step :=
  first
    [ apply journals_ret; exact I
    | apply journals_lift; intros; exact I
    | apply update_state_journals_any
    | apply insert_pgx_extractions_journals
    | apply (journals_bind _ (fun _ => True)); [|intros ? _]
    | apply journals_try; [|intros ?]
    | match goal with
      | |- journals _ _ (match ?x with _ => _ end) => destruct x
      end ].

(** [process_pgx_extraction] journals no stage call, whatever happens. *)
Lemma process_pgx_extraction_journals paper storage extractor pdf_bytes page_count table :
  journals stage_attempts_one (fun _ => True)
    (process_pgx_extraction rt paper repository storage extractor pdf_bytes page_count table).
Proof.
  unfold process_pgx_extraction, pgx_failed. repeat journal_step.
Qed.

(** The inner [_process] on a record with no attempts: the stage call that
    it journals is on a record with one attempt. *)
Lemma pgx_process_journals storage extractor table paper pdf_bytes page_count :
  attempts paper = 0%Z ->
  journals stage_attempts_one (fun _ => True)
    (pgx_process rt repository storage extractor table paper pdf_bytes page_count).
Proof.
  intros Hzero. unfold pgx_process, mark_processing_attempt. rewrite Hzero.
  apply (journals_bind _ (fun p => attempts p = (0 + 1)%Z));
    [apply increment_attempts_journals|].
  intros updated Hone.
  apply (journals_bind _ (fun _ => True)); [now apply journals_record|].
  intros _ _. apply process_pgx_extraction_journals.
Qed.

(** The loop, from any store: every stage call that it journals is on a
    record with one attempt. *)
Lemma pgx_batch_loop_journals storage extractor table remaining :
  forall outs,
    journals stage_attempts_one (fun _ => True)
      (pgx_batch_loop rt repository storage extractor table remaining outs).
Proof.
  induction remaining as [|r IH]; intros outs; cbn [pgx_batch_loop].
  - now apply journals_ret.
  - apply (journals_bind _ (fun _ => True)); [apply fetch_by_state_journals|].
    intros fetched _.
    destruct (filter_processable fetched) as [|first others]; [now apply journals_ret|].
    apply (journals_bind _ (fun _ => True)); [apply random_choice_journals|].
    intros selected _.
    apply (journals_bind _ (fun p => attempts p = 0%Z)); [apply update_state_journals|].
    intros paper Hzero.
    destruct (preload_pdf rt storage paper) as [pdf_bytes page_count].
    apply (journals_bind _ (fun _ => True)); [now apply pgx_process_journals|].
    intros outcome_ _. apply IH.
Qed.

End JournalOfCalls.

Lemma queued_pgx_ready : pgx_ready default_repository queued_pgx.
Proof.
  split; [reflexivity|]. intros row Hin. vm_compute in Hin.
  destruct Hin as [<-|[<-|[]]]; reflexivity.
Qed.

(** ** C7 *)

(** C7.  [process_pgx_extraction_batch] with [batch_size = 2], on a table
    with unique ids that holds exactly two rows in [P1], each a well-formed
    record with [attempts <= MAX_PROCESSING_ATTEMPTS]: the run returns two
    outcomes, and it journals exactly two [fetch_by_state(P1, ...)] queries
    (one per turn of the loop) and exactly two [update_state] transitions to
    [P1WIP] (one claim per selected record). *)
Theorem pgx_batch_of_two_queries_and_claims_twice :
  forall (rt : Runtime) (repository : PaperRepository) (storage : StorageGateway)
         (extractor : PgxExtractor) (extraction_table : string) (w : world),
    configured repository ->
    pgx_ready repository w ->
    count_state repository P1 (papers w) = 2%nat ->
    exists outcomes w' js,
      process_pgx_extraction_batch rt 2 repository storage extractor extraction_table w
      = (Ok outcomes, w')
      /\ length outcomes = 2%nat
      /\ journal w' = journal w ++ js
      /\ length (filter is_p1_fetch js) = 2%nat
      /\ length (filter is_claim js) = 2%nat.
Proof.
  intros rt repository storage extractor extraction_table w Hconf Hready Hcount.
  unfold process_pgx_extraction_batch. change (Z.to_nat 2) with 2%nat.
  destruct (pgx_batch_loop_spec rt repository Hconf storage extractor extraction_table
              2 [] w Hready)
    as (outs' & w' & js & Hrun & Hj & Hlen & Hclaims & _ & Hfetches & _).
  rewrite Hcount in Hlen, Hclaims, Hfetches.
  exists outs', w', js. repeat split; auto.
Qed.

(** C7 at two queued records, a storage that serves every blob and an
    extractor that finds a sample. *)
Lemma pgx_batch_of_two_queries_and_claims_twice_witness :
  exists outcomes w' js,
    process_pgx_extraction_batch example_runtime 2 default_repository text_storage
      sampling_extractor "pgx_extractions" queued_pgx
    = (Ok outcomes, w')
    /\ length outcomes = 2%nat
    /\ journal w' = journal queued_pgx ++ js
    /\ length (filter is_p1_fetch js) = 2%nat
    /\ length (filter is_claim js) = 2%nat.
Proof.
  apply (pgx_batch_of_two_queries_and_claims_twice example_runtime default_repository
           text_storage sampling_extractor "pgx_extractions" queued_pgx).
  - left; reflexivity.
  - exact queued_pgx_ready.
  - reflexivity.
Defined.

(** The run of C7's example, evaluated: the journal shows the two queries,
    the two claims, and both records settled with their samples stored. *)
Example pgx_batch_of_two_journal :
  let run := process_pgx_extraction_batch example_runtime 2 default_repository
               text_storage sampling_extractor "pgx_extractions" queued_pgx in
  map success (match fst run with Ok l => l | Raise _ => [] end) = [true; true]
  /\ filter is_p1_fetch (journal (snd run)) = [CallFetchByState P1 100; CallFetchByState P1 100]
  /\ filter is_claim (journal (snd run))
     = [CallUpdateState "a" P1_WIP; CallUpdateState "b" P1_WIP]
  /\ count_state default_repository P1_SUCCESS (papers (snd run)) = 2%nat
  /\ length (extraction_rows (snd run)) = 2%nat.
Proof. vm_compute. repeat split; reflexivity. Qed.

(** ** C10 *)

(** C10.  Whatever the store, the batch size and the collaborators are, and
    whether the run returns or raises, every stage call that
    [process_pgx_extraction_batch] journals is on a record with
    [attempts = 1]: the claim goes through [update_state], whose record has
    [attempts = 0], and [mark_processing_attempt] counts one from there, so
    the attempts that the [P1] row had when fetched never reach the stage.
    On a table with unique ids whose [P1] rows are well-formed records within
    the attempt budget, the run returns and journals one such stage call per
    outcome. *)
Theorem pgx_stage_runs_with_one_attempt :
  forall (rt : Runtime) (batch_size : Z) (repository : PaperRepository)
         (storage : StorageGateway) (extractor : PgxExtractor)
         (extraction_table : string) (w : world),
    let run := process_pgx_extraction_batch rt batch_size repository storage extractor
                 extraction_table w in
    exists js,
      journal (snd run) = journal w ++ js
      /\ (forall stage_ p, In (CallStage stage_ p) js -> attempts p = 1%Z)
      /\ (configured repository ->
          pgx_ready repository w ->
          exists outcomes,
            fst run = Ok outcomes
            /\ length outcomes
               = Nat.min (Z.to_nat batch_size) (count_state repository P1 (papers w))
            /\ length (filter is_stage_call js) = length outcomes).
Proof.
  intros rt batch_size repository storage extractor extraction_table w run.
  unfold process_pgx_extraction_batch in run.
  destruct (pgx_batch_loop_journals rt repository storage extractor extraction_table
              (Z.to_nat batch_size) [] w) as (js & Hj & Hall & _).
  fold run in Hj. exists js. split; [exact Hj|]. split.
  - intros stage_ p Hin. rewrite Forall_forall in Hall. exact (Hall _ Hin).
  - intros Hconf Hready.
    destruct (pgx_batch_loop_spec rt repository Hconf storage extractor extraction_table
                (Z.to_nat batch_size) [] w Hready)
      as (outs' & w' & js' & Hrun & Hj' & Hlen & _ & Hstages & _).
    fold run in Hrun. rewrite Hrun in Hj |- *. cbn [fst snd] in Hj |- *.
    rewrite Hj' in Hj. apply app_inv_head in Hj. subst js'.
    exists outs'. repeat split; auto. congruence.
Qed.

(** C10 at two queued records that were fetched with two attempts and with
    one: both stage calls see one attempt. *)
Lemma pgx_stage_runs_with_one_attempt_witness :
  let run := process_pgx_extraction_batch example_runtime 5 default_repository
               text_storage sampling_extractor "pgx_extractions" queued_pgx in
  exists js outcomes,
    journal (snd run) = journal queued_pgx ++ js
    /\ (forall stage_ p, In (CallStage stage_ p) js -> attempts p = 1%Z)
    /\ fst run = Ok outcomes
    /\ length outcomes = 2%nat
    /\ length (filter is_stage_call js) = length outcomes.
Proof.
  intros run.
  destruct (pgx_stage_runs_with_one_attempt example_runtime 5 default_repository
              text_storage sampling_extractor "pgx_extractions" queued_pgx)
    as (js & Hj & Hone & Hreturns).
  destruct Hreturns as (outcomes & Hrun & Hlen & Hstages).
  - left; reflexivity.
  - exact queued_pgx_ready.
  - exists js, outcomes. repeat split; auto.
Defined.

(** The stage calls of that run, evaluated: the records [a] and [b], which
    were stored with two attempts and with one, each reach the stage with
    one. *)
Example pgx_stage_calls_of_two :
  let run := process_pgx_extraction_batch example_runtime 5 default_repository
               text_storage sampling_extractor "pgx_extractions" queued_pgx in
  map (fun c => match c with
                | CallStage stage_ p => (stage_, id p, attempts p)
                | _ => ("", "", 0%Z)
                end)
      (filter is_stage_call (journal (snd run)))
  = [("pgx_extraction", "a", 1%Z); ("pgx_extraction", "b", 1%Z)].
Proof. vm_compute. reflexivity. Qed.

(* ================================================================== *)
(** * Further properties of the code *)

(** ** The retry loop of [_execute] *)

Lemma execute_from_scripted {A} (answers : nat -> reply A) w :
  forall retries attempts n,
    (attempts <= n)%nat ->
    (n <= attempts + retries)%nat ->
    (forall i, (attempts <= i)%nat -> (i < n)%nat -> retriable (answers i) = true) ->
    retriable (answers n) = false \/ n = (attempts + retries)%nat ->
    _execute_from retries attempts (scripted answers) w = (final_answer (answers n), w).
Proof.
  induction retries as [|r IH]; intros attempts n Hle Hup Hbefore Hlast.
  - assert (n = attempts) by lia. subst n. cbn [_execute_from]. unfold scripted.
    destruct (answers attempts); reflexivity.
  - cbn [_execute_from]. unfold scripted at 1.
    destruct (Nat.eq_dec n attempts) as [->|Hne].
    + destruct Hlast as [Hlast|Hlast]; [|lia].
      destruct (answers attempts) as [d|e|cls msg]; try reflexivity.
      simpl in Hlast. now rewrite Hlast.
    + assert (Hretry : retriable (answers attempts) = true) by (apply Hbefore; lia).
      destruct (answers attempts) as [d|e|cls msg]; try discriminate.
      simpl in Hretry. rewrite Hretry.
      apply IH; try lia.
      * intros i Hi1 Hi2. apply Hbefore; lia.
      * destruct Hlast as [Hlast|Hlast]; [now left|right; lia].
Qed.

(** The retry policy of [_execute]: the first answer that is not a transient
    transport failure ends the loop, and so does the fourth answer whatever
    it is; data is returned, an API error is mapped, a transport failure
    becomes a [RepositoryError] with its message.  Answers after that one are
    never asked for. *)
Theorem execute_retries_transient_failures_three_times :
  forall (A : Type) (answers : nat -> reply A) (w : world) (n : nat),
    (n <= MAX_TRANSIENT_RETRIES)%nat ->
    (forall i, (i < n)%nat -> retriable (answers i) = true) ->
    retriable (answers n) = false \/ n = MAX_TRANSIENT_RETRIES ->
    _execute (scripted answers) w = (final_answer (answers n), w).
Proof.
  intros A answers w n Hn Hbefore Hlast. unfold _execute.
  apply execute_from_scripted; auto; lia.
Qed.

(** After two dropped connections the third try answers. *)
Lemma execute_retries_transient_failures_three_times_witness :
  _execute (scripted flaky_answers) (example_world []) = (Ok 7%Z, example_world []).
Proof.
  apply (execute_retries_transient_failures_three_times Z flaky_answers
           (example_world []) 2).
  - unfold MAX_TRANSIENT_RETRIES. lia.
  - intros i Hi. destruct i as [|[|i]]; [reflexivity|reflexivity|lia].
  - left. reflexivity.
Defined.

(** The chain is followed for six exceptions: a dropped connection behind
    [n] wrappers of the raised exception is seen when [n] is at most four,
    and a failure whose cause lies deeper is not retried. *)
Example transient_cause_is_seen_six_deep :
  forall n,
    _is_transient_transport_error (mk_raised false "request failed") (buried n)
    = (n <? 5)%nat.
Proof.
  intros n. do 5 (destruct n as [|n]; [reflexivity|]). reflexivity.
Qed.

(** ** The classes of [_map_postgrest_error] *)

(** [_map_postgrest_error] always answers with a [RepositoryError] (the two
    duplicate errors are subclasses); a topic violation wins over a title
    violation; and an error whose code is set and is not [23505] is never
    taken for a duplicate, whatever its text says. *)
Theorem map_postgrest_error_classes :
  forall e : APIError,
    is_RepositoryError (_map_postgrest_error e) = true
    /\ (_is_topic_unique_error e = true ->
        _map_postgrest_error e
        = mk_exn DuplicateTopicError "A paper already exists for this topic.")
    /\ (_is_topic_unique_error e = false -> _is_title_unique_error e = true ->
        _map_postgrest_error e
        = mk_exn DuplicateTitleError "A paper already exists with this title.")
    /\ (forall code, api_code e = Some code -> String.eqb code "23505" = false ->
        exn_cls (_map_postgrest_error e) = RepositoryError).
Proof.
  intros e. unfold _map_postgrest_error.
  repeat split.
  - destruct (_is_topic_unique_error e); [reflexivity|].
    destruct (_is_title_unique_error e); [reflexivity|].
    destruct (nonempty (api_message e)); [reflexivity|].
    destruct (nonempty (api_details e)); reflexivity.
  - now intros ->.
  - now intros -> ->.
  - intros code Hcode Hne.
    unfold _is_topic_unique_error, _is_title_unique_error, code_allows_unique.
    rewrite Hcode, Hne. simpl.
    destruct (nonempty (api_message e)); [reflexivity|].
    destruct (nonempty (api_details e)); reflexivity.
Qed.

(** A [23505] violation of [papers_title_unique] is a [DuplicateTitleError];
    the same text under a foreign-key code is a plain [RepositoryError]. *)
Lemma map_postgrest_error_classes_witness :
  _map_postgrest_error title_conflict
  = mk_exn DuplicateTitleError "A paper already exists with this title."
  /\ exn_cls (_map_postgrest_error
                (mk_api_error (Some "23503") (api_message title_conflict) None None "APIError"))
     = RepositoryError.
Proof.
  split.
  - apply (map_postgrest_error_classes title_conflict); reflexivity.
  - apply (map_postgrest_error_classes
             (mk_api_error (Some "23503") (api_message title_conflict) None None "APIError")
          ) with (code := "23503"); reflexivity.
Defined.

(** ** Placeholder inserts *)

(** [create_pdf_placeholder] draws one id and journals one call; it leaves
    the rows of the table as they are and adds at most one.  When no row is
    added the call raised a [RepositoryError]; when it returns, the row that
    was added is the one it returns as a record, and under a configured state
    column that record is a placeholder: [PdfNotAvailable], no attempts, the
    given title, level, parent and seed number, and [pending://<id>] as its
    PDF reference. *)
Theorem create_pdf_placeholder_adds_at_most_one_row :
  forall (rt : Runtime) (repository : PaperRepository) (title_ parent_id_ : string)
         (level_ : Z) (seed_number_ : option Z) (metadata_ : option dict) (w : world),
    let run := create_pdf_placeholder rt repository title_ parent_id_ level_
                 seed_number_ metadata_ w in
    uuids (snd run) = S (uuids w)
    /\ journal (snd run) = journal w ++ [CallCreatePlaceholder title_]
    /\ ((papers (snd run) = papers w
         /\ exists e, fst run = Raise e /\ is_RepositoryError e = true)
        \/ (exists row,
              papers (snd run) = papers w ++ [row]
              /\ fst run = _to_record repository row
              /\ (configured repository ->
                  forall p, fst run = Ok p ->
                    id p = uuid4 rt (uuids w)
                    /\ title p = title_
                    /\ state p = PDF_NOT_AVAILABLE
                    /\ attempts p = 0%Z
                    /\ level p = level_
                    /\ parent_id p = Some parent_id_
                    /\ seed_number p = seed_number_
                    /\ pdf_ref p = Some (mk_ref ("pending://" ++ uuid4 rt (uuids w)))))).
Proof.
  intros rt repository title_ parent_id_ level_ seed_number_ metadata_ w. cbv zeta.
  unfold create_pdf_placeholder, bind, record_call, new_uuid, _execute, lift.
  match goal with
  | |- context [_execute_from ?n ?a (insert_builder rt ?payload) ?w0] =>
      set (pl := payload) in *; set (w1 := w0) in *;
      destruct (_execute_from n a (insert_builder rt pl) w1) as [r w2] eqn:E
  end.
  apply execute_insert_cases in E.
  destruct E as [[-> ->]|(e & -> & He & ->)]; cbn [fst snd _single].
  - repeat split. right. eexists. split; [reflexivity|]. split.
    { destruct (_to_record repository _); reflexivity. }
    intros Hconf p Hp.
    assert (Hrec : _to_record repository
                     (set "created_at" (VStr (now_iso rt (clock w1))) pl) = Ok p).
    { destruct (_to_record repository _); simpl in Hp; congruence. }
    clear Hp. destruct repository as [sc].
    destruct Hconf as [Hc|Hc]; simpl in Hc; subst sc; subst pl;
      destruct seed_number_; cbv in Hrec; injection Hrec as <-; repeat split.
  - repeat split. left. split; [reflexivity|]. exists e. auto.
Qed.

(** An accepted insert returns the placeholder it stored. *)
Lemma create_pdf_placeholder_adds_at_most_one_row_witness :
  let run := create_pdf_placeholder example_runtime default_repository "T" "a" 2 None None
               (example_world []) in
  exists p,
    fst run = Ok p
    /\ id p = uuid4 example_runtime 0
    /\ title p = "T"
    /\ state p = PDF_NOT_AVAILABLE
    /\ attempts p = 0%Z
    /\ level p = 2%Z
    /\ parent_id p = Some "a"
    /\ seed_number p = None
    /\ pdf_ref p = Some (mk_ref ("pending://" ++ uuid4 example_runtime 0)).
Proof.
  intros run.
  destruct (create_pdf_placeholder_adds_at_most_one_row example_runtime default_repository
              "T" "a" 2 None None (example_world []))
    as (_ & _ & [(_ & e & He & _)|(row & _ & _ & Hfields)]).
  - vm_compute in He. discriminate.
  - assert (Hrun : exists p, fst run = Ok p) by (vm_compute; eauto).
    destruct Hrun as (p & Hp). exists p. split; [exact Hp|].
    apply Hfields; [left; reflexivity|exact Hp].
Defined.

(** ** Charging an attempt *)

(** [increment_attempts] writes the caller's count plus one (one when the
    caller gives none), whatever count the stored row holds, stamps the
    update time, and changes nothing else: the record keeps its state and its
    other fields, and rows with another id are untouched. *)
Theorem increment_attempts_writes_callers_count_plus_one :
  forall (rt : Runtime) (repository : PaperRepository) (pid : string)
         (current : option Z) (w : world) (p0 : PaperRecord),
    configured repository ->
    stored repository pid w = Some p0 ->
    let run := increment_attempts rt repository pid current w in
    exists p',
      fst run = Ok p'
      /\ stored repository pid (snd run) = Some p'
      /\ attempts p' = (match current with Some a => a | None => 0 end + 1)%Z
      /\ updated_at p' = Some (now_iso rt (clock w))
      /\ id p' = id p0 /\ title p' = title p0 /\ state p' = state p0
      /\ level p' = level p0 /\ pdf_ref p' = pdf_ref p0 /\ text_ref p' = text_ref p0
      /\ score p' = score p0 /\ reason p' = reason p0 /\ metadata p' = metadata p0
      /\ Forall2 (fun old new => col_is_str "id" pid old = false -> new = old)
           (papers w) (papers (snd run)).
Proof.
  intros rt repository pid current w p0 Hconf Hst run.
  set (base := match current with Some a => a | None => 0%Z end).
  assert (Hrun : run = increment_attempts rt repository pid (Some base) w)
    by (destruct current; reflexivity).
  destruct (increment_attempts_stored rt repository Hconf pid base w p0 Hst)
    as [Hcall Hst'].
  rewrite Hrun, Hcall. cbn [fst snd].
  exists (charged (base + 1) (now_iso rt (clock w)) p0).
  repeat split; auto.
  unfold after_increment, rows_after. cbn [papers with_papers].
  induction (papers w) as [|row t IH]; simpl; constructor; auto.
  intros Hmiss. now rewrite Hmiss.
Qed.

(** A record stored with five attempts, charged by a caller that read none. *)
Lemma increment_attempts_writes_callers_count_plus_one_witness :
  let run := increment_attempts example_runtime default_repository "a" (Some 0%Z)
               (example_world [example_row "a" "A" "PDF Available" 1 5]) in
  exists p',
    fst run = Ok p'
    /\ stored default_repository "a" (snd run) = Some p'
    /\ attempts p' = 1%Z
    /\ state p' = PDF_AVAILABLE.
Proof.
  intros run.
  destruct (increment_attempts_writes_callers_count_plus_one example_runtime
              default_repository "a" (Some 0%Z)
              (example_world [example_row "a" "A" "PDF Available" 1 5])
              (example_paper "a" "A" PDF_AVAILABLE 1 5))
    as (p' & Hrun & Hst & Hatt & _ & _ & _ & Hstate & _).
  - left; reflexivity.
  - reflexivity.
  - exists p'. repeat split; auto.
Defined.

(** ** Reading by state *)

Lemma key_cmp_antisym {A} (cmp : A -> A -> comparison) :
  (forall x y, cmp y x = CompOpp (cmp x y)) ->
  forall a b, key_cmp cmp b a = CompOpp (key_cmp cmp a b).
Proof. intros H [x|] [y|]; simpl; auto. Qed.

Lemma by_level_created_total r1 r2 :
  by_level_created r1 r2 = false -> by_level_created r2 r1 = true.
Proof.
  unfold by_level_created.
  rewrite (key_cmp_antisym Z.compare Z.compare_antisym (int_key "level" r1)).
  rewrite (key_cmp_antisym String.compare
             (fun x y => String.compare_antisym y x) (str_key "created_at" r1)).
  destruct (key_cmp Z.compare (int_key "level" r1) (int_key "level" r2));
    destruct (key_cmp String.compare (str_key "created_at" r1) (str_key "created_at" r2));
    simpl; congruence.
Qed.

Lemma insert_sorted_ascend le r l :
  (forall a b, le a b = false -> le b a = true) ->
  rows_ascend le l -> rows_ascend le (insert_sorted le r l).
Proof.
  intros Htotal. induction l as [|x t IH]; intros Hl; simpl; auto.
  destruct (le r x) eqn:E.
  - simpl. auto.
  - destruct Hl as [Hhead Htail]. specialize (IH Htail).
    split; [|exact IH].
    destruct t as [|y t']; simpl.
    + now apply Htotal.
    + destruct (le r y); [now apply Htotal|exact Hhead].
Qed.

Lemma order_rows_ascend le l :
  (forall a b, le a b = false -> le b a = true) -> rows_ascend le (order_rows le l).
Proof.
  intros Htotal. unfold order_rows.
  induction l as [|x t IH]; simpl; auto using insert_sorted_ascend.
Qed.

Lemma firstn_ascend le n l : rows_ascend le l -> rows_ascend le (firstn n l).
Proof.
  revert l. induction n as [|n IH]; intros [|a t]; simpl; auto.
  intros [Hhead Htail]. split; [|now apply IH].
  destruct t as [|b t']; [now destruct n|]. destruct n; simpl; auto.
Qed.

Lemma to_record_level repository row p z :
  _to_record repository row = Ok p -> get "level" row = Some (VInt z) -> level p = z.
Proof.
  intros H Hz. apply to_record_inv in H.
  destruct H as (_ & _ & _ & Hl & _). rewrite Hz in Hl. unfold level_of in Hl. congruence.
Qed.

Lemma to_record_state repository row p st :
  _to_record repository row = Ok p ->
  col_is_str (_state_column repository) (state_value st) row = true ->
  state p = st.
Proof.
  intros H Hst. apply to_record_inv in H.
  destruct H as (_ & _ & Hs & _). unfold col_is_str in Hst.
  unfold state_cell, get_or_none in Hs.
  destruct (get (_state_column repository) row) as [[| | | |s|]|]; try discriminate.
  apply String.eqb_eq in Hst. subst s. rewrite PaperState_of_value in Hs. congruence.
Qed.

Lemma by_level_created_levels r1 r2 z1 z2 :
  by_level_created r1 r2 = true ->
  get "level" r1 = Some (VInt z1) -> get "level" r2 = Some (VInt z2) -> (z1 <= z2)%Z.
Proof.
  unfold by_level_created, int_key. intros H E1 E2. rewrite E1, E2 in H. simpl in H.
  destruct (Z.compare z1 z2) eqn:E; try discriminate.
  - apply Z.compare_eq in E. lia.
  - unfold Z.le. rewrite E. discriminate.
Qed.

Lemma records_ascend repository rows fetched :
  Forall2 (fun row p => _to_record repository row = Ok p) rows fetched ->
  forallb has_level rows = true ->
  rows_ascend by_level_created rows ->
  levels_ascend fetched.
Proof.
  induction 1 as [|row p rows fetched Hrp Hall IH]; simpl; auto.
  intros Hlev [Hhead Htail]. apply andb_prop in Hlev. destruct Hlev as [Hl Hls].
  split; [|now apply IH].
  destruct Hall as [|row2 p2 rows2 fetched2 Hrp2 _]; auto.
  simpl in Hls. apply andb_prop in Hls. destruct Hls as [Hl2 _].
  unfold has_level in Hl, Hl2.
  destruct (get "level" row) as [[| |z1| | |]|] eqn:E1; try discriminate.
  destruct (get "level" row2) as [[| |z2| | |]|] eqn:E2; try discriminate.
  rewrite (to_record_level _ _ _ _ Hrp E1), (to_record_level _ _ _ _ Hrp2 E2).
  eapply by_level_created_levels; eauto.
Qed.

Lemma map_result_inv {A B} (f : A -> result B) l bs :
  map_result f l = Ok bs -> Forall2 (fun a b => f a = Ok b) l bs.
Proof.
  revert bs. induction l as [|a l IH]; simpl; intros bs H.
  - injection H as <-. constructor.
  - destruct (f a) eqn:Ea; try discriminate.
    destruct (map_result f l); try discriminate.
    injection H as <-. constructor; auto.
Qed.

Lemma forallb_sub {A} (g : A -> bool) l l' :
  (forall x, In x l' -> In x l) -> forallb g l = true -> forallb g l' = true.
Proof.
  intros Hsub H. apply forallb_forall. intros x Hx.
  rewrite forallb_forall in H. auto.
Qed.

(** What [fetch_by_state] answers when it returns: it changes no row; it
    returns as many records as there are rows in the state, up to [limit];
    each record is the reading of a stored row and is in the requested
    state; and, on a table whose rows all carry an integer level, the
    records come with the lowest levels first. *)
Theorem fetch_by_state_answers_the_state_in_level_order :
  forall (repository : PaperRepository) (st : PaperState) (limit : Z)
         (w w' : world) (fetched : list PaperRecord),
    fetch_by_state repository st limit w = (Ok fetched, w') ->
    papers w' = papers w
    /\ length fetched = Nat.min (Z.to_nat limit) (count_state repository st (papers w))
    /\ (forall p, In p fetched ->
          state p = st
          /\ exists row, In row (papers w) /\ _to_record repository row = Ok p)
    /\ (forallb has_level (papers w) = true -> levels_ascend fetched).
Proof.
  intros repository st limit w w' fetched.
  unfold fetch_by_state, bind, record_call, db_select, lift. cbn [papers with_journal].
  set (hit := col_is_str (_state_column repository) (state_value st)).
  set (rows := limit_rows limit (order_rows by_level_created (filter hit (papers w)))).
  intros H. injection H as Hmap <-. apply map_result_inv in Hmap.
  assert (Hsub : forall row, In row rows -> In row (filter hit (papers w))).
  { intros row Hin. unfold rows, limit_rows in Hin.
    apply firstn_in in Hin. now apply order_rows_in in Hin. }
  split; [reflexivity|]. split.
  { rewrite <- (Forall2_length Hmap). unfold rows, limit_rows.
    now rewrite length_firstn, order_rows_length. }
  split.
  - intros p Hin. destruct (Forall2_in_right _ _ _ _ Hmap Hin) as (row & Hrow & Hrec).
    apply Hsub, filter_In in Hrow. destruct Hrow as [Hrow Hhit].
    split; [eapply to_record_state; eauto|eauto].
  - intros Hlev. apply (records_ascend repository rows); auto.
    + apply (forallb_sub has_level (papers w)); auto.
      intros row Hin. apply Hsub, filter_In in Hin. tauto.
    + unfold rows, limit_rows. apply firstn_ascend, order_rows_ascend.
      apply by_level_created_total.
Qed.

(** Two of the three [Scored] rows, the ones on level 1, before level 2. *)
Lemma fetch_by_state_answers_the_state_in_level_order_witness :
  exists fetched,
    fst (fetch_by_state default_repository SCORED 2 mixed_levels) = Ok fetched
    /\ map id fetched = ["b"; "d"]
    /\ length fetched = 2%nat
    /\ (forall p, In p fetched -> state p = SCORED)
    /\ levels_ascend fetched.
Proof.
  destruct (fetch_by_state default_repository SCORED 2 mixed_levels) as [[fetched|e] w']
    eqn:E; [|vm_compute in E; discriminate].
  exists fetched. split; [reflexivity|]. split.
  { vm_compute in E. injection E as <- _. reflexivity. }
  destruct (fetch_by_state_answers_the_state_in_level_order
              default_repository SCORED 2 mixed_levels w' fetched E)
    as (_ & Hlen & Hstate & Hlevels).
  split; [exact Hlen|]. split.
  - intros p Hin. exact (proj1 (Hstate p Hin)).
  - apply Hlevels. reflexivity.
Defined.

(** ** Reading one record *)

Lemma order_rows_any l : order_rows (fun _ _ => true) l = l.
Proof.
  unfold order_rows. induction l as [|a t IH]; simpl; auto.
  rewrite IH. now destruct t.
Qed.

Lemma single_first_hit (hit : dict -> bool) l :
  _single (limit_rows 1 (filter hit l))
  = match find hit l with
    | Some row => Ok row
    | None => Raise (mk_exn RepositoryError "Supabase returned no rows for mutation")
    end.
Proof.
  induction l as [|a t IH]; simpl; auto.
  destruct (hit a); simpl; auto.
Qed.

Lemma fetch_by_id_run repository pid w :
  fetch_by_id repository pid w
  = (match find_row pid w with
     | Some row => _to_record repository row
     | None => Raise (mk_exn RepositoryError "Supabase returned no rows for mutation")
     end, w).
Proof.
  unfold fetch_by_id, bind, db_select, lift, find_row.
  rewrite order_rows_any, single_first_hit.
  destruct (find (col_is_str "id" pid) (papers w)); reflexivity.
Qed.

(** [fetch_by_id] changes nothing; it returns the reading of the first row
    with that id, and raises [RepositoryError] when there is none. *)
Theorem fetch_by_id_reads_the_stored_record :
  forall (repository : PaperRepository) (pid : string) (w : world),
    snd (fetch_by_id repository pid w) = w
    /\ (forall p, fst (fetch_by_id repository pid w) = Ok p
                  <-> stored repository pid w = Some p)
    /\ (find_row pid w = None ->
        fst (fetch_by_id repository pid w)
        = Raise (mk_exn RepositoryError "Supabase returned no rows for mutation")).
Proof.
  intros repository pid w. rewrite fetch_by_id_run. cbn [fst snd]. unfold stored.
  split; [reflexivity|]. split.
  - intros p. destruct (find_row pid w) as [row|].
    + destruct (_to_record repository row); split; congruence.
    + split; discriminate.
  - now intros ->.
Qed.

Lemma get_rev_none {A} k (d : list (string * A)) : get k d = None -> get k (rev d) = None.
Proof.
  induction d as [|[k' v'] d IH]; simpl; auto.
  destruct (String.eqb k k') eqn:E; [discriminate|].
  intros H. rewrite get_app, (IH H). simpl. now rewrite E.
Qed.

Lemma get_filter_none {A} k (g : string * A -> bool) (d : list (string * A)) :
  get k d = None -> get k (filter g d) = None.
Proof.
  induction d as [|[k' v'] d IH]; simpl; auto.
  destruct (String.eqb k k') eqn:E; [discriminate|].
  intros H. destruct (g (k', v')); simpl; auto. rewrite E. auto.
Qed.

(** An update that does not name the id keeps it. *)
Lemma update_state_values_keep_id repository st updates now row :
  configured repository ->
  (forall u, updates = Some u -> get "id" u = None) ->
  get "id" (update row (update_state_values repository st updates now)) = get "id" row.
Proof.
  intros Hconf Hfree. rewrite get_update.
  assert (Hnone : get "id" (update_state_values repository st updates now) = None).
  { assert (Hbase : get "id"
              (set "updated_at" (VStr now)
                 (set "attempts" (VInt 0)
                    (set (_state_column repository) (VStr (state_value st)) [])))
            = None).
    { rewrite !get_set. simpl.
      destruct repository as [sc]. destruct Hconf as [Hc|Hc]; simpl in Hc; subst sc;
        reflexivity. }
    unfold update_state_values. destruct updates as [[|kv u]|]; auto.
    rewrite get_update, Hbase.
    rewrite get_rev_none; auto. apply get_filter_none. now apply Hfree. }
  now rewrite (get_rev_none _ _ Hnone).
Qed.

(** Read your writes: when [update_state] returns a record, [fetch_by_id]
    on the same id returns that record, provided the updates do not rename
    the id. *)
Theorem update_state_then_fetch_by_id :
  forall (rt : Runtime) (repository : PaperRepository) (pid : string)
         (st : PaperState) (updates : option dict) (w : world) (p : PaperRecord),
    configured repository ->
    (forall u, updates = Some u -> get "id" u = None) ->
    fst (update_state rt repository pid st updates w) = Ok p ->
    fetch_by_id repository pid (snd (update_state rt repository pid st updates w))
    = (Ok p, snd (update_state rt repository pid st updates w)).
Proof.
  intros rt repository pid st updates w p Hconf Hfree.
  rewrite update_state_run. cbn [fst snd]. intros Hrun.
  set (values := update_state_values repository st updates (now_iso rt (clock w))) in *.
  rewrite fetch_by_id_run. unfold find_row, after_update_state. cbn [papers with_papers].
  fold values.
  destruct (find (col_is_str "id" pid) (papers w)) as [row|] eqn:Hfind.
  - assert (Hhit : filter (col_is_str "id" pid) (papers w) <> []).
    { intros Hnil. apply find_some in Hfind. destruct Hfind as [Hin Hh].
      assert (Hin' : In row (filter (col_is_str "id" pid) (papers w)))
        by (apply filter_In; auto).
      rewrite Hnil in Hin'. destruct Hin'. }
    assert (Hfirst : _single (map (fun r => update r values)
                                (filter (col_is_str "id" pid) (papers w)))
                     = Ok (update row values)).
    { clear Hrun Hhit. revert Hfind.
      induction (papers w) as [|a t IH]; simpl; [discriminate|].
      destruct (col_is_str "id" pid a); simpl; auto.
      intros Hfind. now injection Hfind as ->. }
    rewrite Hfirst in Hrun. cbn [rbind] in Hrun.
    assert (Hfind' : find (col_is_str "id" pid) (rows_after values pid (papers w))
                     = Some (update row values)).
    { apply (find_patch (fun r => update r values) pid); auto.
      intros r. now apply update_state_values_keep_id. }
    now rewrite Hfind', Hrun.
  - assert (Hnil : filter (col_is_str "id" pid) (papers w) = []).
    { clear Hrun. revert Hfind. induction (papers w) as [|a t IH]; simpl; auto.
      destruct (col_is_str "id" pid a); [discriminate|auto]. }
    rewrite Hnil in Hrun. discriminate.
Qed.

(** A record moved to [Text Available] is read back as it was returned. *)
Lemma update_state_then_fetch_by_id_witness :
  let w := example_world [example_row "a" "A" "PDF Available" 1 2] in
  let run := update_state example_runtime default_repository "a" TEXT_AVAILABLE
               (Some [("text_uri", VStr "storage://texts/a")]) w in
  exists p,
    fst run = Ok p /\ fetch_by_id default_repository "a" (snd run) = (Ok p, snd run).
Proof.
  intros w run.
  assert (Hrun : exists p, fst run = Ok p) by (vm_compute; eauto).
  destruct Hrun as (p & Hp). exists p. split; [exact Hp|].
  apply (update_state_then_fetch_by_id example_runtime default_repository "a"
           TEXT_AVAILABLE (Some [("text_uri", VStr "storage://texts/a")]) w p).
  - left; reflexivity.
  - intros u Hu. injection Hu as <-. reflexivity.
  - exact Hp.
Defined.

(** ** The state column and its fallback *)

(** With a state column other than [status], a row whose state cell is null
    is read with the state of its [status] column; no query by state on that
    repository finds the row, whatever the state asked for.  With the
    [status] column itself there is no fallback: a null state does not
    convert. *)
Theorem to_record_falls_back_to_status :
  forall (repository : PaperRepository) (row : dict),
    get_or_none (_state_column repository) row = VNone ->
    (forall st, col_is_str (_state_column repository) (state_value st) row = false)
    /\ (_state_column repository <> "status" ->
        forall p st,
          get "status" row = Some (VStr (state_value st)) ->
          _to_record repository row = Ok p -> state p = st)
    /\ (_state_column repository = "status" ->
        exists e, _to_record repository row = Raise e).
Proof.
  intros repository row Hnull. split; [|split].
  - intros st. unfold col_is_str. unfold get_or_none in Hnull.
    destruct (get (_state_column repository) row) as [[| | | | |]|]; try discriminate;
      reflexivity.
  - intros Hne p st Hstatus Hrec. apply to_record_inv in Hrec.
    destruct Hrec as (_ & _ & Hs & _). unfold state_cell in Hs. rewrite Hnull in Hs.
    destruct (String.eqb (_state_column repository) "status") eqn:E.
    + apply String.eqb_eq in E. contradiction.
    + simpl in Hs. unfold get_or_none in Hs. rewrite Hstatus, PaperState_of_value in Hs.
      congruence.
  - intros Hsc. destruct (_to_record repository row) as [p|e] eqn:Hrec; [|eauto].
    apply to_record_inv in Hrec. destruct Hrec as (_ & _ & Hs & _).
    unfold state_cell in Hs. rewrite Hnull, Hsc in Hs. simpl in Hs. discriminate.
Qed.

(** A [papers] row in [P1] seen through the [gstatus] column. *)
Lemma to_record_falls_back_to_status_witness :
  let repository := mk_repository "gstatus" in
  let row := example_row "a" "A" "P1" 1 0 in
  col_is_str "gstatus" (state_value P1) row = false
  /\ exists p, _to_record repository row = Ok p /\ state p = P1.
Proof.
  intros repository row.
  destruct (to_record_falls_back_to_status repository row) as (Hmiss & Hread & _);
    [reflexivity|].
  split; [exact (Hmiss P1)|].
  assert (Hrec : exists p, _to_record repository row = Ok p) by (vm_compute; eauto).
  destruct Hrec as (p & Hp). exists p. split; [exact Hp|].
  apply (Hread ltac:(discriminate) p P1); [reflexivity|exact Hp].
Defined.

(** ** The other branches of [fetch_pdf] *)

Section AcquisitionFacts.
Variable rt : Runtime.
Variable repository : PaperRepository.
Hypothesis Hconf : configured repository.

Lemma to_record_acquired row p st now u h m :
  _to_record repository row = Ok p ->
  _to_record repository
    (update row (update_state_values repository st
                   (Some [("source_uri", VStr u); ("metadata", VDict m);
                          ("pdf_md5", VStr h)]) now))
  = Ok (with_pdf u h m (stamped st now p)).
Proof.
  intros H. destruct repository as [sc]. destruct Hconf as [Hc|Hc]; simpl in Hc; subst sc;
    updated_record H; rewrite metadata_of_dict; reflexivity.
Qed.

Lemma to_record_text row p st now u :
  _to_record repository row = Ok p ->
  _to_record repository
    (update row (update_state_values repository st (Some [("text_uri", VStr u)]) now))
  = Ok (with_text u (stamped st now p)).
Proof.
  intros H. destruct repository as [sc]. destruct Hconf as [Hc|Hc]; simpl in Hc; subst sc;
    updated_record H.
Qed.

Lemma update_state_acquired pid st u h m w p0 :
  stored repository pid w = Some p0 ->
  let updates := Some [("source_uri", VStr u); ("metadata", VDict m);
                       ("pdf_md5", VStr h)] in
  update_state rt repository pid st updates w
  = (Ok (with_pdf u h m (stamped st (now_iso rt (clock w)) p0)),
     after_update_state rt repository pid st updates w)
  /\ stored repository pid (after_update_state rt repository pid st updates w)
     = Some (with_pdf u h m (stamped st (now_iso rt (clock w)) p0)).
Proof.
  intros Hst updates.
  apply (update_state_stored rt repository pid st updates w p0
           (fun now p => with_pdf u h m (stamped st now p))); auto.
  intros row p now Hp. now apply to_record_acquired.
Qed.

Lemma save_text_reference_stored pid u w p0 :
  stored repository pid w = Some p0 ->
  let updates := Some [("text_uri", VStr u)] in
  save_text_reference rt repository pid u w
  = (Ok (with_text u (stamped TEXT_AVAILABLE (now_iso rt (clock w)) p0)),
     after_update_state rt repository pid TEXT_AVAILABLE updates w)
  /\ stored repository pid (after_update_state rt repository pid TEXT_AVAILABLE updates w)
     = Some (with_text u (stamped TEXT_AVAILABLE (now_iso rt (clock w)) p0)).
Proof.
  intros Hst updates. unfold save_text_reference.
  apply (update_state_stored rt repository pid TEXT_AVAILABLE updates w p0
           (fun now p => with_text u (stamped TEXT_AVAILABLE now p))); auto.
  intros row p now Hp. now apply to_record_text.
Qed.

End AcquisitionFacts.

(** A record that is over the attempt budget and names no blocked host:
    [fetch_pdf] moves it to [Failed] with the reason "exceeded PDF
    acquisition attempts" and returns "exceeded attempt limit"; the only call
    it journals is that [update_state], so the fetcher is never asked. *)
Theorem fetch_pdf_over_budget_fails_without_fetching :
  forall (rt : Runtime) (paper : PaperRecord) (repository : PaperRepository)
         (storage : StorageGateway) (fetcher : PdfFetcher) (w : world)
         (p0 : PaperRecord),
    configured repository ->
    stored repository (id paper) w = Some p0 ->
    _blocked_source_url rt paper = Ok None ->
    (MAX_PROCESSING_ATTEMPTS < attempts paper)%Z ->
    exists w' p',
      fetch_pdf rt paper repository storage fetcher w
      = (Ok (mk_outcome (id paper) "pdf_acquisition" false "exceeded attempt limit" []), w')
      /\ stored repository (id paper) w' = Some p'
      /\ state p' = FAILED
      /\ reason p' = Some "exceeded PDF acquisition attempts"
      /\ attempts p' = 0%Z
      /\ journal w' = journal w ++ [CallUpdateState (id paper) FAILED].
Proof.
  intros rt paper repository storage fetcher w p0 Hconf Hst Hblocked Hover.
  destruct (update_state_reason rt repository Hconf (id paper) FAILED
              "exceeded PDF acquisition attempts" w p0 Hst) as [Hrun Hstored].
  unfold fetch_pdf, bind, lift, ret. rewrite Hblocked.
  assert ((attempts paper >? MAX_PROCESSING_ATTEMPTS)%Z = true) as ->
    by (rewrite Z.gtb_ltb; apply Z.ltb_lt; lia).
  rewrite Hrun. do 2 eexists. split; [reflexivity|]. split; [exact Hstored|].
  repeat split.
Qed.

(** A record on its third attempt. *)
Lemma fetch_pdf_over_budget_fails_without_fetching_witness :
  let paper := example_paper "a" "Some title" PDF_NOT_AVAILABLE 1 3 in
  let w := example_world [example_row "a" "Some title" "PDF Not Available" 1 3] in
  exists w' p',
    fetch_pdf example_runtime paper default_repository keeping_storage finding_fetcher w
    = (Ok (mk_outcome "a" "pdf_acquisition" false "exceeded attempt limit" []), w')
    /\ stored default_repository "a" w' = Some p'
    /\ state p' = FAILED
    /\ reason p' = Some "exceeded PDF acquisition attempts"
    /\ attempts p' = 0%Z
    /\ journal w' = journal w ++ [CallUpdateState "a" FAILED].
Proof.
  intros paper w.
  apply (fetch_pdf_over_budget_fails_without_fetching example_runtime paper
           default_repository keeping_storage finding_fetcher w paper).
  - left; reflexivity.
  - reflexivity.
  - reflexivity.
  - vm_compute. reflexivity.
Defined.

(** A candidate that is found and stored: the record becomes [PDF
    Available] with the stored reference, the MD5 of the content, no
    attempts, and the metadata of the record that was passed in with the
    source URL under [acquisition]; the outcome reports the URL and the
    checksum. *)
Theorem fetch_pdf_stores_the_candidate :
  forall (rt : Runtime) (paper : PaperRecord) (repository : PaperRepository)
         (storage : StorageGateway) (fetcher : PdfFetcher) (w : world)
         (p0 : PaperRecord) (candidate : PdfCandidate) (ref : StorageRef),
    configured repository ->
    stored repository (id paper) w = Some p0 ->
    _blocked_source_url rt paper = Ok None ->
    (attempts paper <= MAX_PROCESSING_ATTEMPTS)%Z ->
    fetch fetcher paper = Ok (Some candidate) ->
    store_pdf storage (id paper) (filename candidate) (content candidate) = Ok ref ->
    exists w' p',
      fetch_pdf rt paper repository storage fetcher w
      = (Ok (mk_outcome (id paper) "pdf_acquisition" true "pdf stored"
               [("source_url", VStr (source_url candidate));
                ("pdf_md5", VStr (md5_hexdigest rt (content candidate)))]), w')
      /\ stored repository (id paper) w' = Some p'
      /\ state p' = PDF_AVAILABLE
      /\ attempts p' = 0%Z
      /\ pdf_ref p' = ref_of (uri ref)
      /\ pdf_md5 p' = Some (md5_hexdigest rt (content candidate))
      /\ metadata p'
         = set "acquisition" (VDict [("source_url", VStr (source_url candidate))])
             (metadata paper)
      /\ journal w'
         = journal w ++ [CallFetcher (id paper); CallUpdateState (id paper) PDF_AVAILABLE].
Proof.
  intros rt paper repository storage fetcher w p0 candidate ref
    Hconf Hst Hblocked Hatt Hfetch Hstore.
  set (w1 := with_journal (journal w ++ [CallFetcher (id paper)]) w).
  assert (Hst1 : stored repository (id paper) w1 = Some p0) by exact Hst.
  destruct (update_state_acquired rt repository Hconf (id paper) PDF_AVAILABLE
              (uri ref) (md5_hexdigest rt (content candidate))
              (set "acquisition" (VDict [("source_url", VStr (source_url candidate))])
                 (metadata paper)) w1 p0 Hst1) as [Hrun Hstored].
  unfold fetch_pdf, bind, lift, ret, try_except, record_call. rewrite Hblocked.
  assert ((attempts paper >? MAX_PROCESSING_ATTEMPTS)%Z = false) as ->
    by (rewrite Z.gtb_ltb; apply Z.ltb_ge; lia).
  rewrite Hfetch, Hstore. fold w1.
  match goal with
  | |- context [update_state ?a ?b ?c ?d ?e ?f] =>
      destruct (update_state a b c d e f) as [r1 w2] eqn:Hu
  end.
  first [ injection Hrun as -> ->
        | pose proof (eq_trans (eq_sym Hu) Hrun) as Heq; injection Heq as -> -> ].
  do 2 eexists. split; [reflexivity|]. split; [exact Hstored|].
  repeat split. simpl. now rewrite <- app_assoc.
Qed.

(** A placeholder whose PDF is found at the first attempt. *)
Lemma fetch_pdf_stores_the_candidate_witness :
  let paper := example_paper "a" "Some title" PDF_NOT_AVAILABLE 1 1 in
  let w := example_world [example_row "a" "Some title" "PDF Not Available" 1 1] in
  exists w' p',
    fetch_pdf example_runtime paper default_repository keeping_storage finding_fetcher w
    = (Ok (mk_outcome "a" "pdf_acquisition" true "pdf stored"
             [("source_url", VStr "https://example.org/paper.pdf");
              ("pdf_md5", VStr (md5_hexdigest example_runtime "%PDF-1.7"))]), w')
    /\ stored default_repository "a" w' = Some p'
    /\ state p' = PDF_AVAILABLE
    /\ attempts p' = 0%Z
    /\ pdf_ref p' = Some (mk_ref "storage://pdfs/a/paper.pdf")
    /\ pdf_md5 p' = Some (md5_hexdigest example_runtime "%PDF-1.7")
    /\ metadata p'
       = [("acquisition", VDict [("source_url", VStr "https://example.org/paper.pdf")])]
    /\ journal w' = journal w ++ [CallFetcher "a"; CallUpdateState "a" PDF_AVAILABLE].
Proof.
  intros paper w.
  apply (fetch_pdf_stores_the_candidate example_runtime paper default_repository
           keeping_storage finding_fetcher w paper found_pdf
           (mk_ref "storage://pdfs/a/paper.pdf")).
  - left; reflexivity.
  - reflexivity.
  - reflexivity.
  - vm_compute. discriminate.
  - reflexivity.
  - reflexivity.
Defined.

(** The failures of the fetcher and of the storage are soft: when the
    fetcher raises, whatever it raises, [fetch_pdf] returns "fetch error"
    with the text of the exception; when the storage raises a
    [StorageError] it returns "storage error"; any other exception of the
    storage propagates.  In the three cases the only entry journaled is the
    fetcher call, and the rows are as they were. *)
Theorem fetch_pdf_soft_failures_leave_the_store :
  forall (rt : Runtime) (paper : PaperRecord) (repository : PaperRepository)
         (storage : StorageGateway) (fetcher : PdfFetcher) (w : world),
    _blocked_source_url rt paper = Ok None ->
    (attempts paper <= MAX_PROCESSING_ATTEMPTS)%Z ->
    let w' := with_journal (journal w ++ [CallFetcher (id paper)]) w in
    (forall exc,
        fetch fetcher paper = Raise exc ->
        fetch_pdf rt paper repository storage fetcher w
        = (Ok (mk_outcome (id paper) "pdf_acquisition" false "fetch error"
                 [("error", VStr (exn_str exc))]), w'))
    /\ (forall candidate exc,
          fetch fetcher paper = Ok (Some candidate) ->
          store_pdf storage (id paper) (filename candidate) (content candidate)
          = Raise exc ->
          fetch_pdf rt paper repository storage fetcher w
          = (match exn_cls exc with
             | StorageError =>
                 Ok (mk_outcome (id paper) "pdf_acquisition" false "storage error"
                       [("error", VStr (exn_str exc))])
             | _ => Raise exc
             end, w')).
Proof.
  intros rt paper repository storage fetcher w Hblocked Hatt w'.
  assert (Hle : (attempts paper >? MAX_PROCESSING_ATTEMPTS)%Z = false)
    by (rewrite Z.gtb_ltb; apply Z.ltb_ge; lia).
  split.
  - intros exc Hfetch.
    unfold fetch_pdf, bind, lift, ret, try_except, record_call.
    now rewrite Hblocked, Hle, Hfetch.
  - intros candidate exc Hfetch Hstore.
    unfold fetch_pdf, bind, lift, ret, raise, try_except, record_call.
    rewrite Hblocked, Hle, Hfetch, Hstore.
    destruct (exn_cls exc); reflexivity.
Qed.

(** The storage is down while a PDF was found. *)
Lemma fetch_pdf_soft_failures_leave_the_store_witness :
  let paper := example_paper "a" "Some title" PDF_NOT_AVAILABLE 1 1 in
  let w := example_world [example_row "a" "Some title" "PDF Not Available" 1 1] in
  fetch_pdf example_runtime paper default_repository storage_down finding_fetcher w
  = (Ok (mk_outcome "a" "pdf_acquisition" false "storage error"
           [("error", VStr "storage down")]),
     with_journal (journal w ++ [CallFetcher "a"]) w).
Proof.
  intros paper w.
  apply (fetch_pdf_soft_failures_leave_the_store example_runtime paper default_repository
           storage_down finding_fetcher w ltac:(reflexivity) ltac:(vm_compute; discriminate)
        ) with (candidate := found_pdf) (exc := mk_exn StorageError "storage down");
    reflexivity.
Defined.

(** ** [extract_text] and the placeholders of links *)

(** An accepted placeholder insert, with the metadata it stores. *)
Lemma placeholder_insert_accepted rt repository paper title_ md w :
  configured repository ->
  accepts_all rt ->
  exists p row,
    create_pdf_placeholder rt repository title_ (id paper) (level paper + 1)
      (seed_number paper) (Some md) w
    = (Ok p, after_insert rt title_ row w)
    /\ is_placeholder repository paper row
    /\ row_title row = title_
    /\ get "metadata" row = Some (VDict md).
Proof.
  intros Hconf Hacc. destruct repository as [sc].
  unfold create_pdf_placeholder, bind, record_call, new_uuid, _execute, lift,
    after_insert, is_placeholder, row_title.
  destruct Hconf as [Hc|Hc]; simpl in Hc; subst sc;
    unfold MAX_TRANSIENT_RETRIES; cbn [_execute_from]; unfold insert_builder;
    rewrite Hacc; cbn [_single]; simpl;
    destruct (seed_number paper); simpl;
    do 2 eexists; (split; [reflexivity|]); split; try reflexivity;
    repeat split; reflexivity.
Qed.

(** The loop of [_insert_link_placeholders] when the database accepts every
    insert: one placeholder per link, in order, duplicates included. *)
Lemma insert_link_placeholders_accepted rt repository paper :
  configured repository ->
  accepts_all rt ->
  forall links w,
  exists new w',
    _insert_link_placeholders rt repository paper links w = (Ok tt, w')
    /\ papers w' = papers w ++ new
    /\ Forall2 (is_link_placeholder repository paper) links new.
Proof.
  intros Hconf Hacc. induction links as [|link rest IH]; intros w.
  - exists [], w. simpl. unfold ret. rewrite app_nil_r. auto.
  - cbn [_insert_link_placeholders]. unfold insert_link_placeholder.
    unfold bind at 1. unfold try_except. unfold bind at 1.
    destruct (placeholder_insert_accepted rt repository paper (link_title link)
                [("link", VDict [("url", VStr (link_url link));
                                 ("text", VStr (link_text link));
                                 ("page", VInt (link_page link))])] w Hconf Hacc)
      as (p & row & Hrun & Hrow & Htitle & Hmeta).
    destruct (IH (after_insert rt (link_title link) row w))
      as (new & w' & Hloop & Hpapers & Hall).
    exists (row :: new), w'.
    match goal with
    | |- context [create_pdf_placeholder ?a ?b ?c ?d ?e ?f ?g ?h] =>
        destruct (create_pdf_placeholder a b c d e f g h) as [r0 w0] eqn:Hc
    end.
    pose proof (eq_trans (eq_sym Hc) Hrun) as Heq. injection Heq as -> ->.
    unfold ret. rewrite Hloop. repeat split.
    + rewrite Hpapers. unfold after_insert. simpl. now rewrite <- app_assoc.
    + constructor; auto. repeat split; auto; apply Hrow.
Qed.

(** When the extractor raises an [ExtractionError], [extract_text] moves the
    stored record to [Failed] with the text of the exception as reason and as
    outcome message; any other exception propagates and nothing is
    touched. *)
Theorem extract_text_failure_marks_failed :
  forall (rt : Runtime) (paper : PaperRecord) (repository : PaperRepository)
         (extractor : TextExtractor) (store_links : bool) (w : world)
         (p0 : PaperRecord) (exc : exn),
    configured repository ->
    stored repository (id paper) w = Some p0 ->
    extract_text_of extractor paper = Raise exc ->
    (exn_cls exc = ExtractionError ->
     exists w' p',
       extract_text rt paper repository extractor store_links w
       = (Ok (mk_outcome (id paper) "text_extraction" false (exn_str exc) []), w')
       /\ stored repository (id paper) w' = Some p'
       /\ state p' = FAILED
       /\ reason p' = Some (exn_str exc)
       /\ journal w' = journal w ++ [CallUpdateState (id paper) FAILED])
    /\ (exn_cls exc <> ExtractionError ->
        extract_text rt paper repository extractor store_links w = (Raise exc, w)).
Proof.
  intros rt paper repository extractor store_links w p0 exc Hconf Hst Hraise.
  unfold extract_text. rewrite Hraise. split.
  - intros ->.
    destruct (update_state_reason rt repository Hconf (id paper) FAILED (exn_str exc)
                w p0 Hst) as [Hrun Hstored].
    unfold bind, ret. rewrite Hrun. do 2 eexists. split; [reflexivity|].
    split; [exact Hstored|]. repeat split.
  - intros Hne. destruct (exn_cls exc); try reflexivity. contradiction.
Qed.

(** An unreadable PDF: the extractor of the example services raises. *)
Lemma extract_text_failure_marks_failed_witness :
  let paper := example_paper "a" "A" PDF_AVAILABLE 1 1 in
  let w := example_world [example_row "a" "A" "PDF Available" 1 1] in
  exists w' p',
    extract_text example_runtime paper default_repository
      (text_extractor_ (example_services text_storage)) true w
    = (Ok (mk_outcome "a" "text_extraction" false "unreadable" []), w')
    /\ stored default_repository "a" w' = Some p'
    /\ state p' = FAILED
    /\ reason p' = Some "unreadable"
    /\ journal w' = journal w ++ [CallUpdateState "a" FAILED].
Proof.
  intros paper w.
  apply (extract_text_failure_marks_failed example_runtime paper default_repository
           (text_extractor_ (example_services text_storage)) true w paper
           (mk_exn ExtractionError "unreadable")); try reflexivity.
  left; reflexivity.
Defined.

(** When the extractor returns and the database accepts every insert,
    [extract_text] moves the stored record to [Text Available] with the text
    reference and no attempts, and then, if links are to be stored, appends
    one placeholder per link annotation, in order and without looking for
    duplicates: titled [url:] plus the URL cut to 255 characters, one level
    below the record, with the record as parent.  The outcome reports the
    number of characters of the text. *)
Theorem extract_text_stores_text_and_links :
  forall (rt : Runtime) (paper : PaperRecord) (repository : PaperRepository)
         (extractor : TextExtractor) (store_links : bool) (w : world)
         (p0 : PaperRecord) (result_ : TextExtractionResult),
    configured repository ->
    accepts_all rt ->
    stored repository (id paper) w = Some p0 ->
    extract_text_of extractor paper = Ok result_ ->
    exists w' p' values new,
      extract_text rt paper repository extractor store_links w
      = (Ok (mk_outcome (id paper) "text_extraction" true "extracted"
               [("characters", VInt (Z.of_nat (String.length (ter_text result_))))]), w')
      /\ stored repository (id paper) w' = Some p'
      /\ state p' = TEXT_AVAILABLE
      /\ attempts p' = 0%Z
      /\ text_ref p' = ref_of (uri (ter_text_ref result_))
      /\ papers w' = rows_after values (id paper) (papers w) ++ new
      /\ Forall2 (is_link_placeholder repository paper)
           (if store_links then ter_links result_ else []) new.
Proof.
  intros rt paper repository extractor store_links w p0 result_ Hconf Hacc Hst Hok.
  destruct (save_text_reference_stored rt repository Hconf (id paper)
              (uri (ter_text_ref result_)) w p0 Hst) as [Hrun Hstored].
  set (w1 := after_update_state rt repository (id paper) TEXT_AVAILABLE
               (Some [("text_uri", VStr (uri (ter_text_ref result_)))]) w) in *.
  destruct (insert_link_placeholders_accepted rt repository paper Hconf Hacc
              (if store_links then ter_links result_ else []) w1)
    as (new & w2 & Hloop & Hpapers & Hall).
  exists w2, (with_text (uri (ter_text_ref result_))
                (stamped TEXT_AVAILABLE (now_iso rt (clock w)) p0)),
    (update_state_values repository TEXT_AVAILABLE
       (Some [("text_uri", VStr (uri (ter_text_ref result_)))]) (now_iso rt (clock w))),
    new.
  split.
  { unfold extract_text. rewrite Hok. unfold bind at 1. rewrite Hrun.
    unfold bind at 1.
    assert (Hlinks :
              (match store_links, ter_links result_ with
               | true, _ :: _ =>
                   _insert_link_placeholders rt repository paper (ter_links result_)
               | _, _ => ret tt
               end) w1 = (Ok tt, w2)).
    { destruct store_links; [destruct (ter_links result_)|]; exact Hloop. }
    rewrite Hlinks. reflexivity. }
  split; [exact (stored_app _ _ _ _ _ _ Hstored Hpapers)|].
  repeat split; auto.
Qed.

(** A text with the same link twice gives two placeholders. *)
Lemma extract_text_stores_text_and_links_witness :
  let paper := example_paper "a" "A" PDF_AVAILABLE 1 1 in
  let w := example_world [example_row "a" "A" "PDF Available" 1 1] in
  exists w' p' values row1 row2,
    extract_text example_runtime paper default_repository linking_extractor true w
    = (Ok (mk_outcome "a" "text_extraction" true "extracted" [("characters", VInt 9)]), w')
    /\ stored default_repository "a" w' = Some p'
    /\ state p' = TEXT_AVAILABLE
    /\ text_ref p' = Some (mk_ref "storage://texts/a")
    /\ papers w' = rows_after values "a" (papers w) ++ [row1; row2]
    /\ row_title row1 = "url:https://example.org/a"
    /\ row_title row2 = "url:https://example.org/a".
Proof.
  intros paper w.
  destruct (extract_text_stores_text_and_links example_runtime paper default_repository
              linking_extractor true w paper
              (mk_extraction (mk_ref "storage://texts/a") "some text"
                 [mk_link "https://example.org/a" "A" 0;
                  mk_link "https://example.org/a" "A again" 3]))
    as (w' & p' & values & new & Hrun & Hst & Hstate & _ & Href & Hpapers & Hall).
  - left; reflexivity.
  - intros t payload n. reflexivity.
  - reflexivity.
  - reflexivity.
  - inversion Hall as [|l1 row1 ls1 rest1 H1 Hrest1]; subst.
    inversion Hrest1 as [|l2 row2 ls2 rest2 H2 Hrest2]; subst.
    inversion Hrest2; subst.
    exists w', p', values, row1, row2.
    repeat split; auto.
    + apply H1.
    + apply H2.
Defined.

(** A placeholder insert that the database refuses as a duplicate raises the
    duplicate error; the id is drawn and the call journaled, no row is
    added. *)
Lemma create_pdf_placeholder_refused rt repository title_ parent_id_ level_ seed md w :
  (forall t payload n,
      exists e, insert_verdict rt t payload n = Refused e
                /\ is_duplicate_error (_map_postgrest_error e) = true) ->
  exists exc,
    create_pdf_placeholder rt repository title_ parent_id_ level_ seed md w
    = (Raise exc,
       with_uuids (S (uuids w))
         (with_journal (journal w ++ [CallCreatePlaceholder title_]) w))
    /\ is_duplicate_error exc = true.
Proof.
  intros Hrefuse.
  unfold create_pdf_placeholder, bind, record_call, new_uuid, _execute, lift.
  unfold MAX_TRANSIENT_RETRIES. cbn [_execute_from]. unfold insert_builder.
  match goal with
  | |- context [insert_verdict rt ?t ?payload ?n] =>
      destruct (Hrefuse t payload n) as (e & -> & Hdup)
  end.
  eexists. split; [reflexivity|exact Hdup].
Qed.

(** The loop skips what the database refuses as a duplicate: when every
    insert is refused with an error that maps to a duplicate title or topic,
    [_insert_link_placeholders] returns normally, having tried every link,
    and no row is added. *)
Theorem insert_link_placeholders_skips_duplicates :
  forall (rt : Runtime) (repository : PaperRepository) (paper : PaperRecord)
         (links : list LinkAnnotation) (w : world),
    (forall t payload n,
        exists e, insert_verdict rt t payload n = Refused e
                  /\ is_duplicate_error (_map_postgrest_error e) = true) ->
    exists w',
      _insert_link_placeholders rt repository paper links w = (Ok tt, w')
      /\ papers w' = papers w
      /\ uuids w' = (uuids w + length links)%nat
      /\ journal w'
         = journal w ++ map (fun link => CallCreatePlaceholder (link_title link)) links.
Proof.
  intros rt repository paper links w Hrefuse. revert w.
  induction links as [|link rest IH]; intros w.
  - exists w. simpl. rewrite Nat.add_0_r, app_nil_r. auto.
  - cbn [_insert_link_placeholders]. unfold insert_link_placeholder.
    unfold bind at 1. unfold try_except. unfold bind at 1.
    destruct (create_pdf_placeholder_refused rt repository (link_title link) (id paper)
                (level paper + 1)%Z (seed_number paper)
                (Some [("link", VDict [("url", VStr (link_url link));
                                       ("text", VStr (link_text link));
                                       ("page", VInt (link_page link))])]) w Hrefuse)
      as (exc & Hrun & Hdup).
    match goal with
    | |- context [create_pdf_placeholder ?a ?b ?c ?d ?e ?f ?g ?h] =>
        destruct (create_pdf_placeholder a b c d e f g h) as [r0 w0] eqn:Hc
    end.
    pose proof (eq_trans (eq_sym Hc) Hrun) as Heq. injection Heq as -> ->.
    rewrite Hdup. unfold ret.
    match goal with
    | |- context [_insert_link_placeholders rt repository paper rest ?w1] =>
        destruct (IH w1) as (w' & Hloop & Hpapers & Huuids & Hjournal)
    end.
    exists w'. rewrite Hloop, Hpapers, Huuids, Hjournal.
    cbn [papers uuids journal with_uuids with_journal length map].
    repeat split; [lia|]. now rewrite <- app_assoc.
Qed.

(** Two links against a table that already holds both titles. *)
Lemma insert_link_placeholders_skips_duplicates_witness :
  let paper := example_paper "a" "A" PDF_AVAILABLE 1 1 in
  let w := example_world [example_row "a" "A" "PDF Available" 1 1] in
  let links := [mk_link "https://example.org/a" "A" 0;
                mk_link "https://example.org/b" "B" 1] in
  exists w',
    _insert_link_placeholders refusing_runtime default_repository paper links w
    = (Ok tt, w')
    /\ papers w' = papers w
    /\ uuids w' = 2%nat
    /\ journal w' = [CallCreatePlaceholder "url:https://example.org/a";
                     CallCreatePlaceholder "url:https://example.org/b"].
Proof.
  intros paper w links.
  apply (insert_link_placeholders_skips_duplicates refusing_runtime default_repository
           paper links w).
  intros t payload n. exists title_conflict. split; reflexivity.
Defined.

(** ** The rows of [pgx_extractions] *)

Lemma execute_extraction_cases rt table payload :
  forall retries attempts w r w',
    _execute_from retries attempts (extraction_insert_builder rt table payload) w = (r, w') ->
    (r = Ok tt
     /\ w' = with_extraction_rows
               (extraction_rows w ++ map (fun row => (table, row)) payload) w)
    \/ (exists e, r = Raise e /\ w' = w).
Proof.
  induction retries as [|n IH]; intros attempts w r w';
    cbn [_execute_from]; unfold extraction_insert_builder at 1;
    destruct (extraction_insert_verdict rt table payload attempts) as [|e|cls msg];
    try (intros H; injection H as <- <-; eauto).
  destruct (_is_transient_transport_error cls msg).
  - apply IH.
  - intros H; injection H as <- <-. eauto.
Qed.

(** [insert_pgx_extractions] is all or nothing: the rows of the paper table
    are never touched, and the extraction table either stays as it was or
    takes every row of the call, each under the given table name with
    [paper_id] prepended.  When the call returns, it returns the number of
    rows it was given, and all of them were stored. *)
Theorem insert_pgx_extractions_all_or_nothing :
  forall (rt : Runtime) (pid : string) (rows : list dict) (table : string) (w : world),
    let run := insert_pgx_extractions rt pid rows table w in
    let sent := map (fun row => (table, row)) (extraction_payload pid rows) in
    papers (snd run) = papers w
    /\ (extraction_rows (snd run) = extraction_rows w
        \/ extraction_rows (snd run) = extraction_rows w ++ sent)
    /\ (forall n, fst run = Ok n ->
          n = Z.of_nat (length rows)
          /\ extraction_rows (snd run) = extraction_rows w ++ sent)
    /\ (forall row, In row rows -> get "paper_id" row = None ->
          In (table, update [("paper_id", VStr pid)] row) sent
          /\ get "paper_id" (update [("paper_id", VStr pid)] row) = Some (VStr pid)).
Proof.
  intros rt pid rows table w run sent. subst run sent.
  assert (Hlast : forall row, In row rows -> get "paper_id" row = None ->
            In (table, update [("paper_id", VStr pid)] row)
              (map (fun row => (table, row)) (extraction_payload pid rows))
            /\ get "paper_id" (update [("paper_id", VStr pid)] row) = Some (VStr pid)).
  { intros row Hin Hnone. split.
    - apply in_map_iff. exists (update [("paper_id", VStr pid)] row). split; auto.
      unfold extraction_payload. apply in_map_iff. eauto.
    - rewrite get_update, (get_rev_none _ _ Hnone). reflexivity. }
  destruct rows as [|row rows].
  - cbn. rewrite app_nil_r.
    split; [reflexivity|]. split; [now left|]. split; [|exact Hlast].
    intros n H. injection H as <-. split; reflexivity.
  - unfold insert_pgx_extractions, bind, _execute, ret.
    fold (extraction_payload pid (row :: rows)).
    destruct (_execute_from MAX_TRANSIENT_RETRIES 0
                (extraction_insert_builder rt table (extraction_payload pid (row :: rows))) w)
      as [r w'] eqn:E.
    apply execute_extraction_cases in E.
    destruct E as [[-> ->]|(e & -> & ->)]; cbn [fst snd papers extraction_rows
                                                 with_extraction_rows].
    + split; [reflexivity|]. split; [now right|]. split; [|exact Hlast].
      intros n H. injection H as <-.
      split; [|reflexivity]. unfold extraction_payload. now rewrite length_map.
    + split; [reflexivity|]. split; [now left|]. split; [|exact Hlast].
      intros n H. discriminate.
Qed.

(** ** The outcomes of [process_pgx_extraction] *)

Section PgxOutcomes.
Variable rt : Runtime.
Variable repository : PaperRepository.
Hypothesis Hconf : configured repository.

(** A failure branch: one [update_state] to [P1Failure], then the outcome. *)
Lemma pgx_failure_settles paper r msg meta w p0 :
  stored repository (id paper) w = Some p0 ->
  exists w',
    (update_state rt repository (id paper) P1_FAILURE (reason_update r) ;;;
     ret (mk_outcome (id paper) "pgx_extraction" false msg meta)) w
    = (Ok (mk_outcome (id paper) "pgx_extraction" false msg meta), w')
    /\ pgx_settled repository paper w
         (mk_outcome (id paper) "pgx_extraction" false msg meta) w'.
Proof.
  intros Hst.
  destruct (update_state_reason rt repository Hconf (id paper) P1_FAILURE r w p0 Hst)
    as [Hrun Hstored].
  unfold bind, ret. rewrite Hrun. eexists. split; [reflexivity|].
  repeat split. eexists. split; [exact Hstored|]. repeat split.
Qed.

Lemma pgx_failed_settles paper page_count exc w p0 :
  stored repository (id paper) w = Some p0 ->
  exists o w',
    pgx_failed rt repository paper page_count exc w = (Ok o, w')
    /\ success o = false
    /\ pgx_settled repository paper w o w'.
Proof.
  intros Hst. unfold pgx_failed.
  destruct (pgx_failure_settles paper (exn_str exc) "pgx extraction failed"
              [("error", VStr (exn_str exc)); ("page_count", opt_int_value page_count)]
              w p0 Hst) as (w' & Hrun & Hset).
  eexists _, w'. split; [exact Hrun|]. split; [reflexivity|exact Hset].
Qed.

(** The settled outcome as seen from a store with the same rows and
    journal. *)
Lemma pgx_settled_from paper w w1 o w' :
  journal w1 = journal w ->
  pgx_settled repository paper w1 o w' -> pgx_settled repository paper w o w'.
Proof.
  intros Hj (Hid & Hstage & p' & Hst & Hstate & Hatt & Hjournal).
  repeat split; auto. exists p'. repeat split; auto. congruence.
Qed.

Lemma process_pgx_extraction_cases paper storage extractor pdf_bytes page_count table w p0 :
  stored repository (id paper) w = Some p0 ->
  exists o w',
    process_pgx_extraction rt paper repository storage extractor pdf_bytes page_count table w
    = (Ok o, w')
    /\ pgx_settled repository paper w o w'.
Proof.
  intros Hst. unfold process_pgx_extraction.
  destruct (_pgx_source_ref paper) as [source_ref|].
  2: { destruct (pgx_failure_settles paper "Paper missing source_uri"
                   "paper missing source_uri" [] w p0 Hst) as (w' & Hrun & Hset).
       eexists _, w'. split; [exact Hrun|exact Hset]. }
  unfold bind, try_except, ret, lift.
  assert (Hfail : forall pc e,
             exists o w',
               pgx_failed rt repository paper pc e w = (Ok o, w')
               /\ pgx_settled repository paper w o w').
  { intros pc e. destruct (pgx_failed_settles paper pc e w p0 Hst) as (o & w' & H1 & _ & H2).
    eauto. }
  match goal with
  | |- context [match pdf_bytes with Some _ => _ | None => _ end w] =>
      match goal with
      | |- context [?m w] =>
          match m with
          | match pdf_bytes with Some _ => _ | None => _ end =>
              assert (Hload : exists loaded, m w = (loaded, w))
                by (destruct pdf_bytes; [|destruct (fetch_blob storage source_ref)]; eauto);
              destruct Hload as (loaded & ->)
          end
      end
  end.
  destruct loaded as [current|e].
  2: { destruct (Hfail page_count e) as (o & w' & -> & Hq). eauto. }
  cbv beta iota.
  generalize (match page_count with
              | Some _ => page_count
              | None => pdf_page_count rt current
              end). intros page_count_.
  destruct (extract_pdf extractor current) as [[|sample samples]|e].
  - destruct (pgx_failure_settles paper "No PGX samples extracted"
                "no pgx samples extracted"
                [("page_count", opt_int_value page_count_); ("hint", VStr pgx_hint)]
                w p0 Hst) as (w' & Hrun & Hset).
    unfold bind, ret in Hrun.
    destruct (update_state rt repository (id paper) P1_FAILURE
                (reason_update "No PGX samples extracted") w) as [[u|e] w1];
      [|discriminate].
    injection Hrun as <-. eauto.
  - destruct (insert_pgx_extractions rt (id paper)
                (map pgx_row_payload (sample :: samples)) table w) as [[inserted|e] w1] eqn:Eins;
      destruct (insert_pgx_extractions_same _ _ _ _ _ _ _ Eins) as [Hp Hj];
      assert (Hst1 : stored repository (id paper) w1 = Some p0)
        by (now rewrite (stored_same_papers repository (id paper) w w1 Hp)).
    + destruct (update_state_cleared rt repository Hconf (id paper) P1_SUCCESS
                  (set "pgx_extraction_count" (VInt inserted) (metadata paper)) w1 p0 Hst1)
        as [Hrun Hstored].
      cbv zeta in Hrun, Hstored. rewrite Hrun.
      eexists _, _. split; [reflexivity|].
      apply (pgx_settled_from paper w w1); auto.
      repeat split. eexists. split; [exact Hstored|]. repeat split.
    + destruct (pgx_failed_settles paper page_count_ e w1 p0 Hst1)
        as (o & w' & -> & _ & Hset).
      eexists _, _. split; [reflexivity|].
      now apply (pgx_settled_from paper w w1).
  - destruct (Hfail page_count_ e) as (o & w' & -> & Hq). eauto.
Qed.

End PgxOutcomes.

(** [process_pgx_extraction] on a stored record never raises, whatever the
    storage and the extractor do and whatever the database answers to the
    insert: it returns an outcome for the paper, and leaves the record in
    [P1Success] if the outcome is a success and in [P1Failure] if not, with no
    attempts, after exactly one [update_state]. *)
Theorem process_pgx_extraction_always_settles :
  forall (rt : Runtime) (paper : PaperRecord) (repository : PaperRepository)
         (storage : StorageGateway) (extractor : PgxExtractor)
         (pdf_bytes : option string) (page_count : option Z) (table : string)
         (w : world) (p0 : PaperRecord),
    configured repository ->
    stored repository (id paper) w = Some p0 ->
    exists o w' p',
      process_pgx_extraction rt paper repository storage extractor pdf_bytes page_count
        table w = (Ok o, w')
      /\ paper_id o = id paper
      /\ stage o = "pgx_extraction"
      /\ stored repository (id paper) w' = Some p'
      /\ state p' = (if success o then P1_SUCCESS else P1_FAILURE)
      /\ attempts p' = 0%Z
      /\ journal w' = journal w ++ [CallUpdateState (id paper) (state p')].
Proof.
  intros rt paper repository storage extractor pdf_bytes page_count table w p0 Hconf Hst.
  destruct (process_pgx_extraction_cases rt repository Hconf paper storage extractor
              pdf_bytes page_count table w p0 Hst)
    as (o & w' & Hrun & Hid & Hstage & p' & Hst' & Hstate & Hatt & Hj).
  exists o, w', p'. repeat split; auto.
Qed.

(** An extractor that raises: the record ends in [P1Failure]. *)
Lemma process_pgx_extraction_always_settles_witness :
  exists o w' p',
    process_pgx_extraction example_runtime (claimed_paper "a") default_repository
      text_storage failing_extractor None None "pgx_extractions"
      (example_world [claimed_row "a"]) = (Ok o, w')
    /\ success o = false
    /\ message o = "pgx extraction failed"
    /\ stored default_repository "a" w' = Some p'
    /\ state p' = P1_FAILURE
    /\ reason p' = Some "model unavailable".
Proof.
  destruct (process_pgx_extraction_always_settles example_runtime (claimed_paper "a")
              default_repository text_storage failing_extractor None None
              "pgx_extractions" (example_world [claimed_row "a"]) (claimed_paper "a"))
    as (o & w' & p' & Hrun & _ & _ & Hst & Hstate & _).
  - left; reflexivity.
  - reflexivity.
  - exists o, w', p'. vm_compute in Hrun. injection Hrun as <- <-.
    vm_compute in Hst. injection Hst as <-.
    repeat split.
Defined.

(** An accepted insert stores every row and returns their number. *)
Lemma insert_pgx_extractions_accepted rt pid row rows table w :
  extraction_insert_verdict rt table (extraction_payload pid (row :: rows)) 0 = Accepted ->
  insert_pgx_extractions rt pid (row :: rows) table w
  = (Ok (Z.of_nat (length (row :: rows))),
     with_extraction_rows
       (extraction_rows w
        ++ map (fun r => (table, r)) (extraction_payload pid (row :: rows))) w).
Proof.
  intros Hacc.
  unfold insert_pgx_extractions, bind, _execute, ret, MAX_TRANSIENT_RETRIES.
  fold (extraction_payload pid (row :: rows)).
  cbn [_execute_from]. unfold extraction_insert_builder. rewrite Hacc.
  unfold extraction_payload. now rewrite length_map.
Qed.

(** The success of [process_pgx_extraction]: with a PDF reference, bytes at
    hand, at least one sample and an insert that the database accepts, every
    sample is stored in the extraction table under the paper's id, the
    record goes to [P1Success] with its reason cleared and
    [pgx_extraction_count] added to the metadata of the record passed in, and
    the outcome reports the count and the page count. *)
Theorem process_pgx_extraction_stores_the_samples :
  forall (rt : Runtime) (paper : PaperRecord) (repository : PaperRepository)
         (storage : StorageGateway) (extractor : PgxExtractor)
         (pdf_bytes : option string) (page_count : option Z) (table : string)
         (w : world) (p0 : PaperRecord) (ref : StorageRef) (current : string)
         (sample : PgxExtractionRow) (samples : list PgxExtractionRow),
    configured repository ->
    stored repository (id paper) w = Some p0 ->
    pdf_ref paper = Some ref ->
    loaded_pdf storage ref pdf_bytes = Ok current ->
    extract_pdf extractor current = Ok (sample :: samples) ->
    extraction_insert_verdict rt table
      (extraction_payload (id paper) (map pgx_row_payload (sample :: samples))) 0
    = Accepted ->
    let count := Z.of_nat (length (sample :: samples)) in
    let pages := match page_count with
                 | None => pdf_page_count rt current
                 | Some _ => page_count
                 end in
    exists w' p',
      process_pgx_extraction rt paper repository storage extractor pdf_bytes page_count
        table w
      = (Ok (mk_outcome (id paper) "pgx_extraction" true "pgx extraction completed"
               [("count", VInt count); ("page_count", opt_int_value pages)]), w')
      /\ stored repository (id paper) w' = Some p'
      /\ state p' = P1_SUCCESS
      /\ reason p' = None
      /\ metadata p' = set "pgx_extraction_count" (VInt count) (metadata paper)
      /\ extraction_rows w'
         = extraction_rows w
           ++ map (fun row => (table, row))
                (extraction_payload (id paper) (map pgx_row_payload (sample :: samples)))
      /\ journal w' = journal w ++ [CallUpdateState (id paper) P1_SUCCESS].
Proof.
  intros rt paper repository storage extractor pdf_bytes page_count table w p0 ref current
    sample samples Hconf Hst Href Hload Hextract Hacc count pages.
  set (payload := extraction_payload (id paper) (map pgx_row_payload (sample :: samples))) in *.
  set (w1 := with_extraction_rows
               (extraction_rows w ++ map (fun row => (table, row)) payload) w).
  assert (Hins : insert_pgx_extractions rt (id paper)
                   (map pgx_row_payload (sample :: samples)) table w = (Ok count, w1)).
  { unfold count. rewrite <- (length_map pgx_row_payload (sample :: samples)).
    apply (insert_pgx_extractions_accepted rt (id paper) (pgx_row_payload sample)
             (map pgx_row_payload samples) table w).
    exact Hacc. }
  assert (Hst1 : stored repository (id paper) w1 = Some p0) by exact Hst.
  destruct (update_state_cleared rt repository Hconf (id paper) P1_SUCCESS
              (set "pgx_extraction_count" (VInt count) (metadata paper)) w1 p0 Hst1)
    as [Hrun Hstored].
  cbv zeta in Hrun, Hstored.
  eexists _, _. split.
  { unfold process_pgx_extraction, _pgx_source_ref. rewrite Href.
    unfold bind, try_except, ret, lift.
    assert (Hbytes : (match pdf_bytes with
                      | Some b => fun w0 : world => (Ok b, w0)
                      | None => fun w0 : world => (fetch_blob storage ref, w0)
                      end) w = (Ok current, w)).
    { unfold loaded_pdf in Hload. destruct pdf_bytes; now rewrite Hload. }
    match goal with
    | |- context [match pdf_bytes with Some _ => _ | None => _ end w] =>
        match goal with
        | |- context [?m w] =>
            match m with
            | match pdf_bytes with Some _ => _ | None => _ end =>
                change (m w) with
                  ((match pdf_bytes with
                    | Some b => fun w0 : world => (Ok b, w0)
                    | None => fun w0 : world => (fetch_blob storage ref, w0)
                    end) w)
            end
        end
    end.
    rewrite Hbytes. cbv beta iota. rewrite Hextract.
    match goal with
    | |- context [insert_pgx_extractions ?a ?b ?c ?d ?e] =>
        destruct (insert_pgx_extractions a b c d e) as [r0 w0] eqn:Hc
    end.
    clear Hc. injection Hins as -> ->.
    match goal with
    | |- context [update_state ?a ?b ?c ?d ?e ?f] =>
        destruct (update_state a b c d e f) as [r1 w2] eqn:Hu
    end.
    first [ pose proof (eq_trans (eq_sym Hu) Hrun) as Heq; injection Heq as -> ->
          | clear Hu; injection Hrun as -> -> ].
    reflexivity. }
  split; [exact Hstored|]. repeat split.
Qed.

(** One sample read from a claimed record: one row in [pgx_extractions]. *)
Lemma process_pgx_extraction_stores_the_samples_witness :
  exists w' p',
    process_pgx_extraction example_runtime (claimed_paper "a") default_repository
      text_storage sampling_extractor None None "pgx_extractions"
      (example_world [claimed_row "a"])
    = (Ok (mk_outcome "a" "pgx_extraction" true "pgx extraction completed"
             [("count", VInt 1); ("page_count", VInt 1)]), w')
    /\ stored default_repository "a" w' = Some p'
    /\ state p' = P1_SUCCESS
    /\ reason p' = None
    /\ metadata p' = [("pgx_extraction_count", VInt 1)]
    /\ length (extraction_rows w') = 1%nat
    /\ journal w' = [CallUpdateState "a" P1_SUCCESS].
Proof.
  destruct (process_pgx_extraction_stores_the_samples example_runtime (claimed_paper "a")
              default_repository text_storage sampling_extractor None None
              "pgx_extractions" (example_world [claimed_row "a"]) (claimed_paper "a")
              (mk_ref "storage://pdfs/a") "text"
              (mk_pgx_row "S1" "CYP2D6" "*4" "rs3892097" "codeine" "reduced response"
                 "actionable" "avoid codeine" "Table 2") [])
    as (w' & p' & Hrun & Hst & Hstate & Hreason & Hmeta & Hrows & Hj);
    try reflexivity.
  - left; reflexivity.
  - exists w', p'. repeat split; auto. now rewrite Hrows.
Defined.


(* ------------------------------------------------------------------ *)
(** ** Storage URIs: common/dtos.py and ingest/storage_gateway.py *)

Lemma split_on_zero sep s : split_on sep 0 s = [s].
Proof. destruct s; reflexivity. Qed.

Lemma split_on_nonempty sep m s : split_on sep m s <> [].
Proof.
  revert m. induction s as [|c r IH]; intros m; cbn [split_on]; [discriminate|].
  destruct m; [discriminate|].
  destruct (Ascii.eqb c sep); [discriminate|].
  destruct (split_on sep (S m) r); discriminate.
Qed.

(** Up to the first separator: one segment. *)
Lemma split_on_prefix sep m b r :
  has_char sep b = false ->
  split_on sep (S m) (b ++ String sep r)%string = b :: split_on sep m r.
Proof.
  induction b as [|c b IH]; intros H.
  - cbn. now rewrite Ascii.eqb_refl.
  - cbn in H. apply Bool.orb_false_iff in H. destruct H as [Hc Hb].
    cbn [append split_on]. rewrite Ascii.eqb_sym, Hc, (IH Hb). reflexivity.
Qed.

(** [len(s.split(sep, maxsplit))] *)
Lemma split_on_length sep s :
  forall m, length (split_on sep m s) = S (Nat.min m (count_char sep s)).
Proof.
  induction s as [|c r IH]; intros m.
  - cbn. now rewrite Nat.min_0_r.
  - destruct m as [|m]; [reflexivity|].
    cbn [split_on count_char]. destruct (Ascii.eqb c sep).
    + cbn [length]. rewrite IH. cbn. reflexivity.
    + specialize (IH (S m)).
      destruct (split_on sep (S m) r) as [|h t] eqn:E.
      * now apply split_on_nonempty in E.
      * cbn [length] in *. exact IH.
Qed.

(** The first separator of a string that has one. *)
Lemma first_separator sep s :
  (1 <= count_char sep s)%nat ->
  exists a r, s = (a ++ String sep r)%string
              /\ has_char sep a = false
              /\ count_char sep s = S (count_char sep r).
Proof.
  induction s as [|c s IH]; cbn [count_char]; intros H; [lia|].
  destruct (Ascii.eqb c sep) eqn:E.
  - apply Ascii.eqb_eq in E. subst c. exists EmptyString, s. repeat split.
  - destruct (IH H) as (a & r & -> & Ha & Hc).
    exists (String c a), r. repeat split.
    + cbn. now rewrite Ascii.eqb_sym, E.
    + exact Hc.
Qed.

(** Leading white space does not reach [strip]. *)
Lemma strip_leading_space c s : is_space c = true -> strip (String c s) = strip s.
Proof.
  intros H. unfold strip. cbn [rstrip].
  destruct (rstrip s) as [|d r]; cbn [lstrip]; now rewrite H.
Qed.

(** A URI built by [StorageGateway._uri] for a bucket name without a slash
    is read back by [_parse_uri] as the same bucket and path, whatever the
    path holds (slashes included), and [StorageRef.bucket] and
    [StorageRef.path] give the same two parts. *)
Theorem storage_uri_round_trip :
  forall (bucket_ path_ : string),
    has_char "/" bucket_ = false ->
    _parse_uri (_uri bucket_ path_) = Ok (bucket_, path_)
    /\ bucket (mk_ref (_uri bucket_ path_)) = Some bucket_
    /\ path (mk_ref (_uri bucket_ path_)) = Some path_.
Proof.
  intros b p Hb.
  assert (Hsplit : split_on "/" 3 (_uri b p) = ["storage:"; ""; b; p]).
  { unfold _uri.
    change ("storage://" ++ b ++ "/" ++ p)%string
      with ("storage:" ++ String "/" ("" ++ String "/" (b ++ String "/" p)))%string.
    rewrite split_on_prefix by reflexivity.
    rewrite split_on_prefix by reflexivity.
    rewrite split_on_prefix by exact Hb.
    now rewrite split_on_zero. }
  unfold _parse_uri, bucket, path. cbn [uri]. rewrite Hsplit. repeat split.
Qed.

(** The key that [_build_key] makes holds slashes; the bucket does not. *)
Lemma storage_uri_round_trip_witness :
  _parse_uri (_uri "pdfs" "p1/abc-paper.pdf") = Ok ("pdfs", "p1/abc-paper.pdf")
  /\ bucket (mk_ref (_uri "pdfs" "p1/abc-paper.pdf")) = Some "pdfs"
  /\ path (mk_ref (_uri "pdfs" "p1/abc-paper.pdf")) = Some "p1/abc-paper.pdf".
Proof.
  apply (storage_uri_round_trip "pdfs" "p1/abc-paper.pdf"). reflexivity.
Defined.

(** [_parse_uri] looks at the slashes only: with fewer than three it raises
    [StorageError] naming the URI, and [StorageRef.path] is [None]; with three
    or more it returns the third segment as the bucket and everything after
    the third slash as the path, the same values as [StorageRef.bucket] and
    [StorageRef.path], and the bucket holds no slash.  The scheme is never
    looked at. *)
Theorem parse_uri_needs_three_slashes :
  forall (uri_ : string),
    (if (count_char "/" uri_ <? 3)%nat
     then _parse_uri uri_ = Raise (mk_exn StorageError ("Malformed storage URI: " ++ uri_))
          /\ path (mk_ref uri_) = None
     else exists scheme_ empty_ bucket_ path_,
            uri_ = (scheme_ ++ "/" ++ empty_ ++ "/" ++ bucket_ ++ "/" ++ path_)%string
            /\ has_char "/" scheme_ = false
            /\ has_char "/" empty_ = false
            /\ has_char "/" bucket_ = false
            /\ _parse_uri uri_ = Ok (bucket_, path_)
            /\ bucket (mk_ref uri_) = Some bucket_
            /\ path (mk_ref uri_) = Some path_).
Proof.
  intros u.
  destruct (count_char "/" u <? 3)%nat eqn:Hc.
  - apply Nat.ltb_lt in Hc.
    pose proof (split_on_length "/" u 3) as Hlen.
    unfold _parse_uri, path. cbn [uri].
    assert (Hlt : (length (split_on "/" 3 u) <? 4)%nat = true)
      by (apply Nat.ltb_lt; lia).
    assert (Hp : (3 <? length (split_on "/" 3 u))%nat = false)
      by (apply Nat.ltb_ge; lia).
    now rewrite Hlt, Hp.
  - apply Nat.ltb_ge in Hc.
    destruct (first_separator "/" u) as (s1 & r1 & -> & H1 & Hc1); [lia|].
    destruct (first_separator "/" r1) as (s2 & r2 & -> & H2 & Hc2); [lia|].
    destruct (first_separator "/" r2) as (s3 & r3 & -> & H3 & Hc3); [lia|].
    exists s1, s2, s3, r3.
    assert (Hsplit : split_on "/" 3
                       (s1 ++ String "/" (s2 ++ String "/" (s3 ++ String "/" r3)))%string
                     = [s1; s2; s3; r3]).
    { rewrite !split_on_prefix by assumption. now rewrite split_on_zero. }
    split; [reflexivity|]. repeat (split; [assumption|]).
    unfold _parse_uri, bucket, path. cbn [uri].
    change (s1 ++ "/" ++ s2 ++ "/" ++ s3 ++ "/" ++ r3)%string
      with (s1 ++ String "/" (s2 ++ String "/" (s3 ++ String "/" r3)))%string.
    rewrite Hsplit. repeat split.
Qed.

(* ------------------------------------------------------------------ *)
(** ** parsers/pgx_extractor.py *)

Lemma is_space_lower_char c : is_space (lower_char c) = is_space c.
Proof. destruct c as [[] [] [] [] [] [] [] []]; reflexivity. Qed.

Lemma lower_lstrip s : lower (lstrip s) = lstrip (lower s).
Proof.
  induction s as [|c r IH]; cbn [lstrip lower]; [reflexivity|].
  rewrite is_space_lower_char. destruct (is_space c); auto.
Qed.

Lemma lower_rstrip s : lower (rstrip s) = rstrip (lower s).
Proof.
  induction s as [|c r IH]; cbn [rstrip lower]; [reflexivity|].
  rewrite <- IH, is_space_lower_char.
  destruct (rstrip r); cbn [lower]; [destruct (is_space c)|]; reflexivity.
Qed.

(** [strip] and [lower] commute. *)
Lemma lower_strip s : lower (strip s) = strip (lower s).
Proof. unfold strip. now rewrite lower_lstrip, lower_rstrip. Qed.

Lemma rstrip_blank s : blank s = true -> rstrip s = "".
Proof.
  induction s as [|c r IH]; cbn [blank rstrip]; [reflexivity|].
  intros H. apply andb_true_iff in H. destruct H as [Hc Hr].
  now rewrite (IH Hr), Hc.
Qed.

Lemma rstrip_blank_right s post : blank post = true -> rstrip (s ++ post) = rstrip s.
Proof.
  intros H. induction s as [|c r IH]; cbn [append rstrip].
  - now apply rstrip_blank.
  - now rewrite IH.
Qed.

Lemma strip_blank_left pre s : blank pre = true -> strip (pre ++ s) = strip s.
Proof.
  induction pre as [|c r IH]; cbn [blank append]; [reflexivity|].
  intros H. apply andb_true_iff in H. destruct H as [Hc Hr].
  rewrite (strip_leading_space c _ Hc). auto.
Qed.

(** White space around a text does not reach [strip]. *)
Lemma strip_padding pre s post :
  blank pre = true -> blank post = true -> strip (pre ++ s ++ post) = strip s.
Proof.
  intros Hpre Hpost. rewrite (strip_blank_left pre _ Hpre).
  unfold strip. now rewrite (rstrip_blank_right s post Hpost).
Qed.

(** [_normalize_actionability] has two answers, "Yes" and "No", and leaves
    its own answers as they are; white space around the value, of any
    length and of every kind that [str.strip] removes, does not change the
    answer, and neither does the case of its letters. *)
Theorem normalize_actionability_ignores_case_and_space :
  forall (value_ : string),
    (_normalize_actionability value_ = "Yes" \/ _normalize_actionability value_ = "No")
    /\ _normalize_actionability (_normalize_actionability value_)
       = _normalize_actionability value_
    /\ (forall pre post, blank pre = true -> blank post = true ->
          _normalize_actionability (pre ++ value_ ++ post)
          = _normalize_actionability value_)
    /\ (forall other, lower other = lower value_ ->
          _normalize_actionability other = _normalize_actionability value_).
Proof.
  intros v. split; [|split; [|split]].
  - unfold _normalize_actionability.
    destruct (existsb _ ["yes"; "y"; "true"; "1"]); [now left|].
    destruct (existsb _ _); now right.
  - unfold _normalize_actionability.
    destruct (existsb (String.eqb (lower (strip v))) ["yes"; "y"; "true"; "1"]);
      [reflexivity|].
    destruct (existsb (String.eqb (lower (strip v))) ["no"; "n"; "false"; "0"]);
      reflexivity.
  - intros pre post Hpre Hpost. unfold _normalize_actionability.
    now rewrite (strip_padding pre v post Hpre Hpost).
  - intros other Hsame. unfold _normalize_actionability.
    now rewrite !lower_strip, Hsame.
Qed.

(** [YES] behind a no-break space and before a line feed is a yes. *)
Example normalize_actionability_of_a_padded_yes :
  _normalize_actionability (behind_no_break_space "YES" ++ String (ascii_of_nat 10) "")
  = "Yes".
Proof. reflexivity. Qed.

(* ------------------------------------------------------------------ *)
(** ** Reading a level *)

Lemma to_record_seed repository row p n :
  _to_record repository row = Ok p ->
  col_is_int "seed_number" n row = true -> seed_number p = Some n.
Proof.
  intros H Hn. apply to_record_inv in H.
  destruct H as (_ & _ & _ & _ & _ & _ & _ & _ & _ & _ & Hs & _).
  unfold col_is_int in Hn. unfold get_or_none in Hs.
  destruct (get "seed_number" row) as [[| |z| | |]|]; try discriminate.
  apply Z.eqb_eq in Hn. subst z. unfold opt_int in Hs. congruence.
Qed.

Lemma to_record_at_level repository row p z :
  _to_record repository row = Ok p -> col_is_int "level" z row = true -> level p = z.
Proof.
  intros H Hz. unfold col_is_int in Hz.
  destruct (get "level" row) as [[| |t| | |]|] eqn:E; try discriminate.
  apply Z.eqb_eq in Hz. subst t. eapply to_record_level; eauto.
Qed.

(** What [fetch_by_state_at_level] answers when it returns: it changes no row
    and returns at most [limit] records; each one is the reading of a stored
    row, is in the requested state and on the requested level, and carries
    the seed number when one was asked for. *)
Theorem fetch_by_state_at_level_answers_the_level :
  forall (repository : PaperRepository) (st : PaperState) (level_ limit : Z)
         (seed_number_ : option Z) (w w' : world) (fetched : list PaperRecord),
    fetch_by_state_at_level repository st level_ limit seed_number_ w = (Ok fetched, w') ->
    papers w' = papers w
    /\ (length fetched <= Z.to_nat limit)%nat
    /\ (length fetched <= count_state repository st (papers w))%nat
    /\ (forall p, In p fetched ->
          state p = st
          /\ level p = level_
          /\ (forall n, seed_number_ = Some n -> seed_number p = Some n)
          /\ exists row, In row (papers w) /\ _to_record repository row = Ok p).
Proof.
  intros repository st level_ limit seed_number_ w w' fetched.
  unfold fetch_by_state_at_level, bind, record_call, db_select, lift.
  cbn [papers with_journal].
  match goal with
  | |- context [filter ?h (papers w)] => set (hit := h)
  end.
  set (rows := limit_rows limit (order_rows by_created (filter hit (papers w)))).
  intros H. injection H as Hmap <-. apply map_result_inv in Hmap.
  assert (Hsub : forall row, In row rows -> In row (filter hit (papers w))).
  { intros row Hin. unfold rows, limit_rows in Hin.
    apply firstn_in in Hin. now apply order_rows_in in Hin. }
  assert (Hlen : length fetched
                 = Nat.min (Z.to_nat limit) (length (filter hit (papers w)))).
  { rewrite <- (Forall2_length Hmap). unfold rows, limit_rows.
    now rewrite length_firstn, order_rows_length. }
  split; [reflexivity|]. split; [lia|]. split.
  - rewrite Hlen. unfold count_state.
    assert (length (filter hit (papers w))
            <= length (filter (col_is_str (_state_column repository) (state_value st))
                         (papers w)))%nat; [|lia].
    clear. induction (papers w) as [|row t IH]; cbn [filter]; auto.
    unfold hit at 1.
    destruct (col_is_str (_state_column repository) (state_value st) row);
      cbn [andb length]; [|exact IH].
    destruct (col_is_int "level" level_ row && _); cbn [length]; lia.
  - intros p Hin. destruct (Forall2_in_right _ _ _ _ Hmap Hin) as (row & Hrow & Hrec).
    apply Hsub, filter_In in Hrow. destruct Hrow as [Hrow Hhit].
    unfold hit in Hhit. apply andb_true_iff in Hhit. destruct Hhit as [Hhit Hseed].
    apply andb_true_iff in Hhit. destruct Hhit as [Hstate Hlevel].
    split; [eapply to_record_state; eauto|].
    split; [eapply to_record_at_level; eauto|].
    split; [|eauto].
    intros n ->. eapply to_record_seed; eauto.
Qed.

(** The two [Scored] rows of level 1, out of four rows. *)
Lemma fetch_by_state_at_level_answers_the_level_witness :
  exists fetched,
    fst (fetch_by_state_at_level default_repository SCORED 1 10 None mixed_levels)
    = Ok fetched
    /\ map id fetched = ["b"; "d"]
    /\ forall p, In p fetched -> state p = SCORED /\ level p = 1%Z.
Proof.
  destruct (fetch_by_state_at_level default_repository SCORED 1 10 None mixed_levels)
    as [[fetched|e] w'] eqn:E; [|vm_compute in E; discriminate].
  exists fetched. split; [reflexivity|]. split.
  { vm_compute in E. injection E as <- _. reflexivity. }
  destruct (fetch_by_state_at_level_answers_the_level
              default_repository SCORED 1 10 None mixed_levels w' fetched E)
    as (_ & _ & _ & Hall).
  intros p Hin. destruct (Hall p Hin) as (Hs & Hl & _). auto.
Defined.

(* ------------------------------------------------------------------ *)
(** ** The processor and the attempt budget *)

(** [run] has no executor for the stage [pgx_extraction]: asked for it on a
    stored record, it charges the attempt first and then raises [KeyError];
    the stored record keeps its state with one attempt more than the caller's
    count. *)
Theorem run_pgx_extraction_charges_then_raises :
  forall (rt : Runtime) (services : PipelineServices) (paper : PaperRecord)
         (w : world) (p0 : PaperRecord),
    configured (repository_ services) ->
    stored (repository_ services) (id paper) w = Some p0 ->
    exists w' p',
      run rt services paper (Some pgx_extraction) w
      = (Raise (mk_exn KeyError "'pgx_extraction'"), w')
      /\ stored (repository_ services) (id paper) w' = Some p'
      /\ attempts p' = (attempts paper + 1)%Z
      /\ state p' = state p0
      /\ journal w'
         = journal w ++ [CallIncrementAttempts (id paper) (attempts paper + 1)].
Proof.
  intros rt services paper w p0 Hconf Hst.
  destruct (increment_attempts_stored rt (repository_ services) Hconf (id paper)
              (attempts paper) w p0 Hst) as [Hrun Hst1].
  do 2 eexists. split.
  - unfold run, bind, mark_processing_attempt, lift. rewrite Hrun. reflexivity.
  - split; [exact Hst1|]. repeat split.
Qed.

(** A claimed PGX record given to the processor: charged, then [KeyError]. *)
Lemma run_pgx_extraction_charges_then_raises_witness :
  exists w' p',
    run example_runtime (example_services text_storage) (claimed_paper "a")
      (Some pgx_extraction) (example_world [claimed_row "a"])
    = (Raise (mk_exn KeyError "'pgx_extraction'"), w')
    /\ stored default_repository "a" w' = Some p'
    /\ attempts p' = 2%Z
    /\ state p' = P1_WIP
    /\ journal w' = [CallIncrementAttempts "a" 2].
Proof.
  apply (run_pgx_extraction_charges_then_raises example_runtime
           (example_services text_storage) (claimed_paper "a")
           (example_world [claimed_row "a"]) (claimed_paper "a")).
  - left; reflexivity.
  - reflexivity.
Defined.

(** The attempt budget of the PDF stage under [run]: a stored record whose
    count is already [MAX_PROCESSING_ATTEMPTS] still passes
    [filter_processable], is charged to one more, and is then failed by
    [fetch_pdf] with "exceeded attempt limit" without a call to the fetcher;
    the record ends in [Failed] with no attempts. *)
Theorem run_pdf_stage_at_the_attempt_limit :
  forall (rt : Runtime) (services : PipelineServices) (paper : PaperRecord)
         (w : world) (p0 : PaperRecord),
    configured (repository_ services) ->
    stored (repository_ services) (id paper) w = Some p0 ->
    _blocked_source_url rt p0 = Ok None ->
    attempts paper = MAX_PROCESSING_ATTEMPTS ->
    filter_processable [paper] = [paper]
    /\ exists w' p',
         run rt services paper (Some pdf_acquisition) w
         = (Ok (mk_outcome (id paper) "pdf_acquisition" false "exceeded attempt limit"
                  [("duration_ms", VInt (elapsed_ms rt (timers w)))]), w')
         /\ stored (repository_ services) (id paper) w' = Some p'
         /\ state p' = FAILED
         /\ reason p' = Some "exceeded PDF acquisition attempts"
         /\ attempts p' = 0%Z
         /\ journal w'
            = journal w
              ++ [CallIncrementAttempts (id paper) (MAX_PROCESSING_ATTEMPTS + 1);
                  CallUpdateState (id paper) FAILED].
Proof.
  intros rt services paper w p0 Hconf Hst Hblocked Hatt.
  split.
  { unfold filter_processable. cbn [filter]. rewrite Hatt. reflexivity. }
  destruct (stored_inv (repository_ services) (id paper) w p0 Hst)
    as (_ & _ & _ & Hid).
  destruct (increment_attempts_stored rt (repository_ services) Hconf (id paper)
              (attempts paper) w p0 Hst) as [Hrun Hst1].
  rewrite Hatt in Hrun, Hst1.
  pose (p1 := charged (MAX_PROCESSING_ATTEMPTS + 1) (now_iso rt (clock w)) p0).
  pose (w1 := after_increment rt (id paper) (MAX_PROCESSING_ATTEMPTS + 1) w).
  destruct (update_state_reason rt (repository_ services) Hconf (id paper) FAILED
              "exceeded PDF acquisition attempts" w1 p1 Hst1) as [Hup Hst2].
  assert (Hstage : fetch_pdf rt p1 (repository_ services) (storage_ services)
                     (pdf_fetcher_ services) w1
                   = (Ok (mk_outcome (id paper) "pdf_acquisition" false
                            "exceeded attempt limit" []),
                      after_update_state rt (repository_ services) (id paper) FAILED
                        (reason_update "exceeded PDF acquisition attempts") w1)).
  { unfold fetch_pdf, bind, lift, ret.
    change (_blocked_source_url rt p1) with (_blocked_source_url rt p0).
    rewrite Hblocked.
    change (attempts p1 >? MAX_PROCESSING_ATTEMPTS)%Z with true.
    change (id p1) with (id p0). rewrite Hid. cbv iota.
    rewrite Hup. reflexivity. }
  do 2 eexists. split.
  - unfold run, bind, mark_processing_attempt, lift, try_except.
    rewrite Hatt, Hrun. cbn [_executors]. unfold _pdf_stage.
    fold p1. fold w1. rewrite Hstage. reflexivity.
  - split; [exact Hst2|]. repeat split.
    cbn. rewrite <- app_assoc. reflexivity.
Qed.

(** A record on its third try: failed before the fetcher is asked. *)
Lemma run_pdf_stage_at_the_attempt_limit_witness :
  let paper := example_paper "a" "Some title" PDF_NOT_AVAILABLE 1 2 in
  let w := example_world [example_row "a" "Some title" "PDF Not Available" 1 2] in
  filter_processable [paper] = [paper]
  /\ exists w' p',
       run example_runtime (example_services keeping_storage) paper
         (Some pdf_acquisition) w
       = (Ok (mk_outcome "a" "pdf_acquisition" false "exceeded attempt limit"
                [("duration_ms", VInt 5)]), w')
       /\ stored default_repository "a" w' = Some p'
       /\ state p' = FAILED
       /\ reason p' = Some "exceeded PDF acquisition attempts"
       /\ attempts p' = 0%Z
       /\ journal w' = [CallIncrementAttempts "a" 3; CallUpdateState "a" FAILED].
Proof.
  intros paper w.
  apply (run_pdf_stage_at_the_attempt_limit example_runtime
           (example_services keeping_storage) paper w paper).
  - left; reflexivity.
  - reflexivity.
  - reflexivity.
  - reflexivity.
Defined.


(* ------------------------------------------------------------------ *)
(** ** pipelines/harness.py *)

Lemma fetch_pdf_paper_id rt paper repository storage fetcher w o w' :
  fetch_pdf rt paper repository storage fetcher w = (Ok o, w') ->
  paper_id o = id paper.
Proof.
  unfold fetch_pdf, bind, ret, lift, raise, try_except, record_call.
  intros H. step_outcome H.
  match goal with
  | Hp : (let (_, _) := match fetch ?f ?p with _ => _ end in _) = _ |- _ =>
      destruct (fetch f p); cbn in Hp; inversion Hp; subst
  end.
  injection H as <- _. reflexivity.
Qed.

Lemma extract_citations_paper_id rt paper repository storage extractor threshold w o w' :
  extract_citations rt paper repository storage extractor threshold w = (Ok o, w') ->
  paper_id o = id paper.
Proof.
  unfold extract_citations, bind, ret, lift. intros H. step_outcome H.
Qed.

(** Whatever [run] returns is an outcome for the paper it was given. *)
Lemma run_respects rt services stage_ :
  respects (fun paper => run rt services paper stage_).
Proof.
  intros paper w o w'. unfold run.
  destruct (match stage_ with
            | Some s => Some s
            | None => stage_for_state (state paper)
            end) as [target|].
  - unfold bind, mark_processing_attempt.
    destruct (increment_attempts _ _ _ _ _) as [[p'|e] w1] eqn:Hinc; try discriminate.
    apply increment_attempts_id in Hinc.
    unfold lift. destruct (_executors rt services target) as [executor|e] eqn:He;
      try discriminate.
    unfold try_except, measure_ms, ret.
    destruct (executor p' w1) as [[o1|exc] w2] eqn:Hs;
      intros H; injection H as <- _; cbn [setdefault paper_id]; [|exact Hinc].
    rewrite <- Hinc.
    destruct target; cbn [_executors] in He; try discriminate; injection He as <-.
    + eapply fetch_pdf_paper_id; exact Hs.
    + eapply extract_text_paper_id; exact Hs.
    + eapply score_text_paper_id; exact Hs.
    + eapply extract_citations_paper_id; exact Hs.
  - unfold ret. intros H. injection H as <- _. reflexivity.
Qed.

Lemma run_each_spec task papers_ :
  respects task ->
  forall w outs w',
    run_each task papers_ w = (Ok outs, w') -> map paper_id outs = map id papers_.
Proof.
  intros Htask. induction papers_ as [|paper rest IH]; intros w outs w'; cbn [run_each].
  - unfold ret. intros H. injection H as <- _. reflexivity.
  - unfold bind, ret.
    destruct (task paper w) as [[o|e] w1] eqn:Ht; try discriminate.
    destruct (run_each task rest w1) as [[os|e] w2] eqn:Hrest; try discriminate.
    intros H. injection H as <- _. cbn [map]. f_equal; eauto.
Qed.

(** [collect_results] fills the slots as [collect_as_completed] does; it only
    has no callback. *)
Lemma collect_results_fst stage_ papers_ futures :
  forall slots w w0,
    fst (collect_results futures slots w)
    = fst (collect_as_completed stage_ papers_ futures slots w0).
Proof.
  induction futures as [|[idx [o|e]] rest IH]; intros slots w w0;
    cbn [collect_results collect_as_completed]; unfold bind, lift, record_call;
    cbn [fst]; auto.
Qed.

Lemma present_length {A} (slots : list (option A)) :
  (length (present slots) <= length slots)%nat.
Proof.
  induction slots as [|[a|] t IH]; cbn [present length]; lia.
Qed.

Lemma filter_processable_length papers_ :
  (length (filter_processable papers_) <= length papers_)%nat.
Proof. unfold filter_processable. apply filter_length_le. Qed.

Lemma fetch_by_state_at_level_length repository st level_ limit seed_number_ w fetched w' :
  fetch_by_state_at_level repository st level_ limit seed_number_ w = (Ok fetched, w') ->
  (length fetched <= Z.to_nat limit)%nat.
Proof.
  unfold fetch_by_state_at_level, bind, record_call, db_select, lift.
  intros H. injection H as Hmap _. apply map_result_inv in Hmap.
  rewrite <- (Forall2_length Hmap). unfold limit_rows. rewrite length_firstn. lia.
Qed.

(** [ProcessingHarness.run]: with [max_steps <= 0] it returns the empty list
    and asks the repository nothing; for the stage [pgx_extraction], which
    [STATE_FOR_STAGE] does not hold, it raises [KeyError] before any call.
    When it returns, it returns at most [max_steps] outcomes; the candidates
    are the records of the stage's state at the level, [max_steps] of them at
    most, so that the slice [[:max_steps]] cuts nothing, and the outcomes
    answer for the processable candidates, one each and in their order, with
    one worker and with a pool alike. *)
Theorem harness_run_outcomes_follow_candidates :
  forall (rt : Runtime) (services : PipelineServices) (stage_ : StageName)
         (level_ max_steps max_workers : Z) (schedule : list nat) (w : world),
    ((max_steps <= 0)%Z ->
     harness_run rt services stage_ level_ max_steps max_workers schedule w = (Ok [], w))
    /\ ((0 < max_steps)%Z ->
        harness_run rt services pgx_extraction level_ max_steps max_workers schedule w
        = (Raise (mk_exn KeyError "'pgx_extraction'"), w))
    /\ (forall outs w',
          (0 < max_steps)%Z ->
          harness_run rt services stage_ level_ max_steps max_workers schedule w
          = (Ok outs, w') ->
          (length outs <= Z.to_nat max_steps)%nat
          /\ exists st candidates w0,
               In (stage_, st) STATE_FOR_STAGE
               /\ fetch_by_state_at_level (repository_ services) st level_ max_steps None w
                  = (Ok candidates, w0)
               /\ (Permutation schedule (seq 0 (length (filter_processable candidates))) ->
                   map paper_id outs = map id (filter_processable candidates))).
Proof.
  intros rt services stage_ level_ max_steps max_workers schedule w.
  split; [|split].
  - intros Hle. unfold harness_run. apply Z.leb_le in Hle. now rewrite Hle.
  - intros Hlt. unfold harness_run.
    assert ((max_steps <=? 0)%Z = false) as -> by (apply Z.leb_gt; lia).
    reflexivity.
  - intros outs w' Hlt. unfold harness_run.
    assert ((max_steps <=? 0)%Z = false) as -> by (apply Z.leb_gt; lia).
    unfold bind at 1. unfold lift.
    destruct (state_for_stage stage_) as [st|e] eqn:Hstage; try discriminate.
    assert (Hin : In (stage_, st) STATE_FOR_STAGE).
    { destruct stage_; vm_compute in Hstage; try discriminate;
        injection Hstage as <-; cbn; tauto. }
    unfold bind at 1.
    destruct (fetch_by_state_at_level (repository_ services) st level_ max_steps None w)
      as [[candidates|e] w0] eqn:Hfetch; try discriminate.
    pose proof (fetch_by_state_at_level_length _ _ _ _ _ _ _ _ Hfetch) as Hlen.
    pose proof (filter_processable_length candidates) as Hfl.
    rewrite (firstn_all2 (n := Z.to_nat max_steps) (filter_processable candidates))
      by lia.
    set (papers_ := filter_processable candidates) in *.
    set (task := fun paper => run rt services paper (Some stage_)).
    assert (Htask : respects task) by apply run_respects.
    intros Hrun.
    assert (Hmain : (length outs <= length papers_)%nat
                    /\ (Permutation schedule (seq 0 (length papers_)) ->
                        map paper_id outs = map id papers_)).
    { destruct papers_ as [|p0 ps] eqn:Hp.
      - unfold ret in Hrun. injection Hrun as <- _. split; auto.
      - rewrite <- Hp in *. clear Hp.
        destruct ((max_workers <=? 1)%Z || (length papers_ =? 1)%nat).
        + pose proof (run_each_spec task papers_ Htask _ _ _ Hrun) as Hmap.
          split; auto.
          rewrite <- (length_map id papers_), <- Hmap, length_map. lia.
        + unfold bind in Hrun.
          destruct (run_pool_spec task papers_ schedule w0)
            as (futures & w1 & Hpool & Hmap & Hfut).
          rewrite Hpool in Hrun.
          destruct (collect_results futures (repeat None (length papers_)) w1)
            as [[slots'|e] w2] eqn:Hcol; try discriminate.
          unfold ret in Hrun. injection Hrun as <- _.
          pose proof (collect_results_fst "harness" papers_ futures
                        (repeat None (length papers_)) w1 w1) as Hfst.
          rewrite Hcol in Hfst. cbn [fst] in Hfst.
          destruct (collect_as_completed "harness" papers_ futures
                      (repeat None (length papers_)) w1) as [r w3] eqn:Hcol'.
          cbn [fst] in Hfst. subst r.
          apply (collect_spec "harness" task Htask) in Hcol';
            auto using agree_none.
          destruct Hcol' as (Hag & Hlen' & Hfill).
          rewrite repeat_length in Hlen', Hfill.
          split.
          * rewrite <- Hlen'. apply present_length.
          * intros Hperm. apply present_agree; auto.
            intros i Hi. rewrite Hlen' in Hi. apply Hfill; auto. right.
            rewrite Hmap. apply filter_In. split.
            -- eapply Permutation_in; [symmetry; exact Hperm|]. apply in_seq. lia.
            -- now apply Nat.ltb_lt. }
    destruct Hmain as [Hcount Hfollow].
    split; [lia|]. exists st, candidates, w0. auto.
Qed.

(** Two stored PDFs, one worker, three steps allowed: two outcomes, in the
    order of the candidates. *)
Example harness_run_of_two :
  exists outs w',
    harness_run example_runtime (example_services keeping_storage) text_extraction
      1 3 1 [] two_pdfs = (Ok outs, w')
    /\ map paper_id outs = ["a"; "b"]
    /\ map stage outs = ["text_extraction"; "text_extraction"].
Proof.
  do 2 eexists. split; [vm_compute; reflexivity|]. split; reflexivity.
Qed.


(* ------------------------------------------------------------------ *)
(** ** pipelines/seed.py and [create_pdf_available] *)

(** [upload_seed_pdf] stores the file before it inserts the row, both under
    one fresh id.  When the storage raises, the exception propagates and no
    row is inserted.  When the file is stored, the table keeps its rows and
    gains at most one: either the insert raised a [RepositoryError] and the
    table is as it was (the stored file stays behind), or one row was added
    and is returned as a record, which under a configured state column is
    [PDF Available] with no attempts, the given title, level, parent and seed
    number, the reference of the stored file, the MD5 of the bytes and empty
    metadata. *)
Theorem upload_seed_pdf_stores_then_inserts :
  forall (rt : Runtime) (file_bytes filename_ title_ : string) (level_ : Z)
         (seed_number_ : option Z) (repository : PaperRepository)
         (storage : StorageGateway) (parent_id_ : option string) (w : world),
    let pid := uuid4 rt (uuids w) in
    let run := upload_seed_pdf rt file_bytes filename_ title_ level_ seed_number_
                 repository storage parent_id_ w in
    (forall e, store_pdf storage pid filename_ file_bytes = Raise e ->
               fst run = Raise e /\ papers (snd run) = papers w)
    /\ (forall ref, store_pdf storage pid filename_ file_bytes = Ok ref ->
          pid <> "" ->
          (papers (snd run) = papers w
           /\ exists e, fst run = Raise e /\ is_RepositoryError e = true)
          \/ (exists row,
                papers (snd run) = papers w ++ [row]
                /\ fst run = _to_record repository row
                /\ (configured repository ->
                    forall p, fst run = Ok p ->
                      id p = pid
                      /\ title p = title_
                      /\ state p = PDF_AVAILABLE
                      /\ attempts p = 0%Z
                      /\ level p = level_
                      /\ parent_id p = parent_id_
                      /\ seed_number p = seed_number_
                      /\ pdf_ref p = ref_of (uri ref)
                      /\ pdf_md5 p = Some (md5_hexdigest rt file_bytes)
                      /\ metadata p = []))).
Proof.
  intros rt file_bytes filename_ title_ level_ seed_number_ repository storage
    parent_id_ w pid run. subst run. split.
  - intros e He. unfold upload_seed_pdf, bind, new_uuid, lift. fold pid.
    rewrite He. split; reflexivity.
  - intros ref Href Hpid.
    unfold upload_seed_pdf, bind, new_uuid, lift. fold pid. rewrite Href.
    unfold create_pdf_available, bind, ret, _execute, lift.
    destruct pid as [|c r] eqn:Ep; [now elim Hpid|].
    match goal with
    | |- context [_execute_from ?n ?a (insert_builder rt ?payload) ?w0] =>
        set (pl := payload) in *; set (w1 := w0) in *;
        destruct (_execute_from n a (insert_builder rt pl) w1) as [r0 w2] eqn:E
    end.
    apply execute_insert_cases in E.
    destruct E as [[-> ->]|(e & -> & He & ->)]; cbn [fst snd _single].
    + right. eexists. split; [reflexivity|]. split.
      { destruct (_to_record repository _); reflexivity. }
      intros Hconf p Hp.
      assert (Hrec : _to_record repository
                       (set "created_at" (VStr (now_iso rt (clock w1))) pl) = Ok p).
      { destruct (_to_record repository _); simpl in Hp; congruence. }
      clear Hp. destruct repository as [sc]. destruct ref as [[|uc ur]].
      all: destruct Hconf as [Hc|Hc]; simpl in Hc; subst sc; subst pl;
        destruct seed_number_; destruct parent_id_;
        cbv in Hrec; injection Hrec as <-; repeat split.
    + left. split; [reflexivity|]. exists e. auto.
Qed.

(** A seed PDF uploaded to an empty table. *)
Lemma upload_seed_pdf_stores_then_inserts_witness :
  let run := upload_seed_pdf example_runtime "%PDF" "seed.pdf" "Seed paper" 1 (Some 7%Z)
               default_repository keeping_storage None (example_world []) in
  exists p,
    fst run = Ok p
    /\ length (papers (snd run)) = 1%nat
    /\ id p = uuid4 example_runtime 0
    /\ title p = "Seed paper"
    /\ state p = PDF_AVAILABLE
    /\ attempts p = 0%Z
    /\ level p = 1%Z
    /\ seed_number p = Some 7%Z.
Proof.
  intros run.
  assert (Hrun : exists p, fst run = Ok p) by (vm_compute; eauto).
  destruct Hrun as (p & Hp).
  destruct (upload_seed_pdf_stores_then_inserts example_runtime "%PDF" "seed.pdf"
              "Seed paper" 1 (Some 7%Z) default_repository keeping_storage None
              (example_world [])) as [_ Hstored].
  destruct (store_pdf keeping_storage (uuid4 example_runtime 0) "seed.pdf" "%PDF")
    as [ref|e] eqn:Es; [|vm_compute in Es; discriminate].
  destruct (Hstored ref Es) as [(_ & e & He & _)|(row & Hrows & _ & Hfields)].
  - vm_compute. discriminate.
  - fold run in He. rewrite Hp in He. discriminate.
  - exists p. split; [exact Hp|]. split.
    { fold run in Hrows. rewrite Hrows. reflexivity. }
    destruct (Hfields (or_introl eq_refl) p Hp)
      as (Hid & Ht & Hs & Ha & Hl & _ & Hseed & _).
    repeat split; auto.
Defined.


(* ------------------------------------------------------------------ *)
(** ** pipelines/citation_stage.py *)

Lemma citation_task_respects rt repository storage extractor threshold :
  respects (citation_task rt repository storage extractor threshold).
Proof.
  intros paper w o w'. unfold citation_task, bind, mark_processing_attempt.
  destruct (increment_attempts _ _ _ _ _) as [[p'|e] w1] eqn:Hinc; try discriminate.
  intros H. apply extract_citations_paper_id in H.
  apply increment_attempts_id in Hinc. congruence.
Qed.

(** The records that [fetch_by_state_at_level] returns are in the state and
    on the level. *)
Lemma fetch_by_state_at_level_members repository st level_ limit seed_number_ w fetched w' :
  fetch_by_state_at_level repository st level_ limit seed_number_ w = (Ok fetched, w') ->
  forall p, In p fetched -> state p = st /\ level p = level_.
Proof.
  unfold fetch_by_state_at_level, bind, record_call, db_select, lift.
  intros H. injection H as Hmap _. apply map_result_inv in Hmap.
  intros p Hin. destruct (Forall2_in_right _ _ _ _ Hmap Hin) as (row & Hrow & Hrec).
  unfold limit_rows in Hrow. apply firstn_in, order_rows_in, filter_In in Hrow.
  destruct Hrow as [_ Hhit].
  apply andb_true_iff in Hhit. destruct Hhit as [Hhit _].
  apply andb_true_iff in Hhit. destruct Hhit as [Hstate Hlevel].
  split; [eapply to_record_state; eauto|eapply to_record_at_level; eauto].
Qed.

(** [process_citation_batch] works on the [Scored] records of the level that
    have a score at or above the threshold and attempts within the budget, and
    on no other: when it returns, the outcomes answer for exactly these
    candidates, one each and in their order; a candidate without a score or
    below the threshold gets no outcome, and when no candidate is eligible
    the batch returns the empty list and does nothing after the query. *)
Theorem citation_batch_runs_eligible_candidates :
  forall (rt : Runtime) (batch_size : Z) (repository : PaperRepository)
         (storage : StorageGateway) (extractor : CitationExtractor) (threshold : float)
         (level_ : Z) (seed_number_ : option Z) (max_workers : Z) (schedule : list nat)
         (w : world) (outs : list StageOutcome) (w' : world),
    process_citation_batch rt batch_size repository storage extractor threshold
      level_ seed_number_ max_workers schedule w = (Ok outs, w') ->
    exists candidates w0,
      fetch_by_state_at_level repository SCORED level_ batch_size seed_number_ w
      = (Ok candidates, w0)
      /\ let papers_ :=
           filter_processable (filter (eligible_for_citations threshold) candidates) in
         (Permutation schedule (seq 0 (length papers_)) ->
          map paper_id outs = map id papers_)
         /\ (forall paper, In paper papers_ ->
               In paper candidates
               /\ state paper = SCORED
               /\ level paper = level_
               /\ (attempts paper <= MAX_PROCESSING_ATTEMPTS)%Z
               /\ exists s, score paper = Some s /\ PrimFloat.leb threshold s = true)
         /\ (papers_ = [] -> outs = [] /\ w' = w0).
Proof.
  intros rt batch_size repository storage extractor threshold level_ seed_number_
    max_workers schedule w outs w'.
  unfold process_citation_batch. unfold bind at 1.
  destruct (fetch_by_state_at_level repository SCORED level_ batch_size seed_number_ w)
    as [[candidates|e] w0] eqn:Hfetch; try discriminate.
  intros Hrun. exists candidates, w0. split; [reflexivity|]. cbv zeta.
  set (papers_ := filter_processable (filter (eligible_for_citations threshold) candidates))
    in *.
  split; [|split].
  - intros Hperm.
    apply (run_batch_spec "citations"
             (citation_task rt repository storage extractor threshold)
             (citation_task_respects rt repository storage extractor threshold)
             papers_ max_workers schedule w0 (Ok outs) w' Hperm Hrun).
  - intros paper Hin. unfold papers_, filter_processable in Hin.
    apply filter_In in Hin. destruct Hin as [Hin Hatt].
    apply filter_In in Hin. destruct Hin as [Hin Hel].
    destruct (fetch_by_state_at_level_members _ _ _ _ _ _ _ _ Hfetch paper Hin)
      as [Hs Hl].
    split; [exact Hin|]. split; [exact Hs|]. split; [exact Hl|].
    split; [now apply Z.leb_le|].
    unfold eligible_for_citations in Hel.
    destruct (score paper) as [s|]; [eauto|discriminate].
  - intros Hnone. rewrite Hnone in Hrun. unfold run_batch, ret in Hrun.
    injection Hrun as <- <-. auto.
Qed.

(** Four [Scored] rows, two of them eligible: two outcomes. *)
Lemma citation_batch_runs_eligible_candidates_witness :
  exists outs w',
    process_citation_batch example_runtime 10 default_repository text_storage
      (citing []) 7.0%float 1 None 2 [1; 0]%nat citation_queue = (Ok outs, w')
    /\ map paper_id outs = ["a"; "d"]
    /\ map message outs = ["citations created"; "citations created"].
Proof.
  destruct (process_citation_batch example_runtime 10 default_repository text_storage
              (citing []) 7.0%float 1 None 2 [1; 0]%nat citation_queue)
    as [[outs|e] w'] eqn:E; [|vm_compute in E; discriminate].
  exists outs, w'. split; [reflexivity|].
  destruct (citation_batch_runs_eligible_candidates example_runtime 10
              default_repository text_storage (citing []) 7.0%float 1 None 2 [1; 0]%nat
              citation_queue outs w' E) as (candidates & w0 & Hfetch & Hfollow & _ & _).
  vm_compute in Hfetch. injection Hfetch as <- _.
  split.
  - apply Hfollow. apply perm_swap.
  - vm_compute in E. injection E as <- _. reflexivity.
Defined.


(* ------------------------------------------------------------------ *)
(** ** pipelines/pdf_acquisition_stage.py *)

(** The [_process] of the PDF batch on a stored record whose PDF is not
    found: the attempt is charged, the fetcher is asked once, nothing else is
    written. *)
Lemma pdf_task_not_found rt repository storage fetcher paper w p0 :
  configured repository ->
  stored repository (id paper) w = Some p0 ->
  _blocked_source_url rt p0 = Ok None ->
  (attempts paper < MAX_PROCESSING_ATTEMPTS)%Z ->
  fetch fetcher (charged (attempts paper + 1) (now_iso rt (clock w)) p0) = Ok None ->
  bind (mark_processing_attempt rt repository paper)
       (fun updated => fetch_pdf rt updated repository storage fetcher) w
  = (Ok (mk_outcome (id paper) "pdf_acquisition" false "pdf not found"
           [("reason", VStr "No PDF found")]),
     with_journal
       (journal (after_increment rt (id paper) (attempts paper + 1) w)
        ++ [CallFetcher (id paper)])
       (after_increment rt (id paper) (attempts paper + 1) w)).
Proof.
  intros Hconf Hst Hblocked Hatt Hfetch.
  destruct (stored_inv repository (id paper) w p0 Hst) as (_ & _ & _ & Hid).
  destruct (increment_attempts_stored rt repository Hconf (id paper)
              (attempts paper) w p0 Hst) as [Hrun _].
  unfold bind, mark_processing_attempt. rewrite Hrun.
  unfold fetch_pdf, bind, lift, try_except, record_call, ret.
  change (_blocked_source_url rt (charged (attempts paper + 1) (now_iso rt (clock w)) p0))
    with (_blocked_source_url rt p0).
  rewrite Hblocked. cbn [attempts charged id].
  assert ((attempts paper + 1 >? MAX_PROCESSING_ATTEMPTS)%Z = false) as ->.
  { rewrite Z.gtb_ltb. apply Z.ltb_ge. lia. }
  rewrite Hfetch, Hid. reflexivity.
Qed.

(** A soft failure costs an attempt.  When [process_pdf_acquisition_batch]
    finds one candidate, stored as fetched, unblocked and below the attempt
    limit, and the fetcher finds no PDF for it, the batch returns the single
    failure "pdf not found" and the stored record keeps its state but has one
    attempt more; the calls are the query, the charge, one fetcher call and
    the completion callback. *)
Theorem pdf_batch_not_found_costs_an_attempt :
  forall (rt : Runtime) (batch_size : Z) (repository : PaperRepository)
         (storage : StorageGateway) (fetcher : PdfFetcher) (level_ : Z)
         (seed_number_ : option Z) (max_workers : Z) (schedule : list nat)
         (w w0 : world) (paper : PaperRecord),
    configured repository ->
    fetch_by_state_at_level repository PDF_NOT_AVAILABLE level_ batch_size seed_number_ w
    = (Ok [paper], w0) ->
    stored repository (id paper) w = Some paper ->
    _blocked_source_url rt paper = Ok None ->
    (attempts paper < MAX_PROCESSING_ATTEMPTS)%Z ->
    fetch fetcher (charged (attempts paper + 1) (now_iso rt (clock w)) paper) = Ok None ->
    exists w' p',
      process_pdf_acquisition_batch rt batch_size repository storage fetcher level_
        seed_number_ max_workers schedule w
      = (Ok [mk_outcome (id paper) "pdf_acquisition" false "pdf not found"
               [("reason", VStr "No PDF found")]], w')
      /\ stored repository (id paper) w' = Some p'
      /\ state p' = PDF_NOT_AVAILABLE
      /\ attempts p' = (attempts paper + 1)%Z
      /\ journal w'
         = journal w
           ++ [CallFetchByStateAtLevel PDF_NOT_AVAILABLE level_ batch_size;
               CallIncrementAttempts (id paper) (attempts paper + 1);
               CallFetcher (id paper);
               CallCompletion "pdf_acquisition" (id paper)].
Proof.
  intros rt batch_size repository storage fetcher level_ seed_number_ max_workers
    schedule w w0 paper Hconf Hfetch Hst Hblocked Hatt Hnone.
  destruct (fetch_by_state_at_level_members _ _ _ _ _ _ _ _ Hfetch paper (or_introl eq_refl))
    as [Hstate _].
  assert (Hw0 : w0 = with_journal
                       (journal w
                        ++ [CallFetchByStateAtLevel PDF_NOT_AVAILABLE level_ batch_size]) w).
  { revert Hfetch. unfold fetch_by_state_at_level, bind, record_call, db_select, lift.
    intros H. injection H as _ <-. reflexivity. }
  assert (Hst0 : stored repository (id paper) w0 = Some paper)
    by (subst w0; exact Hst).
  assert (Hnone0 : fetch fetcher (charged (attempts paper + 1) (now_iso rt (clock w0)) paper)
                   = Ok None) by (subst w0; exact Hnone).
  pose proof (pdf_task_not_found rt repository storage fetcher paper w0 paper
                Hconf Hst0 Hblocked Hatt Hnone0) as Htask.
  destruct (increment_attempts_stored rt repository Hconf (id paper)
              (attempts paper) w0 paper Hst0) as [_ Hst1].
  do 2 eexists. split.
  - unfold process_pdf_acquisition_batch. unfold bind at 1. rewrite Hfetch.
    assert (filter_processable [paper] = [paper]) as ->.
    { unfold filter_processable. cbn [filter].
      assert ((attempts paper <=? MAX_PROCESSING_ATTEMPTS)%Z = true) as ->
        by (apply Z.leb_le; lia).
      reflexivity. }
    unfold run_batch. cbn [length Nat.eqb]. rewrite Bool.orb_true_r.
    cbn [run_in_order]. unfold bind at 1. rewrite Htask.
    unfold bind, record_call, ret. cbn [paper_id]. reflexivity.
  - split; [exact Hst1|]. split; [exact Hstate|]. split; [reflexivity|].
    subst w0. cbn. rewrite <- !app_assoc. reflexivity.
Qed.

(** One placeholder on its first try, and a fetcher that finds nothing. *)
Lemma pdf_batch_not_found_costs_an_attempt_witness :
  let paper := example_paper "a" "Some title" PDF_NOT_AVAILABLE 1 0 in
  let w := example_world [example_row "a" "Some title" "PDF Not Available" 1 0] in
  exists w' p',
    process_pdf_acquisition_batch example_runtime 5 default_repository keeping_storage
      (mk_fetcher (fun _ => Ok None)) 1 None 1 [] w
    = (Ok [mk_outcome "a" "pdf_acquisition" false "pdf not found"
             [("reason", VStr "No PDF found")]], w')
    /\ stored default_repository "a" w' = Some p'
    /\ state p' = PDF_NOT_AVAILABLE
    /\ attempts p' = 1%Z
    /\ journal w'
       = [CallFetchByStateAtLevel PDF_NOT_AVAILABLE 1 5;
          CallIncrementAttempts "a" 1; CallFetcher "a";
          CallCompletion "pdf_acquisition" "a"].
Proof.
  intros paper w.
  apply (pdf_batch_not_found_costs_an_attempt example_runtime 5 default_repository
           keeping_storage (mk_fetcher (fun _ => Ok None)) 1 None 1 [] w
           (with_journal [CallFetchByStateAtLevel PDF_NOT_AVAILABLE 1 5] w) paper).
  - left; reflexivity.
  - reflexivity.
  - reflexivity.
  - reflexivity.
  - reflexivity.
  - reflexivity.
Defined.


(* ------------------------------------------------------------------ *)
(** ** [process_pgx_extraction] on a PDF without samples *)

(** An extraction that finds no sample is a failure of the paper, not of the
    run: with a PDF reference and readable bytes, when the extractor returns
    no row, [process_pgx_extraction] inserts nothing, moves the record to
    [P1Failure] with the reason "No PGX samples extracted", and returns the
    failure "no pgx samples extracted" with the page count and a hint. *)
Theorem process_pgx_extraction_without_samples :
  forall (rt : Runtime) (paper : PaperRecord) (repository : PaperRepository)
         (storage : StorageGateway) (extractor : PgxExtractor)
         (pdf_bytes : option string) (page_count : option Z) (table : string)
         (w : world) (p0 : PaperRecord) (ref : StorageRef) (current : string),
    configured repository ->
    stored repository (id paper) w = Some p0 ->
    pdf_ref paper = Some ref ->
    loaded_pdf storage ref pdf_bytes = Ok current ->
    extract_pdf extractor current = Ok [] ->
    let pages := match page_count with
                 | None => pdf_page_count rt current
                 | Some _ => page_count
                 end in
    exists w' p',
      process_pgx_extraction rt paper repository storage extractor pdf_bytes page_count
        table w
      = (Ok (mk_outcome (id paper) "pgx_extraction" false "no pgx samples extracted"
               [("page_count", opt_int_value pages); ("hint", VStr pgx_hint)]), w')
      /\ stored repository (id paper) w' = Some p'
      /\ state p' = P1_FAILURE
      /\ reason p' = Some "No PGX samples extracted"
      /\ attempts p' = 0%Z
      /\ extraction_rows w' = extraction_rows w
      /\ journal w' = journal w ++ [CallUpdateState (id paper) P1_FAILURE].
Proof.
  intros rt paper repository storage extractor pdf_bytes page_count table w p0 ref current
    Hconf Hst Href Hload Hextract pages.
  destruct (update_state_reason rt repository Hconf (id paper) P1_FAILURE
              "No PGX samples extracted" w p0 Hst) as [Hrun Hstored].
  eexists _, _. split.
  { unfold process_pgx_extraction, _pgx_source_ref. rewrite Href.
    unfold bind, try_except, ret, lift.
    assert (Hbytes : (match pdf_bytes with
                      | Some b => fun w0 : world => (Ok b, w0)
                      | None => fun w0 : world => (fetch_blob storage ref, w0)
                      end) w = (Ok current, w)).
    { unfold loaded_pdf in Hload. destruct pdf_bytes; now rewrite Hload. }
    match goal with
    | |- context [?m w] =>
        match m with
        | match pdf_bytes with Some _ => _ | None => _ end =>
            change (m w) with
              ((match pdf_bytes with
                | Some b => fun w0 : world => (Ok b, w0)
                | None => fun w0 : world => (fetch_blob storage ref, w0)
                end) w)
        end
    end.
    rewrite Hbytes. cbv beta iota. rewrite Hextract. cbv beta iota.
    match goal with
    | |- context [update_state ?a ?b ?c ?d ?e ?f] =>
        destruct (update_state a b c d e f) as [r1 w2] eqn:Hu
    end.
    first [ pose proof (eq_trans (eq_sym Hu) Hrun) as Heq; injection Heq as -> ->
          | clear Hu; injection Hrun as -> -> ].
    reflexivity. }
  split; [exact Hstored|]. repeat split.
Qed.

(** A readable PDF without a single sample. *)
Lemma process_pgx_extraction_without_samples_witness :
  exists w' p',
    process_pgx_extraction example_runtime (claimed_paper "a") default_repository
      text_storage empty_extractor None None "pgx_extractions"
      (example_world [claimed_row "a"])
    = (Ok (mk_outcome "a" "pgx_extraction" false "no pgx samples extracted"
             [("page_count", VInt 1); ("hint", VStr pgx_hint)]), w')
    /\ stored default_repository "a" w' = Some p'
    /\ state p' = P1_FAILURE
    /\ reason p' = Some "No PGX samples extracted"
    /\ attempts p' = 0%Z
    /\ extraction_rows w' = []
    /\ journal w' = [CallUpdateState "a" P1_FAILURE].
Proof.
  apply (process_pgx_extraction_without_samples example_runtime (claimed_paper "a")
           default_repository text_storage empty_extractor None None "pgx_extractions"
           (example_world [claimed_row "a"]) (claimed_paper "a")
           (mk_ref "storage://pdfs/a") "text").
  - left; reflexivity.
  - reflexivity.
  - reflexivity.
  - reflexivity.
  - reflexivity.
Defined.
